(** * TradeTracker: the trade-entry conversation, the reports and the PnL
    calculator of [main_en.py], embedded in Rocq.

    The bot keeps one dictionary of per-chat sessions ([user_states]) and two
    relational tables, [balances] (one row per user and day) and
    [calcbalances] (one row per trade).  Handlers are embedded as functions
    from the session store and the database to their new values together with
    the list of messages sent.  Python floats are IEEE binary64 values, taken
    here as [spec_float] with the operations of [SpecFloat] at precision 53;
    text is the UTF-8 byte string of the Python [str]. *)

From Stdlib Require Import ZArith NArith Ascii String List Bool Lia.
From Corelib Require Import SpecFloat.
From stdpp Require Import base option list sorting gmap strings pretty.

Local Open Scope Z_scope.

(** ** Python floats *)

Module PyFloat.

Definition prec : Z := 53.
Definition emax : Z := 1024.

Definition add : spec_float -> spec_float -> spec_float := SFadd prec emax.
Definition sub : spec_float -> spec_float -> spec_float := SFsub prec emax.
Definition mul : spec_float -> spec_float -> spec_float := SFmul prec emax.
Definition div : spec_float -> spec_float -> spec_float := SFdiv prec emax.
Definition neg : spec_float -> spec_float := SFopp.
Definition abs : spec_float -> spec_float := SFabs.
Definition eqb : spec_float -> spec_float -> bool := SFeqb.
Definition leb : spec_float -> spec_float -> bool := SFleb.

Definition zero : spec_float := S754_zero false.

(** The double nearest to the rational [n / d], ties to even, with sign
    [s]; this is what the conversion of a decimal numeral produces. *)
Definition nearest_ratio (s : bool) (n d : positive) : spec_float :=
  SFdiv prec emax (S754_finite s n 0) (S754_finite false d 0).

(** The double nearest to [m * 10 ^ e]. *)
Definition of_decimal (s : bool) (m : N) (e : Z) : spec_float :=
  match m with
  | N0 => S754_zero s
  | Npos p =>
      match e with
      | Zneg k => nearest_ratio s p (10 ^ k)
      | Z0 => nearest_ratio s p 1
      | Zpos k => nearest_ratio s (p * 10 ^ k) 1
      end
  end.

(** [float(n)] for an integer literal of the source. *)
Definition of_Z (n : Z) : spec_float :=
  match n with
  | Z0 => zero
  | Zpos p => nearest_ratio false p 1
  | Zneg p => nearest_ratio true p 1
  end.

Definition is_finite (x : spec_float) : bool :=
  match x with
  | S754_zero _ | S754_finite _ _ _ => true
  | _ => false
  end.

(** The value a DOUBLE PRECISION column holds after a Python float was
    written to it.  psycopg2 sends a finite float as its [repr], which
    PostgreSQL reads as a numeric literal and then converts to the type of
    the column; the numeric zero has no sign, so [-0.0] arrives as [+0.0].
    Every other finite float comes back as it was, and NaN and the
    infinities are sent as quoted float values. *)
Definition stored (x : spec_float) : spec_float :=
  match x with
  | S754_zero true => S754_zero false
  | _ => x
  end.

Definition is_zero (x : spec_float) : bool :=
  match x with
  | S754_zero _ => true
  | _ => false
  end.

(** Quotient of [a] by [b > 0] rounded to the nearest integer, ties to the
    even one. *)
Definition half_even_div (a b : Z) : Z :=
  let q := a / b in
  match 2 * (a mod b) ?= b with
  | Lt => q
  | Gt => q + 1
  | Eq => if Z.even q then q else q + 1
  end.

(** [round(x, 2)]: CPython prints the exact value of [x] with two digits
    after the point, correctly rounded with ties to the even digit, and
    reads the numeral back; infinities and NaN round to themselves and the
    sign of [x] is kept. *)
Definition round2 (x : spec_float) : spec_float :=
  match x with
  | S754_finite s m e =>
      let hundredths :=
        match e with
        | Zneg k => half_even_div (Zpos m * 100) (2 ^ Zpos k)
        | _ => Zpos m * 100 * 2 ^ e
        end in
      match hundredths with
      | Zpos h => nearest_ratio s h 100
      | _ => S754_zero s
      end
  | _ => x
  end.

End PyFloat.

Abbreviation pyfloat := spec_float.

(** ** Python text *)

Module PyStr.

Local Open Scope N_scope.

Definition byte (c : ascii) : N := N_of_ascii c.

Definition between (lo hi n : N) : bool := (lo <=? n) && (n <=? hi).

(** Number of leading bytes of [s] that encode one white-space character
    in the sense of [str.isspace], [0%nat] when [s] does not start with one:
    U+0009..000D, U+001C..0020, U+0085, U+00A0, U+1680, U+2000..200A,
    U+2028, U+2029, U+202F, U+205F, U+3000. *)
Definition space_prefix (s : string) : nat :=
  match s with
  | EmptyString => 0%nat
  | String c0 r0 =>
      let b0 := byte c0 in
      if between 9 13 b0 || between 28 32 b0 then 1%nat
      else
        match r0 with
        | EmptyString => 0%nat
        | String c1 r1 =>
            let b1 := byte c1 in
            if (b0 =? 194) && ((b1 =? 133) || (b1 =? 160)) then 2%nat
            else
              match r1 with
              | EmptyString => 0%nat
              | String c2 _ =>
                  let b2 := byte c2 in
                  if (b0 =? 225) && (b1 =? 154) && (b2 =? 128) then 3%nat
                  else if (b0 =? 226) && (b1 =? 128)
                          && (between 128 138 b2 || (b2 =? 168)
                              || (b2 =? 169) || (b2 =? 175)) then 3%nat
                  else if (b0 =? 226) && (b1 =? 129) && (b2 =? 159) then 3%nat
                  else if (b0 =? 227) && (b1 =? 128) && (b2 =? 128) then 3%nat
                  else 0%nat
              end
        end
  end.

Fixpoint drop_bytes (n : nat) (s : string) : string :=
  match n, s with
  | S n', String _ r => drop_bytes n' r
  | _, _ => s
  end.

(** [fuel] bounds the number of characters removed; the length of the text
    is always enough. *)
Fixpoint lstrip_fuel (fuel : nat) (s : string) : string :=
  match fuel with
  | O => s
  | S fuel' =>
      match space_prefix s with
      | O => s
      | n => lstrip_fuel fuel' (drop_bytes n s)
      end
  end.

Definition lstrip (s : string) : string := lstrip_fuel (String.length s) s.

Definition all_space (s : string) : bool :=
  match lstrip s with
  | EmptyString => true
  | _ => false
  end.

Fixpoint rstrip (s : string) : string :=
  match s with
  | EmptyString => EmptyString
  | String c r => if all_space s then EmptyString else String c (rstrip r)
  end.

(** [s.strip()] *)
Definition strip (s : string) : string := rstrip (lstrip s).

(** [s.replace("%", "")] *)
Fixpoint remove_percent (s : string) : string :=
  match s with
  | EmptyString => EmptyString
  | String c r =>
      if Ascii.eqb c "%" then remove_percent r else String c (remove_percent r)
  end.

Definition lower_byte (c : ascii) : ascii :=
  let b := byte c in
  if between 65 90 b then ascii_of_N (b + 32) else c.

(** [s.lower()].  Only the letters A..Z are mapped; Python also maps cased
    letters outside ASCII, none of which lowers to a text made of the
    letters of "long", "short", "yes" or "y", so every comparison the bot
    makes on a lowered text has the same outcome. *)
Fixpoint lower (s : string) : string :=
  match s with
  | EmptyString => EmptyString
  | String c r => String (lower_byte c) (lower r)
  end.

Fixpoint contains_byte (c : ascii) (s : string) : bool :=
  match s with
  | EmptyString => false
  | String c' r => Ascii.eqb c c' || contains_byte c r
  end.

End PyStr.

(** ** [float(text)] on ASCII numerals

    The grammar of CPython's [float] constructor: optional sign, then
    [inf], [infinity] or [nan] in any case, or decimal digits with an optional
    point and an optional exponent; single underscores may separate digits;
    white space around the numeral is ignored, the separators U+001C..U+001F
    excepted.  Decimal digits outside ASCII,
    which [float] also reads, are not recognised here; the handlers below
    take the conversion as a parameter and this instance is used to run them
    on ASCII input. *)

Module PyParse.

Import PyStr.

Definition is_digit (c : ascii) : bool := between 48 57 (byte c).

Definition digit_value (c : ascii) : N := (byte c - 48)%N.

(** Reads the longest run of digits at the head of [s]; returns the
    accumulated value, the number of digits read and the rest. *)
Fixpoint take_digits (s : string) (acc : N) (count : nat) : N * nat * string :=
  match s with
  | String c r =>
      if is_digit c then take_digits r (acc * 10 + digit_value c)%N (S count)
      else (acc, count, s)
  | EmptyString => (acc, count, s)
  end.

(** Underscores are dropped when each one stands between two digits. *)
Fixpoint drop_underscores (prev : ascii) (s : string) : option string :=
  match s with
  | EmptyString => if Ascii.eqb prev "_" then None else Some EmptyString
  | String c r =>
      if Ascii.eqb c "_" then
        if is_digit prev then drop_underscores c r else None
      else if Ascii.eqb prev "_" && negb (is_digit c) then None
      else String c <$> drop_underscores c r
  end.

Definition take_sign (s : string) : bool * string :=
  match s with
  | String "-" r => (true, r)
  | String "+" r => (false, r)
  | _ => (false, s)
  end.

Definition parse_inf_or_nan (s : string) : option pyfloat :=
  let '(neg, r) := take_sign s in
  let w := lower r in
  if String.eqb w "inf" || String.eqb w "infinity" then Some (S754_infinity neg)
  else if String.eqb w "nan" then Some S754_nan
  else None.

Definition parse_exponent (s : string) : Z * string :=
  match s with
  | String c r =>
      if Ascii.eqb c "e" || Ascii.eqb c "E" then
        let '(neg, r') := take_sign r in
        let '(v, n, rest) := take_digits r' 0%N 0%nat in
        match n with
        | O => (0, s)
        | _ => (if neg then - Z.of_N v else Z.of_N v, rest)
        end
      else (0, s)
  | EmptyString => (0, s)
  end.

Definition parse_decimal (s : string) : option pyfloat :=
  let '(neg, r) := take_sign s in
  let '(m1, n1, r1) := take_digits r 0%N 0%nat in
  let '(m2, n2, r2) :=
    match r1 with
    | String "." r' => take_digits r' m1 0%nat
    | _ => (m1, 0%nat, r1)
    end in
  match (n1 + n2)%nat with
  | O => None
  | _ =>
      let '(e, rest) := parse_exponent r2 in
      match rest with
      | EmptyString => Some (PyFloat.of_decimal neg m2 (e - Z.of_nat n2))
      | _ => None
      end
  end.

(** The separators U+001C..U+001F are white space for [str.strip] but not
    for [float], which rejects a text that holds one. *)
Fixpoint has_separator (s : string) : bool :=
  match s with
  | EmptyString => false
  | String c r => between 28 31 (byte c) || has_separator r
  end.

Definition ascii_float (text : string) : option pyfloat :=
  if has_separator text then None
  else
    s ← drop_underscores "000" (strip text);
    match parse_decimal s with
    | Some x => Some x
    | None => parse_inf_or_nan s
    end.

End PyParse.

(** ** Calendar dates

    A [datetime.date], with the ordinal and the weekday CPython computes
    for it ([toordinal] counts days from 0001-01-01 = 1; Monday is 0). *)

Record date := Date { d_year : Z; d_month : Z; d_day : Z }.

#[global] Instance date_eq_dec : EqDecision date.
Proof. solve_decision. Defined.

#[global] Instance spec_float_eq_dec : EqDecision spec_float.
Proof. solve_decision. Defined.

Definition is_leap (y : Z) : bool :=
  (y mod 4 =? 0) && (negb (y mod 100 =? 0) || (y mod 400 =? 0)).

Definition days_before_year (y : Z) : Z :=
  let p := y - 1 in p * 365 + p / 4 - p / 100 + p / 400.

Definition days_before_month (y m : Z) : Z :=
  nth (Z.to_nat m) [0; 0; 31; 59; 90; 120; 151; 181; 212; 243; 273; 304; 334] 0
  + (if (2 <? m) && is_leap y then 1 else 0).

Definition toordinal (d : date) : Z :=
  days_before_year (d_year d) + days_before_month (d_year d) (d_month d) + d_day d.

Definition weekday (d : date) : Z := (toordinal d + 6) mod 7.

(** Dates compare as the triples (year, month, day). *)
Definition date_leb (a b : date) : bool :=
  (d_year a <? d_year b)
  || ((d_year a =? d_year b)
      && ((d_month a <? d_month b)
          || ((d_month a =? d_month b) && (d_day a <=? d_day b)))).

(** [min] and [max] over a sequence of dates; both return the first of
    several equally small (large) elements and fail on an empty sequence. *)
Definition date_min (l : list date) : option date :=
  match l with
  | [] => None
  | d :: r => Some (fold_left (fun m x => if date_leb m x then m else x) r d)
  end.

Definition date_max (l : list date) : option date :=
  match l with
  | [] => None
  | d :: r => Some (fold_left (fun m x => if date_leb x m then m else x) r d)
  end.

(** ** The PnL calculator *)

Definition calculate_pnl_value
    (entry target lots : pyfloat) (trade_type : string) : pyfloat :=
  let diff := PyFloat.sub target entry in
  let val := PyFloat.mul (PyFloat.mul diff lots) (PyFloat.of_Z 100) in
  let val :=
    if String.eqb (PyStr.lower trade_type) "short" then PyFloat.neg val else val in
  PyFloat.round2 val.

Definition calculate_balance_percent (balance pnl : pyfloat) : pyfloat :=
  if PyFloat.eqb balance (PyFloat.of_Z 0) then PyFloat.zero
  else PyFloat.mul (PyFloat.div pnl balance) (PyFloat.of_Z 100).

(** ** The two tables

    [balances(id, forIds, balance, day, userid)] and [calcbalances(id, day,
    currency, lots, losses, gains, entrytarget, takeprofittarget, stoploss,
    type, totalbalance)].  [forIds] is a nullable TEXT[] that holds the
    decimal text of trade ids; [str] and [int] are inverse on those, so the
    column is kept as the list of ids.  The [day] text of a balance row is
    kept as the date it spells.  The creation time stamp of a trade is read
    by no handler embedded here and is left out.  Array columns of a trade
    are read through [row[i] or []], so NULL and the empty array coincide.
    The float columns are DOUBLE PRECISION and hold what [PyFloat.stored]
    makes of the value written. *)

Record balance_row := BalanceRow {
  b_id : Z;
  b_forIds : option (list Z);
  b_balance : pyfloat;
  b_day : date;
  b_userid : Z
}.

Record trade_row := TradeRow {
  t_id : Z;
  t_currency : string;
  t_lots : pyfloat;
  t_losses : list pyfloat;
  t_gains : list pyfloat;
  t_entrytarget : list pyfloat;
  t_takeprofittarget : list pyfloat;
  t_stoploss : pyfloat;
  t_type : string;
  t_totalbalance : list pyfloat
}.

(** [calc_seq] and [bal_seq] are the BIGSERIAL counters: the id the next
    inserted row receives. *)
Record database := Database {
  calcbalances : list trade_row;
  balances : list balance_row;
  calc_seq : Z;
  bal_seq : Z
}.

Definition truthy_ids (f : option (list Z)) : bool :=
  match f with
  | Some (_ :: _) => true
  | _ => false
  end.

Definition ids_of (f : option (list Z)) : list Z := default [] f.

(** [SELECT ... FROM balances WHERE "day" = %s AND userid = %s], first row. *)
Definition select_balance_of_day (d : database) (today : date) (chat_id : Z)
    : option balance_row :=
  head (filter (fun r => b_day r = today ∧ b_userid r = chat_id) (balances d)).

(** [INSERT INTO balances(balance, "day", userid) VALUES (...)] *)
Definition insert_balance (d : database) (bal : pyfloat) (today : date) (chat_id : Z)
    : database :=
  {| calcbalances := calcbalances d;
     balances :=
       balances d ++ [BalanceRow (bal_seq d) None (PyFloat.stored bal) today chat_id];
     calc_seq := calc_seq d;
     bal_seq := bal_seq d + 1 |}.

(** [INSERT INTO calcbalances(...) VALUES (...) RETURNING id] *)
Definition insert_trade (d : database) (currency : string) (lots : pyfloat)
    (entries tps : list pyfloat) (stoploss : pyfloat) (ttype : string)
    (losses gains raw_pnls : list pyfloat) : database * Z :=
  ({| calcbalances :=
        calcbalances d
        ++ [TradeRow (calc_seq d) currency (PyFloat.stored lots)
                     (map PyFloat.stored losses) (map PyFloat.stored gains)
                     (map PyFloat.stored entries) (map PyFloat.stored tps)
                     (PyFloat.stored stoploss) ttype (map PyFloat.stored raw_pnls)];
      balances := balances d;
      calc_seq := calc_seq d + 1;
      bal_seq := bal_seq d |},
   calc_seq d).

Definition map_balances (f : balance_row -> balance_row) (d : database) : database :=
  {| calcbalances := calcbalances d;
     balances := map f (balances d);
     calc_seq := calc_seq d;
     bal_seq := bal_seq d |}.

(** [UPDATE balances SET balance = %s, forIds = array_append(forIds, %s)
    WHERE id = %s] *)
Definition update_balance_and_link (d : database) (new_balance : pyfloat)
    (new_id bal_id : Z) : database :=
  map_balances
    (fun r =>
       if decide (b_id r = bal_id) then
         BalanceRow (b_id r) (Some (ids_of (b_forIds r) ++ [new_id]))
                    (PyFloat.stored new_balance) (b_day r) (b_userid r)
       else r) d.

(** [UPDATE balances SET balance = %s WHERE userid = %s AND "day" = %s] *)
Definition update_balance_of_day (d : database) (val : pyfloat) (chat_id : Z)
    (day : date) : database :=
  map_balances
    (fun r =>
       if decide (b_userid r = chat_id ∧ b_day r = day) then
         BalanceRow (b_id r) (b_forIds r) (PyFloat.stored val) (b_day r) (b_userid r)
       else r) d.

(** [SELECT * FROM calcbalances WHERE id = ANY(%s)] *)
Definition select_trades (d : database) (ids : list Z) : list trade_row :=
  filter (fun t => t_id t ∈ ids) (calcbalances d).

(** [DELETE FROM calcbalances WHERE id = %s] followed by
    [UPDATE balances SET forids = array_remove(forids, %s)
     WHERE %s = ANY(forids)] *)
Definition delete_trade (d : database) (tid : Z) : database :=
  {| calcbalances := filter (fun t => t_id t ≠ tid) (calcbalances d);
     balances :=
       map (fun r =>
              match b_forIds r with
              | Some ids =>
                  if decide (tid ∈ ids) then
                    BalanceRow (b_id r) (Some (filter (fun x => x ≠ tid) ids))
                               (b_balance r) (b_day r) (b_userid r)
                  else r
              | None => r
              end) (balances d);
     calc_seq := calc_seq d;
     bal_seq := bal_seq d |}.

(** ** Sessions: the values of [user_states]

    A session is a dictionary with the keys "step", "data", "day" and
    "weekly_map", each of which may be absent; "data" is itself a dictionary
    of the fields entered so far. *)

Inductive step :=
  | StCurrency | StBalance | StLots | StType | StEntry1 | StEntry2Q | StEntry2
  | StTp1 | StTp2Q | StTp2 | StSl | StEditVal.

#[global] Instance step_eq_dec : EqDecision step.
Proof. solve_decision. Defined.

Record trade_data := TradeData {
  d_currency : option string;
  d_balance : option pyfloat;
  d_lots : option pyfloat;
  d_type : option string;
  d_entry_targets : option (list pyfloat);
  d_tp_targets : option (list pyfloat);
  d_sl : option pyfloat
}.

Definition empty_data : trade_data := TradeData None None None None None None None.

Definition set_currency (v : string) (d : trade_data) : trade_data :=
  TradeData (Some v) (d_balance d) (d_lots d) (d_type d) (d_entry_targets d)
            (d_tp_targets d) (d_sl d).

Definition set_balance (v : pyfloat) (d : trade_data) : trade_data :=
  TradeData (d_currency d) (Some v) (d_lots d) (d_type d) (d_entry_targets d)
            (d_tp_targets d) (d_sl d).

Definition set_lots (v : pyfloat) (d : trade_data) : trade_data :=
  TradeData (d_currency d) (d_balance d) (Some v) (d_type d) (d_entry_targets d)
            (d_tp_targets d) (d_sl d).

Definition set_type (v : string) (d : trade_data) : trade_data :=
  TradeData (d_currency d) (d_balance d) (d_lots d) (Some v) (d_entry_targets d)
            (d_tp_targets d) (d_sl d).

Definition set_entry_targets (v : list pyfloat) (d : trade_data) : trade_data :=
  TradeData (d_currency d) (d_balance d) (d_lots d) (d_type d) (Some v)
            (d_tp_targets d) (d_sl d).

Definition set_tp_targets (v : list pyfloat) (d : trade_data) : trade_data :=
  TradeData (d_currency d) (d_balance d) (d_lots d) (d_type d) (d_entry_targets d)
            (Some v) (d_sl d).

Definition set_sl (v : pyfloat) (d : trade_data) : trade_data :=
  TradeData (d_currency d) (d_balance d) (d_lots d) (d_type d) (d_entry_targets d)
            (d_tp_targets d) (Some v).

Record session := Session {
  s_step : option step;
  s_data : option trade_data;
  s_day : option date;
  s_weekly_map : option (gmap string (list Z))
}.

Definition empty_session : session := Session None None None None.

(** [data = user_states[chat_id].get("data", {})]: the dictionary of the
    session when it has one, else a fresh one that nothing refers to. *)
Definition get_data (s : session) : trade_data := default empty_data (s_data s).

(** The effect on the session of having mutated [data] in place: visible
    only when [data] is the session's own dictionary. *)
Definition put_data (d : trade_data) (s : session) : session :=
  match s_data s with
  | Some _ => Session (s_step s) (Some d) (s_day s) (s_weekly_map s)
  | None => s
  end.

Definition put_step (st : step) (s : session) : session :=
  Session (Some st) (s_data s) (s_day s) (s_weekly_map s).

Record world := World {
  user_states : gmap Z session;
  db : database
}.

Definition with_states (us : gmap Z session) (w : world) : world := World us (db w).

Definition with_db (d : database) (w : world) : world := World (user_states w) d.

(** ** Messages sent to the chat

    Texts built from numbers by an f-string are kept as the numbers they
    print. *)

Inductive label :=
  | LText (s : string)
  | LWeek (mn mx : date).

Inductive markup :=
  | NoMarkup
  | ReplyKeyboardRemove
  | ReplyKeyboard (buttons : list string)
  | InlineKeyboard (buttons : list (label * string)) (nav : list (label * string)).

Record trade_lines := TradeLines {
  tl_row : trade_row;
  tl_pnls : list pyfloat
}.

Inductive body :=
  | Plain (text : string)
  | Saved (total_pnl new_balance : pyfloat)
  | EditPrompt (day : date)
  | WeeklyText (days : nat) (total_profit total_loss : pyfloat)
  | MonthlyText (m_num : Z) (prof loss : pyfloat)
  | DailyText (day : date) (count : nat) (trades : list trade_lines)
              (total_profit_usd total_loss_usd gains_pct losses_pct final : pyfloat).

(** [Unhandled] records that the handler ended by an exception that none of
    its [except] clauses caught.  What the program prints on its console is
    not kept. *)
Inductive action :=
  | SendMessage (chat_id : Z) (b : body) (m : markup)
  | Unhandled.

Definition say (chat_id : Z) (text : string) : action :=
  SendMessage chat_id (Plain text) NoMarkup.

(** ** Database access inside a handler

    [get_db_connection], every [cur.execute] and [conn.commit] may raise.
    A computation runs on the transaction's copy of the tables; [faults k]
    tells whether the [k]-th such operation of the handler call raises, and
    [ops] counts the operations made so far.  A computation that raises
    yields [None]; the handler then closes the connection, which discards
    the transaction. *)

Record conn := Conn { tx : database; faults : nat -> bool; ops : nat }.

Definition DB (A : Type) : Type := conn -> option (A * conn).

#[global] Instance DB_ret : MRet DB := fun A x c => Some (x, c).

#[global] Instance DB_bind : MBind DB :=
  fun A B f m c =>
    match m c with
    | Some (x, c') => f x c'
    | None => None
    end.

Definition raise {A} : DB A := fun _ => None.

(** One operation of the collaborator. *)
Definition tick : DB unit :=
  fun c =>
    if faults c (ops c) then None
    else Some (tt, Conn (tx c) (faults c) (S (ops c))).

(** A Python expression that raises when the value is missing. *)
Definition need {A} (o : option A) : DB A :=
  match o with
  | Some x => mret x
  | None => raise
  end.

Definition read_tx : DB database := fun c => Some (tx c, c).

Definition write_tx (d : database) : DB unit :=
  fun c => Some (tt, Conn d (faults c) (ops c)).

Definition query {A} (f : database -> A) : DB A :=
  _ ← tick; d ← read_tx; mret (f d).

Definition exec (f : database -> database) : DB unit :=
  _ ← tick; d ← read_tx; write_tx (f d).

Definition exec_returning {A} (f : database -> database * A) : DB A :=
  _ ← tick; d ← read_tx; _ ← write_tx (f d).1; mret (f d).2.

Definition get_db_connection : DB unit := tick.

Definition commit : DB unit := tick.

(** Runs a transaction that ends with [commit]: the new tables when nothing
    raised. *)
Definition run_tx {A} (m : DB A) (d : database) (f : nat -> bool)
    : option (A * database) :=
  match m (Conn d f 0%nat) with
  | Some (x, c) => Some (x, tx c)
  | None => None
  end.

(** The number of operations a transaction that ended with [commit] has
    made: the index of the next operation of the handler call. *)
Definition ops_of {A} (m : DB A) (d : database) (f : nat -> bool) : nat :=
  match m (Conn d f 0%nat) with
  | Some (_, c) => ops c
  | None => 0%nat
  end.

(** ** Week buckets ([weekly_report])

    [start = dobj - timedelta(days=(dobj.weekday() + 1) % 7)]: the Sunday on
    or before [dobj], kept as its ordinal.  The subtraction raises
    OverflowError when the result would precede 0001-01-01. *)

Definition week_start (dobj : date) : option Z :=
  let o := toordinal dobj - (weekday dobj + 1) mod 7 in
  if 1 <=? o then Some o else None.

(** [weeks[start].append((bid, dobj))] on a [defaultdict(list)] *)
Definition weeks_append (weeks : gmap Z (list (Z * date))) (start : Z)
    (entry : Z * date) : gmap Z (list (Z * date)) :=
  <[start := default [] (weeks !! start) ++ [entry]]> weeks.

Fixpoint group_weeks (raw : list (Z * date)) (weeks : gmap Z (list (Z * date)))
    : option (gmap Z (list (Z * date))) :=
  match raw with
  | [] => Some weeks
  | (bid, dobj) :: rest =>
      start ← week_start dobj;
      group_weeks rest (weeks_append weeks start (bid, dobj))
  end.

Definition key_le (a b : Z * list (Z * date)) : Prop := a.1 <= b.1.

#[global] Instance key_le_dec : RelDecision key_le.
Proof. intros a b. unfold key_le. apply _. Defined.

#[global] Instance key_le_trans : Transitive key_le.
Proof. intros a b c. unfold key_le. lia. Qed.

#[global] Instance key_le_total : Total key_le.
Proof. intros a b. unfold key_le. lia. Qed.

(** [sorted(weeks.items())]: the keys of a dictionary are distinct, so the
    order is that of the keys. *)
Definition sorted_items (weeks : gmap Z (list (Z * date)))
    : list (Z * list (Z * date)) :=
  merge_sort key_le (map_to_list weeks).

Definition week_buckets (raw : list (Z * date)) : option (list (Z * list (Z * date))) :=
  sorted_items <$> group_weeks raw ∅.

Record week_item := WeekItem {
  wi_ids : list Z;
  wi_min : date;
  wi_max : date
}.

Definition item_of_bucket (b : Z * list (Z * date)) : option week_item :=
  mn ← date_min b.2.*2;
  mx ← date_max b.2.*2;
  Some (WeekItem b.2.*1 mn mx).

Definition week_items (raw : list (Z * date)) : option (list week_item) :=
  buckets ← week_buckets raw;
  mapM item_of_bucket buckets.

(** ** Totals of the report views

    The three views recompute the PnL of every leg of every trade they
    list; a leg whose index has no take-profit target is computed against
    the target [0].  The rows and the trades are taken in the order of the
    tables; the queries of the views have no ORDER BY, so the database may
    return them in another order, and a total of more than two floats is
    fixed only up to the order of its additions. *)

Definition view_leg_pnls (t : trade_row) : list pyfloat :=
  imap (fun i ent =>
          let tp := default (PyFloat.of_Z 0) (t_takeprofittarget t !! i) in
          calculate_pnl_value ent tp (t_lots t) (t_type t))
       (t_entrytarget t).

Definition tally (acc : pyfloat * pyfloat) (val : pyfloat) : pyfloat * pyfloat :=
  if PyFloat.leb (PyFloat.of_Z 0) val then (PyFloat.add acc.1 val, acc.2)
  else (acc.1, PyFloat.add acc.2 (PyFloat.abs val)).

Definition tally_trades (trades : list trade_row) (acc : pyfloat * pyfloat)
    : pyfloat * pyfloat :=
  fold_left (fun a t => fold_left tally (view_leg_pnls t) a) trades acc.

Definition tally_days (d : database) (rows : list balance_row) : pyfloat * pyfloat :=
  fold_left
    (fun a r =>
       if truthy_ids (b_forIds r)
       then tally_trades (select_trades d (ids_of (b_forIds r))) a
       else a)
    rows (PyFloat.of_Z 0, PyFloat.of_Z 0).

(** [sum(l)] *)
Definition py_sum (l : list pyfloat) : pyfloat := fold_left PyFloat.add l (PyFloat.of_Z 0).

(** ** The terminal step of the trade entry *)

Record leg_acc := LegAcc {
  raw_pnls : list pyfloat;
  total_pnl : pyfloat;
  profits : list pyfloat;
  losses : list pyfloat;
  last_row : option balance_row
}.

(** [tps[i] if i < len(tps) else tps[-1]] *)
Definition target_for (tps : list pyfloat) (i : nat) : option pyfloat :=
  match tps !! i with
  | Some tp => Some tp
  | None => last tps
  end.

(** The loop over the legs; [last_row] is the row behind [base_balance] and
    [bal_id], unbound until the first leg has run. *)
Fixpoint legs_loop (today : date) (chat_id : Z) (tps : list pyfloat)
    (lots : pyfloat) (ttype : string) (i : nat) (rest : list pyfloat)
    (a : leg_acc) : DB leg_acc :=
  match rest with
  | [] => mret a
  | ent :: rest' =>
      tp ← need (target_for tps i);
      let val := calculate_pnl_value ent tp lots ttype in
      brow ← query (fun d => select_balance_of_day d today chat_id);
      row ← need brow;
      let pct := calculate_balance_percent (b_balance row) val in
      let gain := PyFloat.leb (PyFloat.of_Z 0) val in
      legs_loop today chat_id tps lots ttype (S i) rest'
        (LegAcc (raw_pnls a ++ [val])
                (PyFloat.add (total_pnl a) val)
                (if gain then profits a ++ [pct] else profits a)
                (if gain then losses a else losses a ++ [pct])
                (Some row))
  end.

Definition save_trade (today : date) (chat_id : Z) (data : trade_data)
    : DB (pyfloat * pyfloat) :=
  _ ← get_db_connection;
  entries ← need (d_entry_targets data);
  tps ← need (d_tp_targets data);
  lots ← need (d_lots data);
  ttype ← need (d_type data);
  a ← legs_loop today chat_id tps lots ttype 0 entries
        (LegAcc [] (PyFloat.of_Z 0) [] [] None);
  currency ← need (d_currency data);
  stop ← need (d_sl data);
  new_id ← exec_returning
             (fun d => insert_trade d currency lots entries tps stop ttype
                                    (losses a) (profits a) (raw_pnls a));
  row ← need (last_row a);
  let new_balance := PyFloat.add (b_balance row) (total_pnl a) in
  _ ← exec (fun d => update_balance_and_link d new_balance new_id (b_id row));
  _ ← commit;
  mret (total_pnl a, new_balance).

(** ** The handlers

    A handler takes the chat it was called for and the world, and returns
    the new world with the messages it sent, in order.  The faults of the
    database are followed through [message_handler], where they decide what
    becomes of the session, the call of [start] at its end included
    ([start_after]); the other handlers are embedded for a database that
    answers.  Sending a message is taken to succeed.  A transaction that is
    discarded leaves the rows of both tables as they were; what becomes of
    the BIGSERIAL counters then is not followed (PostgreSQL keeps the
    advance of a counter whose INSERT was executed). *)

Definition and_then (r : world * list action) (k : world -> world * list action)
    : world * list action :=
  let '(w', out') := k r.1 in (w', r.2 ++ out').

Definition main_menu : markup :=
  InlineKeyboard
    [(LText "New Report", "newReport"); (LText "Weekly Report", "weeklyReport");
     (LText "Daily Report", "dailyReport"); (LText "Monthly Report", "monthlyReport");
     (LText "Delete Report", "deleteReport"); (LText "Edit Balance", "editBalance");
     (LText "Close", "close")] [].

Definition PER_PAGE : nat := 10.

(** The body of the "weekly" branch of the loop of [create_keyboard]:
    [user_states] is a [defaultdict], so the session and then its
    "weekly_map" are created when missing. *)
Definition register_week (chat_id : Z) (unique_key : string) (ids : list Z)
    (us : gmap Z session) : gmap Z session :=
  let s := default empty_session (us !! chat_id) in
  let wm := default ∅ (s_weekly_map s) in
  <[chat_id := Session (s_step s) (s_data s) (s_day s)
                       (Some (<[unique_key := ids]> wm))]> us.

(** [uuid n] is the token [str(uuid.uuid4())[:18]] drawn for the [n]-th
    button. *)
Fixpoint weekly_buttons (uuid : nat -> string) (n : nat) (items : list week_item)
    (chat_id : Z) (us : gmap Z session)
    : gmap Z session * list (label * string) :=
  match items with
  | [] => (us, [])
  | item :: rest =>
      let unique_key := uuid n in
      let us1 := register_week chat_id unique_key (wi_ids item) us in
      let '(us2, buttons) := weekly_buttons uuid (S n) rest chat_id us1 in
      (us2, (LWeek (wi_min item) (wi_max item), "weekly_id_" +:+ unique_key) :: buttons)
  end.

(** [create_keyboard(items, page_number, "weekly", chat_id)], for
    [page_number >= 1] as on every call in the program. *)
Definition create_keyboard_weekly (uuid : nat -> string) (items : list week_item)
    (page_number : nat) (chat_id : Z) (us : gmap Z session)
    : gmap Z session * markup :=
  let start := ((page_number - 1) * PER_PAGE)%nat in
  let stop := (start + PER_PAGE)%nat in
  let current_items := take PER_PAGE (drop start items) in
  let '(us', buttons) := weekly_buttons uuid 0 current_items chat_id us in
  let nav :=
    (if decide (1 < page_number)%nat
     then [(LText "Previous", "page_" +:+ pretty (page_number - 1)%nat +:+ "_weekly")]
     else [])
    ++ [(LText "Close", "close")]
    ++ (if decide (stop < length items)%nat
        then [(LText "Next", "page_" +:+ pretty (page_number + 1)%nat +:+ "_weekly")]
        else []) in
  (us', InlineKeyboard buttons nav).

Definition prompt_for (chat_id : Z) (next_step : step) : list action :=
  match next_step with
  | StLots => [SendMessage chat_id (Plain "Lots amount:") ReplyKeyboardRemove]
  | StType =>
      [SendMessage chat_id (Plain "Position Type (Long/Short):")
                   (ReplyKeyboard ["Long"; "Short"])]
  | StEntry1 => [SendMessage chat_id (Plain "First Entry Target:") ReplyKeyboardRemove]
  | StEntry2Q =>
      [SendMessage chat_id (Plain "Do you have a second entry? (Yes/No)")
                   (ReplyKeyboard ["Yes"; "No"])]
  | StEntry2 => [SendMessage chat_id (Plain "Second Entry Target:") ReplyKeyboardRemove]
  | StTp1 =>
      [SendMessage chat_id (Plain "First Take Profit Target:") ReplyKeyboardRemove]
  | StTp2Q =>
      [SendMessage chat_id (Plain "Do you have a second target? (Yes/No)")
                   (ReplyKeyboard ["Yes"; "No"])]
  | StTp2 =>
      [SendMessage chat_id (Plain "Second Take Profit Target:") ReplyKeyboardRemove]
  | StSl => [SendMessage chat_id (Plain "Stop Loss:") ReplyKeyboardRemove]
  | _ => []
  end.

(** The session after [data] was mutated in place and the step left as it
    was. *)
Definition keep_step (chat_id : Z) (s : session) (data : trade_data) (w : world)
    : world :=
  with_states (<[chat_id := put_data data s]> (user_states w)) w.

(** [user_states[chat_id]["step"] = next_step] and the prompt of the new
    step. *)
Definition advance (chat_id : Z) (s : session) (data : trade_data)
    (next_step : step) (w : world) : world * list action :=
  (with_states (<[chat_id := put_step next_step (put_data data s)]> (user_states w)) w,
   prompt_for chat_id next_step).

(** [text = message.text.strip().replace("%", "")] *)
Definition inbound_text (raw_text : string) : string :=
  PyStr.remove_percent (PyStr.strip raw_text).

Definition is_direction (t : string) : bool :=
  bool_decide (t ∈ ["long"; "short"]).

Definition is_yes (t : string) : bool :=
  bool_decide (t ∈ ["yes"; "y"; "بله"]).

(** A database that never fails. *)
Definition no_faults : nat -> bool := fun _ => false.

Section Bot.

(** [float(text)], [None] when it raises ValueError. *)
Variable py_float : string -> option pyfloat.

(** The allow-list [SUDOS]. *)
Variable SUDOS : list Z.

(** [start]: the main menu, for a database that answers.  The bookkeeping
    of the last menu message ([delete_and_save_message_id]) touches a table
    of its own and is followed only as far as it can raise, in
    [start_after]. *)
Definition start (chat_id : Z) (w : world) : world * list action :=
  if decide (chat_id ∈ SUDOS) then
    (match user_states w !! chat_id with
     | Some _ => w
     | None => with_states (<[chat_id := empty_session]> (user_states w)) w
     end,
     [SendMessage chat_id (Plain "Please select one of the options below:") main_menu])
  else (w, [say chat_id "You do not have access to this bot."]).

Definition close_handler (chat_id : Z) (w : world) : world * list action :=
  (with_states (delete chat_id (user_states w)) w,
   [SendMessage chat_id (Plain "Main menu opened /start") ReplyKeyboardRemove]).

Definition new_report (chat_id : Z) (w : world) : world * list action :=
  (with_states
     (<[chat_id := Session (Some StCurrency) (Some empty_data) None None]>
        (user_states w)) w,
   [SendMessage chat_id (Plain "Enter the currency name:")
                (InlineKeyboard [(LText "Close", "close")] [])]).

Definition daily_chosen (chat_id bid : Z) (w : world) : world * list action :=
  let balance_row :=
    head (filter (fun r => b_id r = bid ∧ b_userid r = chat_id) (balances (db w))) in
  let item_text :=
    match balance_row with
    | Some r =>
        if truthy_ids (b_forIds r) then
          let rows := select_trades (db w) (ids_of (b_forIds r)) in
          let totals := tally_trades rows (PyFloat.zero, PyFloat.zero) in
          DailyText (b_day r) (length rows)
                    (map (fun t => TradeLines t (view_leg_pnls t)) rows)
                    totals.1 totals.2
                    (py_sum (concat (map t_gains rows)))
                    (py_sum (concat (map t_losses rows)))
                    (b_balance r)
        else Plain "No information found."
    | None => Plain "No information found."
    end in
  and_then (w, [SendMessage chat_id item_text NoMarkup]) (start chat_id).

(** [raw] is the result of [SELECT id, "day" ... ORDER BY id ASC]. *)
Definition id_le (a b : balance_row) : Prop := b_id a <= b_id b.

#[global] Instance id_le_dec : RelDecision id_le.
Proof. intros a b. unfold id_le. apply _. Defined.

Definition weekly_report (uuid : nat -> string) (chat_id : Z) (w : world)
    : world * list action :=
  let raw :=
    map (fun r => (b_id r, b_day r))
        (merge_sort id_le (filter (fun r => b_userid r = chat_id) (balances (db w)))) in
  match raw with
  | [] => (w, [say chat_id "No data found."])
  | _ =>
      match week_items raw with
      | Some items =>
          let '(us, kb) :=
            create_keyboard_weekly uuid items 1 chat_id (user_states w) in
          (with_states us w, [SendMessage chat_id (Plain "Select Week:") kb])
      | None => (w, [Unhandled])
      end
  end.

(** [resolve]: [user_states[chat_id].get("weekly_map", {}).get(unique_key)] *)
Definition resolve (us : gmap Z session) (chat_id : Z) (unique_key : string)
    : option (list Z) :=
  default ∅ (s_weekly_map (default empty_session (us !! chat_id))) !! unique_key.

(** Reading [user_states[chat_id]] creates the session when it is missing. *)
Definition touch (chat_id : Z) (us : gmap Z session) : gmap Z session :=
  match us !! chat_id with
  | Some _ => us
  | None => <[chat_id := empty_session]> us
  end.

Definition weekly_chosen (chat_id : Z) (unique_key : string) (w : world)
    : world * list action :=
  let w1 := with_states (touch chat_id (user_states w)) w in
  match resolve (user_states w) chat_id unique_key with
  | Some (i :: ids') =>
      let ids := i :: ids' in
      let bals :=
        filter (fun r => b_id r ∈ ids ∧ b_userid r = chat_id) (balances (db w)) in
      let text :=
        match bals with
        | [] => Plain "No information available."
        | _ =>
            let totals := tally_days (db w) bals in
            WeeklyText (length bals) totals.1 totals.2
        end in
      and_then (w1, [SendMessage chat_id text NoMarkup]) (start chat_id)
  | _ =>
      and_then (w1, [say chat_id "Information expired. Please try again."])
               (start chat_id)
  end.

Definition monthly_chosen (today : date) (chat_id m_num : Z) (w : world)
    : world * list action :=
  let rows :=
    filter (fun r => d_year (b_day r) = d_year today ∧ d_month (b_day r) = m_num
                     ∧ b_userid r = chat_id) (balances (db w)) in
  let text :=
    match rows with
    | [] => Plain "Empty."
    | _ =>
        let totals := tally_days (db w) rows in
        MonthlyText m_num totals.1 totals.2
    end in
  and_then (w, [SendMessage chat_id text NoMarkup]) (start chat_id).

Definition delete_exec (chat_id tid : Z) (w : world) : world * list action :=
  and_then (with_db (delete_trade (db w) tid) w, [say chat_id "Deleted."])
           (start chat_id).

Definition edit_balance_chosen (chat_id bid : Z) (w : world) : world * list action :=
  match head (filter (fun r => b_id r = bid) (balances (db w))) with
  | Some row =>
      (with_states
         (<[chat_id := Session (Some StEditVal) None (Some (b_day row)) None]>
            (user_states w)) w,
       [SendMessage chat_id (EditPrompt (b_day row)) NoMarkup])
  | None => and_then (w, [say chat_id "Not found."]) (start chat_id)
  end.

(** [await start(message)] at the end of a handler call that has made [n]
    operations on the database, with the faults followed.  After the menu is
    sent, [delete_and_save_message_id] opens a connection of its own before
    its [try]: when that raises, the exception leaves [start], and
    [on_raise] is what the caller makes of it.  Everything else that
    function does is inside its [try], whose [except] swallows every error,
    and it writes no table embedded here.  A chat outside the allow-list
    leaves [start] before that. *)
Definition start_after (flt : nat -> bool) (n : nat) (on_raise : action)
    (chat_id : Z) (r : world * list action) : world * list action :=
  let r' := and_then r (start chat_id) in
  if flt n && bool_decide (chat_id ∈ SUDOS) then (r'.1, r'.2 ++ [on_raise]) else r'.

(** A numeric step that only records the parsed number. *)
Definition numeric_step (chat_id : Z) (s : session) (w : world)
    (parsed : option trade_data) (next_step : step) : world * list action :=
  match parsed with
  | Some data' => advance chat_id s data' next_step w
  | None => (w, [say chat_id "Enter a number."])
  end.

(** [message_handler]: [today] is the date [datetime.datetime.now()] falls
    on during the call, [flt] the behaviour of the database during it. *)
Definition message_handler (today : date) (flt : nat -> bool) (chat_id : Z)
    (raw_text : string) (w : world) : world * list action :=
  let text := inbound_text raw_text in
  match user_states w !! chat_id with
  | None => (w, [])
  | Some s =>
      match s_step s with
      | None => (w, [])
      | Some StEditVal =>
          match py_float text with
          | None => (w, [say chat_id "Please enter a valid number."])
          | Some val =>
              match s_day s with
              | None => (w, [Unhandled])
              | Some day =>
                  let update :=
                    _ ← get_db_connection;
                    _ ← exec (fun d => update_balance_of_day d val chat_id day);
                    commit in
                  match run_tx update (db w) flt with
                  | Some (_, d') =>
                      start_after flt (ops_of update (db w) flt) Unhandled chat_id
                        (World (delete chat_id (user_states w)) d',
                         [say chat_id "Updated."])
                  | None => (w, [Unhandled])
                  end
              end
          end
      | Some curr_state =>
          let data := get_data s in
          match curr_state with
          | StCurrency =>
              let data' := set_currency text data in
              match run_tx (_ ← get_db_connection;
                            query (fun d => select_balance_of_day d today chat_id))
                           (db w) flt with
              | Some (Some _, _) => advance chat_id s data' StLots w
              | Some (None, _) => advance chat_id s data' StBalance w
              | None => (keep_step chat_id s data' w, [Unhandled])
              end
          | StBalance =>
              match py_float text with
              | None => (w, [say chat_id "Enter a number."])
              | Some bal =>
                  let data' := set_balance bal data in
                  match run_tx (_ ← get_db_connection;
                                _ ← exec (fun d => insert_balance d bal today chat_id);
                                commit) (db w) flt with
                  | Some (_, d') => advance chat_id s data' StLots (with_db d' w)
                  | None => (keep_step chat_id s data' w, [say chat_id "Enter a number."])
                  end
              end
          | StLots =>
              numeric_step chat_id s w
                (v ← py_float text; Some (set_lots v data)) StType
          | StType =>
              if is_direction (PyStr.lower text) then
                advance chat_id s (set_type (PyStr.lower text) data) StEntry1 w
              else
                (w, [SendMessage chat_id (Plain "Please send Long or Short")
                                 (ReplyKeyboard ["Long"; "Short"])])
          | StEntry1 =>
              numeric_step chat_id s w
                (v ← py_float text; Some (set_entry_targets [v] data)) StEntry2Q
          | StEntry2Q =>
              advance chat_id s data
                (if is_yes (PyStr.lower text) then StEntry2 else StTp1) w
          | StEntry2 =>
              numeric_step chat_id s w
                (l ← d_entry_targets data; v ← py_float text;
                 Some (set_entry_targets (l ++ [v]) data)) StTp1
          | StTp1 =>
              numeric_step chat_id s w
                (v ← py_float text; Some (set_tp_targets [v] data)) StTp2Q
          | StTp2Q =>
              advance chat_id s data
                (if is_yes (PyStr.lower text) then StTp2 else StSl) w
          | StTp2 =>
              numeric_step chat_id s w
                (l ← d_tp_targets data; v ← py_float text;
                 Some (set_tp_targets (l ++ [v]) data)) StSl
          | StSl =>
              match py_float text with
              | None => (w, [say chat_id "Error saving."])
              | Some v =>
                  let data' := set_sl v data in
                  match run_tx (save_trade today chat_id data') (db w) flt with
                  | Some ((total, new_balance), d') =>
                      start_after flt
                        (ops_of (save_trade today chat_id data') (db w) flt)
                        (say chat_id "Error saving.") chat_id
                        (World (delete chat_id (user_states w)) d',
                         [SendMessage chat_id (Saved total new_balance)
                                      ReplyKeyboardRemove])
                  | None => (keep_step chat_id s data' w, [say chat_id "Error saving."])
                  end
              end
          | StEditVal => (w, [])
          end
      end
  end.

(** A run of text messages of one chat, all on the day [today] and with a
    database that never fails. *)
Fixpoint converse (today : date) (chat_id : Z) (texts : list string) (w : world)
    : world * list action :=
  match texts with
  | [] => (w, [])
  | t :: rest =>
      and_then (message_handler today no_faults chat_id t w)
               (converse today chat_id rest)
  end.

(** The ways a session is reset or replaced: the Close button, the start of
    a new trade entry, the completion of a trade entry (the handler reports
    "Saved"), the choice of a day in the edit menu and the completion of
    an edit (the handler reports "Updated."). *)
Inductive resets_session (chat_id : Z) (w : world) : world -> Prop :=
  | reset_close :
      resets_session chat_id w (close_handler chat_id w).1
  | reset_new_report :
      resets_session chat_id w (new_report chat_id w).1
  | reset_saved today flt raw_text total new_balance :
      SendMessage chat_id (Saved total new_balance) ReplyKeyboardRemove
        ∈ (message_handler today flt chat_id raw_text w).2 ->
      resets_session chat_id w (message_handler today flt chat_id raw_text w).1
  | reset_edit_chosen bid row :
      head (filter (fun r => b_id r = bid) (balances (db w))) = Some row ->
      resets_session chat_id w (edit_balance_chosen chat_id bid w).1
  | reset_updated today flt raw_text :
      say chat_id "Updated." ∈ (message_handler today flt chat_id raw_text w).2 ->
      resets_session chat_id w (message_handler today flt chat_id raw_text w).1.

(** What [start] sends. *)
Definition menu_or_refusal (chat_id : Z) : action :=
  if decide (chat_id ∈ SUDOS)
  then SendMessage chat_id (Plain "Please select one of the options below:") main_menu
  else say chat_id "You do not have access to this bot.".

End Bot.

(** ** Notions used by the statements *)

(** The bucket key as the specification writes it, on ordinals:
    [date - ((weekday(date) + 1) mod 7)] days. *)
Definition week_key (d : date) : Z := toordinal d - (weekday d + 1) mod 7.

Definition members (k : Z) (raw : list (Z * date)) : list (Z * date) :=
  filter (fun p => week_key p.2 = k) raw.

(** What an emitted item shows of its bucket: the ids of the members, in
    their order, and the least and the greatest of their dates. *)
Definition exposes (b : Z * list (Z * date)) (it : week_item) : Prop :=
  wi_ids it = b.2.*1
  /\ wi_min it ∈ b.2.*2 /\ wi_max it ∈ b.2.*2
  /\ forall d, d ∈ b.2.*2 -> date_leb (wi_min it) d = true /\ date_leb d (wi_max it) = true.

(** [val >= 0] *)
Definition is_gain (v : pyfloat) : Prop := PyFloat.leb (PyFloat.of_Z 0) v = true.

#[global] Instance is_gain_dec v : Decision (is_gain v).
Proof. unfold is_gain. apply _. Defined.

(** The PnL of the legs of the terminal step: entry [i] against target [i],
    or against the last target when there is no target [i]. *)
Definition paired_values (entries tps : list pyfloat) (lots : pyfloat)
    (ttype : string) : list pyfloat :=
  imap (fun i ent =>
          calculate_pnl_value ent (default PyFloat.zero (target_for tps i)) lots ttype)
       entries.

(** The terminal step with the day's row read once, before the legs: the
    percentages are taken against its balance, the row receives that balance
    plus the sum of the values and the id of the new trade. *)
Definition settle_read_once (d : database) (row : balance_row) (currency : string)
    (lots : pyfloat) (entries tps : list pyfloat) (stop : pyfloat) (ttype : string)
    : (pyfloat * pyfloat) * database :=
  let vals := paired_values entries tps lots ttype in
  let pct := calculate_balance_percent (b_balance row) in
  let total := fold_left PyFloat.add vals (PyFloat.of_Z 0) in
  let new_balance := PyFloat.add (b_balance row) total in
  let inserted :=
    insert_trade d currency lots entries tps stop ttype
                 (map pct (filter (fun v => ~ is_gain v) vals))
                 (map pct (filter is_gain vals)) vals in
  ((total, new_balance),
   update_balance_and_link inserted.1 new_balance inserted.2 (b_id row)).

(** The steps that read a number. *)
Definition numeric_steps : list step :=
  [StBalance; StLots; StEntry1; StEntry2; StTp1; StTp2; StSl].

(** [costs m n]: when [m] returns it has made exactly [n] operations on the
    database, none of which was faulty. *)
Definition costs {A} (m : DB A) (n : nat) : Prop :=
  forall c x c', m c = Some (x, c') ->
    faults c' = faults c /\ ops c' = (ops c + n)%nat
    /\ forall k, (ops c <= k < ops c + n)%nat -> faults c k = false.

(** The number of operations of the terminal step: the connection, one
    read per leg, the two writes and the commit. *)
Definition save_cost (data : trade_data) : nat :=
  4 + length (default [] (d_entry_targets data)).

(** The session of [chat_id] holds no selection token. *)
Definition no_tokens (us : gmap Z session) (chat_id : Z) : Prop :=
  s_weekly_map (default empty_session (us !! chat_id)) = None.

(** A world in which [chat_id] is at step [st] of a trade entry with the
    fields [d]. *)
Definition at_step (chat_id : Z) (us : gmap Z session) (dbv : database)
    (dy : option date) (wm : option (gmap string (list Z))) (st : step)
    (d : trade_data) : world :=
  World (<[chat_id := Session (Some st) (Some d) dy wm]> us) dbv.

(** ** A worked conversation

    The user 7, allowed to use the bot, on 2026-11-03 with empty tables. *)

Definition dec (m : N) (e : Z) : pyfloat := PyFloat.of_decimal false m e.

Definition demo_day : date := Date 2026 11 3.

Definition demo_empty : world := World ∅ (Database [] [] 1 1).

Definition demo_texts : list string :=
  ["EURUSD"; "1000"; "1"; "long"; "1.10"; "no"; "1.12"; "no"; "1.08"].

(** Two entries and one take-profit target. *)
Definition demo_texts_two_entries : list string :=
  ["EURUSD"; "1000"; "1"; "long"; "1.10"; "yes"; "1.11"; "1.12"; "no"; "1.08"].

Definition demo_two_entries : world :=
  (converse PyParse.ascii_float [7] demo_day 7 demo_texts_two_entries
            (new_report 7 demo_empty).1).1.

Definition demo_token : string := "0f8fad5b-d9cb-469f".

(** The same world after the week list was opened, every button receiving
    the token [demo_token]. *)
Definition demo_week_list : world :=
  (weekly_report (fun _ => demo_token) 7 demo_two_entries).1.

(** A session waiting for the stop loss. *)
Definition demo_stop_data : trade_data :=
  TradeData (Some "EURUSD") None (Some (PyFloat.of_Z 1)) (Some "long")
            (Some [dec 110 (-2)]) (Some [dec 112 (-2)]) None.

Definition demo_before_stop : world :=
  at_step 7 ∅ (Database [] [BalanceRow 1 None (PyFloat.of_Z 1000) demo_day 7] 1 2)
          None None StSl demo_stop_data.

(** A session waiting for the stop loss of a trade with two entries and one
    target. *)
Definition demo_two_legs_data : trade_data :=
  TradeData (Some "EURUSD") None (Some (PyFloat.of_Z 1)) (Some "long")
            (Some [dec 110 (-2); dec 111 (-2)]) (Some [dec 112 (-2)]) None.

Definition demo_two_legs : world :=
  at_step 7 ∅ (Database [] [BalanceRow 1 None (PyFloat.of_Z 1000) demo_day 7] 1 2)
          None None StSl demo_two_legs_data.

(** A session waiting for the stop loss of a short trade whose target is its
    entry: the value of the leg is [-0.0]. *)
Definition demo_flat_short_data : trade_data :=
  TradeData (Some "EURUSD") None (Some (PyFloat.of_Z 1)) (Some "short")
            (Some [dec 110 (-2)]) (Some [dec 110 (-2)]) None.

Definition demo_flat_short : world :=
  at_step 7 ∅ (Database [] [BalanceRow 1 None (PyFloat.of_Z 1000) demo_day 7] 1 2)
          None None StSl demo_flat_short_data.

(** Four days of three calendar weeks, in the order of their ids. *)
Definition demo_days : list (Z * date) :=
  [(1, Date 2026 10 31); (2, Date 2026 11 1); (3, Date 2026 11 3); (4, Date 2026 11 8)].



(** ** Two more handlers

    [delete_cancel]: the answer No to the confirmation of a deletion. *)
Definition delete_cancel (SUDOS : list Z) (chat_id : Z) (w : world)
    : world * list action :=
  and_then (w, [say chat_id "Cancelled."]) (start SUDOS chat_id).

(** [handle_pagination] in the mode "weekly", for [page >= 1] as in the
    callback data of every Previous and Next button: the weeks are listed
    again and the keyboard of the page is built, which registers a fresh
    token for each of its buttons.  The result is the keyboard that replaces
    the one of the message, or nothing when listing the weeks raises. *)
Definition handle_pagination_weekly (uuid : nat -> string) (page : nat)
    (chat_id : Z) (w : world) : world * option markup :=
  let raw :=
    map (fun r => (b_id r, b_day r))
        (merge_sort id_le (filter (fun r => b_userid r = chat_id) (balances (db w)))) in
  match week_items raw with
  | Some items =>
      let '(us, kb) := create_keyboard_weekly uuid items page chat_id (user_states w) in
      (with_states us w, Some kb)
  | None => (w, None)
  end.

(** ** The bot as a transition system

    One transition is one call of a handler, for any chat, any input, any
    date and any behaviour of the database. *)

Inductive bot_step (py_float : string -> option pyfloat) (SUDOS : list Z)
    : world -> world -> Prop :=
  | step_start chat_id w :
      bot_step py_float SUDOS w (start SUDOS chat_id w).1
  | step_close chat_id w :
      bot_step py_float SUDOS w (close_handler chat_id w).1
  | step_new_report chat_id w :
      bot_step py_float SUDOS w (new_report chat_id w).1
  | step_daily_chosen chat_id bid w :
      bot_step py_float SUDOS w (daily_chosen SUDOS chat_id bid w).1
  | step_weekly_report uuid chat_id w :
      bot_step py_float SUDOS w (weekly_report uuid chat_id w).1
  | step_weekly_chosen chat_id unique_key w :
      bot_step py_float SUDOS w (weekly_chosen SUDOS chat_id unique_key w).1
  | step_monthly_chosen today chat_id m_num w :
      bot_step py_float SUDOS w (monthly_chosen SUDOS today chat_id m_num w).1
  | step_delete_exec chat_id tid w :
      bot_step py_float SUDOS w (delete_exec SUDOS chat_id tid w).1
  | step_edit_balance_chosen chat_id bid w :
      bot_step py_float SUDOS w (edit_balance_chosen SUDOS chat_id bid w).1
  | step_delete_cancel chat_id w :
      bot_step py_float SUDOS w (delete_cancel SUDOS chat_id w).1
  | step_pagination uuid page chat_id w :
      (1 <= page)%nat ->
      bot_step py_float SUDOS w (handle_pagination_weekly uuid page chat_id w).1
  | step_message today flt chat_id raw_text w :
      bot_step py_float SUDOS w
        (message_handler py_float SUDOS today flt chat_id raw_text w).1.

(** The order of the steps of a trade entry. *)
Inductive follows : step -> step -> Prop :=
  | follows_currency_balance : follows StCurrency StBalance
  | follows_currency_lots : follows StCurrency StLots
  | follows_balance : follows StBalance StLots
  | follows_lots : follows StLots StType
  | follows_type : follows StType StEntry1
  | follows_entry1 : follows StEntry1 StEntry2Q
  | follows_entry2_q_yes : follows StEntry2Q StEntry2
  | follows_entry2_q_no : follows StEntry2Q StTp1
  | follows_entry2 : follows StEntry2 StTp1
  | follows_tp1 : follows StTp1 StTp2Q
  | follows_tp2_q_yes : follows StTp2Q StTp2
  | follows_tp2_q_no : follows StTp2Q StSl
  | follows_tp2 : follows StTp2 StSl.

(** The fields a trade entry has collected when it waits at a step. *)
Definition has_direction (d : trade_data) : Prop :=
  d_type d = Some "long"%string \/ d_type d = Some "short"%string.

Definition has_targets (n : nat) (o : option (list pyfloat)) : Prop :=
  exists l, o = Some l /\ (1 <= length l <= n)%nat.

Definition fields_for (st : step) (d : trade_data) : Prop :=
  match st with
  | StCurrency | StEditVal => True
  | StBalance | StLots => is_Some (d_currency d)
  | StType => is_Some (d_currency d) /\ is_Some (d_lots d)
  | StEntry1 => is_Some (d_currency d) /\ is_Some (d_lots d) /\ has_direction d
  | StEntry2Q | StEntry2 =>
      is_Some (d_currency d) /\ is_Some (d_lots d) /\ has_direction d
      /\ has_targets 1 (d_entry_targets d)
  | StTp1 =>
      is_Some (d_currency d) /\ is_Some (d_lots d) /\ has_direction d
      /\ has_targets 2 (d_entry_targets d)
  | StTp2Q | StTp2 =>
      is_Some (d_currency d) /\ is_Some (d_lots d) /\ has_direction d
      /\ has_targets 2 (d_entry_targets d) /\ has_targets 1 (d_tp_targets d)
  | StSl =>
      is_Some (d_currency d) /\ is_Some (d_lots d) /\ has_direction d
      /\ has_targets 2 (d_entry_targets d) /\ has_targets 2 (d_tp_targets d)
  end.

Definition session_ok (s : session) : Prop :=
  match s_step s with
  | None => True
  | Some StEditVal => is_Some (s_day s)
  | Some st => exists d, s_data s = Some d /\ fields_for st d
  end.

Definition sessions_ok (us : gmap Z session) : Prop :=
  forall chat_id s, us !! chat_id = Some s -> session_ok s.

(** The ids linked from the balance rows, in the order of the rows. *)
Definition linked_ids (d : database) : list Z :=
  concat (map (fun r => ids_of (b_forIds r)) (balances d)).

(** The tables are consistent: ids are unique and below the counters, and
    the links of the balance rows name every trade exactly once and nothing
    else. *)
Record db_ok (d : database) : Prop := DbOk {
  ok_trade_ids : NoDup (map t_id (calcbalances d));
  ok_trade_fresh : Forall (fun t => t_id t < calc_seq d) (calcbalances d);
  ok_balance_ids : NoDup (map b_id (balances d));
  ok_balance_fresh : Forall (fun r => b_id r < bal_seq d) (balances d);
  ok_links : linked_ids d ≡ₚ map t_id (calcbalances d)
}.

(** What the answer given at a step writes into the fields. *)
Inductive entered : step -> trade_data -> trade_data -> Prop :=
  | entered_currency t d : entered StCurrency d (set_currency t d)
  | entered_balance v d : entered StBalance d (set_balance v d)
  | entered_lots v d : entered StLots d (set_lots v d)
  | entered_type t d :
      t = "long"%string \/ t = "short"%string -> entered StType d (set_type t d)
  | entered_entry1 v d : entered StEntry1 d (set_entry_targets [v] d)
  | entered_entry2_q d : entered StEntry2Q d d
  | entered_entry2 v l d :
      d_entry_targets d = Some l -> entered StEntry2 d (set_entry_targets (l ++ [v]) d)
  | entered_tp1 v d : entered StTp1 d (set_tp_targets [v] d)
  | entered_tp2_q d : entered StTp2Q d d
  | entered_tp2 v l d :
      d_tp_targets d = Some l -> entered StTp2 d (set_tp_targets (l ++ [v]) d)
  | entered_sl v d : entered StSl d (set_sl v d).

(** What a text message can make of the session [s] of its chat when [s]
    waits at step [st] with the fields [d]: nothing; the field of the step
    written and the step kept (the database failed); the field written and a
    following step taken; the session ended. *)
Inductive session_after (st : step) (d : trade_data) (s : session)
    : option session -> Prop :=
  | after_same : session_after st d s (Some s)
  | after_kept d' :
      entered st d d' -> st ∈ [StCurrency; StBalance; StSl] ->
      session_after st d s
        (Some (Session (Some st) (Some d') (s_day s) (s_weekly_map s)))
  | after_advanced d' st' :
      entered st d d' -> follows st st' ->
      session_after st d s
        (Some (Session (Some st') (Some d') (s_day s) (s_weekly_map s)))
  | after_done_menu : st = StSl -> session_after st d s (Some empty_session)
  | after_done : st = StSl -> session_after st d s None.

(** Two floats that the tables hold as the same value: they are equal, or
    both are a zero. *)
Definition same_stored (a b : pyfloat) : Prop := PyFloat.stored a = PyFloat.stored b.

(** A stored trade is well formed: one or two entries, one or two targets,
    the direction long or short, one value per leg, which the tables hold as
    they hold the value of the stored entry against its stored target (or
    against the last target), and one percentage per leg, among the gains or
    among the losses. *)
Definition trade_ok (t : trade_row) : Prop :=
  (1 <= length (t_entrytarget t) <= 2)%nat
  /\ (1 <= length (t_takeprofittarget t) <= 2)%nat
  /\ (t_type t = "long"%string \/ t_type t = "short"%string)
  /\ length (t_totalbalance t) = length (t_entrytarget t)
  /\ (length (t_gains t) + length (t_losses t))%nat = length (t_entrytarget t)
  /\ Forall2 same_stored (t_totalbalance t)
       (paired_values (t_entrytarget t) (t_takeprofittarget t) (t_lots t) (t_type t)).

(** What a text message can do to the tables. *)
Inductive tables_after (py_float : string -> option pyfloat) (today : date)
    (flt : nat -> bool) (chat_id : Z) (w : world) : database -> Prop :=
  | tables_same : tables_after py_float today flt chat_id w (db w)
  | tables_balance s bal :
      user_states w !! chat_id = Some s -> s_step s = Some StBalance ->
      tables_after py_float today flt chat_id w (insert_balance (db w) bal today chat_id)
  | tables_trade s v r d' :
      user_states w !! chat_id = Some s -> s_step s = Some StSl ->
      run_tx (save_trade today chat_id (set_sl v (get_data s))) (db w) flt = Some (r, d') ->
      tables_after py_float today flt chat_id w d'
  | tables_edit s val day :
      user_states w !! chat_id = Some s -> s_step s = Some StEditVal ->
      s_day s = Some day ->
      tables_after py_float today flt chat_id w (update_balance_of_day (db w) val chat_id day).


(** The tables of [demo_before_stop] with one more row, of the user 8. *)
Definition demo_two_users : database :=
  Database [] [BalanceRow 1 None (PyFloat.of_Z 1000) demo_day 7;
               BalanceRow 2 None (PyFloat.of_Z 5) demo_day 8] 1 3.

Definition demo_week : week_item := WeekItem [1] demo_day demo_day.

(** * Properties *)

(** *** Floats *)

Lemma eqb_finite_inv s1 m1 e1 s2 m2 e2 :
  PyFloat.eqb (S754_finite s1 m1 e1) (S754_finite s2 m2 e2) = true ->
  s1 = s2 /\ m1 = m2 /\ e1 = e2.
Proof.
  unfold PyFloat.eqb, SFeqb, SFcompare.
  rewrite Pos.compare_cont_spec.
  destruct s1, s2; try discriminate;
    destruct (Z.compare_spec e1 e2) as [He|He|He]; try discriminate;
    destruct (Pos.compare_spec m1 m2) as [Hm|Hm|Hm]; simpl; try discriminate;
    intros _; auto.
Qed.

Lemma sub_self_finite s m e :
  PyFloat.sub (S754_finite s m e) (S754_finite s m e) = S754_zero false.
Proof.
  unfold PyFloat.sub, SFsub. rewrite Z.sub_diag. reflexivity.
Qed.

Lemma sub_equal_is_zero x y :
  PyFloat.is_finite x = true -> PyFloat.is_finite y = true ->
  PyFloat.eqb x y = true -> PyFloat.is_zero (PyFloat.sub y x) = true.
Proof.
  destruct x as [sx|sx| |sx mx ex], y as [sy|sy| |sy my ey]; try discriminate.
  - intros _ _ _. destruct sx, sy; reflexivity.
  - intros _ _. unfold PyFloat.eqb, SFeqb. simpl. destruct sy; discriminate.
  - intros _ _. unfold PyFloat.eqb, SFeqb. simpl. destruct sx; discriminate.
  - intros _ _ H. apply eqb_finite_inv in H as (-> & -> & ->).
    rewrite sub_self_finite. reflexivity.
Qed.

Lemma hundred_finite : exists m e, PyFloat.of_Z 100 = S754_finite false m e.
Proof. eexists _, _. vm_compute. reflexivity. Qed.

Lemma mul_zero_finite x y :
  PyFloat.is_zero x = true -> PyFloat.is_finite y = true ->
  PyFloat.is_zero (PyFloat.mul x y) = true.
Proof. destruct x, y; try discriminate; reflexivity. Qed.

Lemma neg_zero x : PyFloat.is_zero x = true -> PyFloat.is_zero (PyFloat.neg x) = true.
Proof. destruct x; try discriminate; reflexivity. Qed.

Lemma round2_zero x : PyFloat.is_zero x = true -> PyFloat.is_zero (PyFloat.round2 x) = true.
Proof. destruct x; try discriminate; reflexivity. Qed.

(** C1: for finite entry, target and lots and a direction that is "long"
    or "short" in any case, [calculate_pnl_value] is [round] to two places of
    [(target - entry) * lots * 100], negated before rounding for a short
    position; it is a total function, and equal entry and target give zero. *)
Theorem pnl_value_formula (entry target lots : pyfloat) (direction : string) :
  PyStr.lower direction ∈ ["long"; "short"]%string ->
  PyFloat.is_finite entry = true ->
  PyFloat.is_finite target = true ->
  PyFloat.is_finite lots = true ->
  let raw := PyFloat.mul (PyFloat.mul (PyFloat.sub target entry) lots) (PyFloat.of_Z 100) in
  (PyStr.lower direction = "long"%string ->
     calculate_pnl_value entry target lots direction = PyFloat.round2 raw)
  /\ (PyStr.lower direction = "short"%string ->
     calculate_pnl_value entry target lots direction = PyFloat.round2 (PyFloat.neg raw))
  /\ (PyFloat.eqb entry target = true ->
     PyFloat.is_zero (calculate_pnl_value entry target lots direction) = true).
Proof.
  intros Hdir He Ht Hl raw. unfold calculate_pnl_value. fold raw.
  split; [|split].
  - intros ->. reflexivity.
  - intros ->. reflexivity.
  - intros Heq.
    assert (Hz : PyFloat.is_zero raw = true).
    { unfold raw. destruct hundred_finite as (m & e & ->).
      apply mul_zero_finite; [|reflexivity].
      apply mul_zero_finite; [|assumption].
      apply sub_equal_is_zero; assumption. }
    apply round2_zero. destruct (String.eqb _ _); [apply neg_zero|]; exact Hz.
Qed.

(** *** Week buckets *)

Lemma week_key_range d : 0 <= toordinal d - week_key d <= 6.
Proof. unfold week_key. pose proof (Z.mod_pos_bound (weekday d + 1) 7). lia. Qed.

Lemma week_key_sunday d : (week_key d + 6) mod 7 = 6.
Proof.
  unfold week_key, weekday.
  pose proof (Z.mod_pos_bound (toordinal d + 6) 7 ltac:(lia)) as Hb.
  pose proof (Z.div_mod (toordinal d + 6) 7 ltac:(lia)) as Hd.
  set (r := (toordinal d + 6) mod 7) in *.
  set (q := (toordinal d + 6) / 7) in *.
  assert (Hr : (r + 1) mod 7 = if decide (r = 6) then 0 else r + 1).
  { case_decide as H6; [subst r; rewrite H6; reflexivity|].
    apply Z.mod_small. lia. }
  rewrite Hr. case_decide.
  - replace (toordinal d - 0 + 6) with (6 + q * 7) by lia.
    rewrite Z.mod_add by lia. reflexivity.
  - replace (toordinal d - (r + 1) + 6) with (6 + (q - 1) * 7) by lia.
    rewrite Z.mod_add by lia. reflexivity.
Qed.

Lemma week_start_inv d k : week_start d = Some k -> k = week_key d.
Proof. unfold week_start, week_key. case_match; congruence. Qed.

Lemma week_start_some d : 7 <= toordinal d -> week_start d = Some (week_key d).
Proof.
  intros H. pose proof (week_key_range d) as Hr. unfold week_start.
  fold (week_key d). destruct (Z.leb_spec 1 (week_key d)); [done|lia].
Qed.

Lemma members_cons_eq p raw : members (week_key p.2) (p :: raw) = p :: members (week_key p.2) raw.
Proof. unfold members. by rewrite filter_cons_True. Qed.

Lemma members_cons_ne k p raw : week_key p.2 <> k -> members k (p :: raw) = members k raw.
Proof. intros H. unfold members. by rewrite filter_cons_False. Qed.

Lemma group_weeks_lookup raw : forall weeks ws k,
  group_weeks raw weeks = Some ws ->
  ws !! k = match weeks !! k with
            | Some l => Some (l ++ members k raw)
            | None => match members k raw with [] => None | m => Some m end
            end.
Proof.
  induction raw as [|[bid d] raw IH]; intros weeks ws k H; simpl in H.
  - injection H as <-. destruct (weeks !! k); by rewrite ?app_nil_r.
  - destruct (week_start d) as [s|] eqn:Hs; simpl in H; [|done].
    apply week_start_inv in Hs as ->.
    rewrite (IH _ _ k H). unfold weeks_append.
    destruct (decide (week_key d = k)) as [<-|Hne].
    + rewrite lookup_insert_eq, (members_cons_eq (bid, d)).
      destruct (weeks !! week_key d); simpl; [by rewrite <-app_assoc|done].
    + rewrite lookup_insert_ne by done.
      by rewrite (members_cons_ne k (bid, d)).
Qed.

Lemma group_weeks_total raw : forall weeks,
  Forall (fun p => 7 <= toordinal p.2) raw -> is_Some (group_weeks raw weeks).
Proof.
  induction raw as [|[bid d] raw IH]; intros weeks H; simpl; [by eexists|].
  inversion H as [|?? Hd Hr]; subst. simpl in Hd.
  rewrite (week_start_some d Hd). simpl. by apply IH.
Qed.

Lemma group_weeks_empty raw ws k :
  group_weeks raw ∅ = Some ws ->
  ws !! k = match members k raw with [] => None | m => Some m end.
Proof. intros H. by rewrite (group_weeks_lookup _ _ _ k H), lookup_empty. Qed.

Lemma elem_of_sorted_items ws k l : (k, l) ∈ sorted_items ws <-> ws !! k = Some l.
Proof. unfold sorted_items. by rewrite merge_sort_Permutation, elem_of_map_to_list. Qed.

Lemma sorted_items_NoDup ws : NoDup (sorted_items ws).*1.
Proof.
  unfold sorted_items. rewrite merge_sort_Permutation. apply NoDup_fst_map_to_list.
Qed.

Lemma StronglySorted_le_lt (l : list Z) :
  StronglySorted Z.le l -> NoDup l -> StronglySorted Z.lt l.
Proof.
  induction 1 as [|x l Hs IH Hx]; intros Hnd; constructor.
  - apply IH. by apply NoDup_cons_1_2 in Hnd.
  - apply NoDup_cons in Hnd as [Hx' _].
    rewrite Forall_forall in Hx |- *. intros y Hy.
    specialize (Hx y Hy). assert (x <> y) by (intros ->; done). lia.
Qed.

Lemma sorted_items_ascending ws : StronglySorted Z.lt (sorted_items ws).*1.
Proof.
  apply StronglySorted_le_lt; [|apply sorted_items_NoDup].
  apply (StronglySorted_fmap fst key_le Z.le); [done|].
  apply StronglySorted_merge_sort; apply _.
Qed.

Lemma ascending_unique (l1 l2 : list Z) :
  StronglySorted Z.lt l1 -> StronglySorted Z.lt l2 ->
  (forall k, k ∈ l1 <-> k ∈ l2) -> l1 = l2.
Proof.
  intros H1 H2 Hel.
  assert (Hnd : forall l, StronglySorted Z.lt l -> NoDup l).
  { induction 1 as [|x l _ IH Hx]; constructor; [|done].
    rewrite Forall_forall in Hx. intros Hin. specialize (Hx x Hin). lia. }
  apply (StronglySorted_unique_strong Z.lt); [intros; lia|done..|].
  apply NoDup_Permutation; auto.
Qed.

Lemma date_leb_total a b : date_leb a b = false -> date_leb b a = true.
Proof. unfold date_leb. destruct a, b; simpl. lia. Qed.

Lemma date_leb_trans a b c :
  date_leb a b = true -> date_leb b c = true -> date_leb a c = true.
Proof. unfold date_leb. destruct a, b, c; simpl. lia. Qed.

Lemma date_leb_refl a : date_leb a a = true.
Proof. unfold date_leb. destruct a; simpl. lia. Qed.

Lemma fold_min_spec r : forall d,
  let m := fold_left (fun m x => if date_leb m x then m else x) r d in
  m ∈ d :: r /\ forall x, x ∈ d :: r -> date_leb m x = true.
Proof.
  induction r as [|y r IH]; intros d; simpl.
  - split; [left|]. intros x Hx. apply list_elem_of_singleton in Hx as ->.
    apply date_leb_refl.
  - destruct (date_leb d y) eqn:Hdy.
    + destruct (IH d) as [Hin Hle]. split.
      * apply elem_of_cons in Hin as [->|Hin]; [left|do 2 right; done].
      * intros x Hx. apply elem_of_cons in Hx as [->|Hx]; [apply Hle; left|].
        apply elem_of_cons in Hx as [->|Hx]; [|apply Hle; by right].
        eapply date_leb_trans; [apply Hle; left|done].
    + destruct (IH y) as [Hin Hle]. split; [by right|].
      intros x Hx. apply elem_of_cons in Hx as [->|Hx]; [|by apply Hle].
      eapply date_leb_trans; [apply Hle; left|by apply date_leb_total].
Qed.

Lemma fold_max_spec r : forall d,
  let m := fold_left (fun m x => if date_leb x m then m else x) r d in
  m ∈ d :: r /\ forall x, x ∈ d :: r -> date_leb x m = true.
Proof.
  induction r as [|y r IH]; intros d; simpl.
  - split; [left|]. intros x Hx. apply list_elem_of_singleton in Hx as ->.
    apply date_leb_refl.
  - destruct (date_leb y d) eqn:Hdy.
    + destruct (IH d) as [Hin Hle]. split.
      * apply elem_of_cons in Hin as [->|Hin]; [left|do 2 right; done].
      * intros x Hx. apply elem_of_cons in Hx as [->|Hx]; [apply Hle; left|].
        apply elem_of_cons in Hx as [->|Hx]; [|apply Hle; by right].
        eapply date_leb_trans; [done|apply Hle; left].
    + destruct (IH y) as [Hin Hle]. split; [by right|].
      intros x Hx. apply elem_of_cons in Hx as [->|Hx]; [|by apply Hle].
      eapply date_leb_trans; [by apply date_leb_total|apply Hle; left].
Qed.

Lemma item_of_bucket_spec b :
  b.2 <> [] -> exists it, item_of_bucket b = Some it /\ exposes b it.
Proof.
  destruct b as [k [|p l]]; [done|]. intros _. unfold item_of_bucket. simpl.
  eexists. split; [reflexivity|].
  destruct (fold_min_spec (l.*2) p.2) as [Hmin1 Hmin2].
  destruct (fold_max_spec (l.*2) p.2) as [Hmax1 Hmax2].
  unfold exposes; simpl. repeat split; auto.
Qed.

Lemma filter_exclusive_app {A} (P Q : A -> Prop) `{!forall x, Decision (P x)}
    `{!forall x, Decision (Q x)} (l : list A) :
  (forall x, P x -> Q x -> False) ->
  filter P l ++ filter Q l ≡ₚ filter (fun x => P x \/ Q x) l.
Proof.
  intros Hex. induction l as [|x l IH]; [done|].
  destruct (decide (P x)) as [HP|HP], (decide (Q x)) as [HQ|HQ].
  - destruct (Hex x HP HQ).
  - rewrite (filter_cons_True P), (filter_cons_False Q), filter_cons_True by tauto.
    simpl. by rewrite IH.
  - rewrite (filter_cons_False P), (filter_cons_True Q), filter_cons_True by tauto.
    rewrite <-Permutation_middle. by rewrite IH.
  - rewrite (filter_cons_False P), (filter_cons_False Q), filter_cons_False by tauto.
    done.
Qed.

Lemma filter_all {A} (P : A -> Prop) `{!forall x, Decision (P x)} (l : list A) :
  Forall P l -> filter P l = l.
Proof.
  induction 1 as [|x l Hx _ IH]; [done|]. by rewrite filter_cons_True, IH.
Qed.

Lemma concat_members (keys : list Z) (raw : list (Z * date)) :
  NoDup keys ->
  concat (map (fun k => members k raw) keys) ≡ₚ filter (fun p => week_key p.2 ∈ keys) raw.
Proof.
  induction 1 as [|k keys Hk Hnd IH]; simpl.
  - induction raw as [|p raw IHr]; [done|].
    rewrite filter_cons_False; [done|]. apply not_elem_of_nil.
  - rewrite IH. unfold members. rewrite filter_exclusive_app.
    + apply Permutation_refl'. apply list_filter_iff. intros p.
      rewrite elem_of_cons. done.
    + intros p <- Hin. done.
Qed.


Lemma week_buckets_members raw buckets b :
  week_buckets raw = Some buckets -> b ∈ buckets ->
  b.2 <> [] /\ b.2 = members b.1 raw.
Proof.
  unfold week_buckets. intros H Hb.
  destruct (group_weeks raw ∅) as [ws|] eqn:Hws; [|done].
  injection H as <-. destruct b as [k l]. apply elem_of_sorted_items in Hb.
  rewrite (group_weeks_empty _ _ k Hws) in Hb. simpl.
  destruct (members k raw); [done|]. by injection Hb as <-.
Qed.

Lemma week_buckets_keys raw buckets k :
  week_buckets raw = Some buckets -> k ∈ buckets.*1 <-> members k raw <> [].
Proof.
  unfold week_buckets. intros H.
  destruct (group_weeks raw ∅) as [ws|] eqn:Hws; [|done].
  injection H as <-. rewrite list_elem_of_fmap. split.
  - intros [[k' l] [-> Hb]]. simpl. apply elem_of_sorted_items in Hb.
    rewrite (group_weeks_empty _ _ k' Hws) in Hb. by destruct (members k' raw).
  - intros Hne. exists (k, members k raw). split; [done|].
    apply elem_of_sorted_items. rewrite (group_weeks_empty _ _ k Hws).
    by destruct (members k raw).
Qed.

Lemma week_buckets_shape raw buckets :
  week_buckets raw = Some buckets ->
  buckets = map (fun k => (k, members k raw)) buckets.*1.
Proof.
  intros H. rewrite <-list_fmap_compose.
  rewrite <-(list_fmap_id buckets) at 1. apply list_fmap_ext.
  intros i b Hb. apply list_elem_of_lookup_2 in Hb.
  destruct (week_buckets_members _ _ _ H Hb) as [_ Hm].
  destruct b; simpl in *. by rewrite <-Hm.
Qed.

(** C4: week bucketing of the records of a user.  Their days are dates on
    which the program ran (the only INSERT writes today's date and nothing
    changes a day), hence on or after 0001-01-07, the first date whose week
    begins on a date that exists.  The bucketing succeeds; the keys of the
    buckets ascend strictly, each key is the Sunday
    [date - ((weekday(date) + 1) mod 7)] of its members, each record lies in
    exactly one bucket, the emitted items show the ids and the least and
    greatest date of their bucket, and bucketing the same records again,
    however they are listed, gives the same keys and the same members. *)
Theorem week_bucketing (raw : list (Z * date)) :
  Forall (fun p => 7 <= toordinal p.2) raw ->
  exists buckets items,
    week_buckets raw = Some buckets /\ week_items raw = Some items
    /\ StronglySorted Z.lt buckets.*1
    /\ Forall (fun b => (b.1 + 6) mod 7 = 6 /\ b.2 <> []
                        /\ b.2 = filter (fun p => week_key p.2 = b.1) raw) buckets
    /\ (forall p, p ∈ raw ->
          exists b, (b ∈ buckets /\ p ∈ b.2)
                    /\ forall b', b' ∈ buckets /\ p ∈ b'.2 -> b' = b)
    /\ concat buckets.*2 ≡ₚ raw
    /\ Forall2 exposes buckets items
    /\ (forall raw', raw' ≡ₚ raw ->
          exists buckets',
            week_buckets raw' = Some buckets' /\ buckets'.*1 = buckets.*1
            /\ Forall2 (fun b b' => b'.2 ≡ₚ b.2) buckets buckets').
Proof.
  intros Hraw.
  destruct (group_weeks_total raw ∅ Hraw) as [ws Hws].
  assert (Hb : week_buckets raw = Some (sorted_items ws))
    by (unfold week_buckets; by rewrite Hws).
  set (buckets := sorted_items ws) in *.
  assert (Hasc : StronglySorted Z.lt buckets.*1) by apply sorted_items_ascending.
  assert (Hmem : Forall (fun b => b.2 <> [] /\ b.2 = members b.1 raw) buckets).
  { apply Forall_forall. intros b. apply (week_buckets_members _ _ _ Hb). }
  assert (Hitems : exists items, mapM item_of_bucket buckets = Some items
                                 /\ Forall2 exposes buckets items).
  { clear -Hmem. induction Hmem as [|b l [Hne _] _ (items & Hi & Hf)].
    - by exists [].
    - destruct (item_of_bucket_spec b Hne) as (it & Hit & Hex).
      exists (it :: items). split; [|by constructor].
      cbn. rewrite Hit. cbn. by rewrite Hi. }
  destruct Hitems as (items & Hitems & Hexp).
  exists buckets, items. split; [done|]. split.
  { unfold week_items. rewrite Hb. done. }
  split; [done|]. split.
  { apply Forall_forall. intros b Hin.
    destruct (week_buckets_members _ _ _ Hb Hin) as [Hne Hm].
    split; [|done].
    destruct b.2 as [|p l] eqn:E; [done|].
    assert (Hp : p ∈ members b.1 raw) by (rewrite <-Hm; left).
    apply list_elem_of_filter in Hp as [<- _]. apply week_key_sunday. }
  split.
  { intros p Hp. exists (week_key p.2, members (week_key p.2) raw).
    assert (Hpm : p ∈ members (week_key p.2) raw)
      by (apply list_elem_of_filter; done).
    split; [split; [|done]|].
    - apply elem_of_sorted_items.
      rewrite (group_weeks_empty _ _ _ Hws).
      destruct (members (week_key p.2) raw); [by apply elem_of_nil in Hpm|done].
    - intros [k l] [Hin Hpl].
      destruct (week_buckets_members _ _ _ Hb Hin) as [_ Hm]. simpl in *.
      subst l. apply list_elem_of_filter in Hpl as [<- _]. done. }
  split.
  { rewrite (week_buckets_shape _ _ Hb) at 1.
    rewrite <-list_fmap_compose.
    change (concat (map (fun k => members k raw) buckets.*1) ≡ₚ raw).
    rewrite concat_members by apply sorted_items_NoDup.
    apply Permutation_refl', filter_all, Forall_forall. intros p Hp.
    apply (week_buckets_keys _ _ _ Hb). intros Hnil.
    assert (Hpm : p ∈ members (week_key p.2) raw)
      by (apply list_elem_of_filter; done).
    rewrite Hnil in Hpm. by apply elem_of_nil in Hpm. }
  split; [done|].
  intros raw' Hperm.
  assert (Hraw' : Forall (fun p => 7 <= toordinal p.2) raw') by (by rewrite Hperm).
  destruct (group_weeks_total raw' ∅ Hraw') as [ws' Hws'].
  assert (Hb' : week_buckets raw' = Some (sorted_items ws'))
    by (unfold week_buckets; by rewrite Hws').
  assert (Hmp : forall k, members k raw' ≡ₚ members k raw).
  { intros k. unfold members. by rewrite Hperm. }
  assert (Hkeys : (sorted_items ws').*1 = buckets.*1).
  { apply ascending_unique; [apply sorted_items_ascending|done|].
    intros k. rewrite (week_buckets_keys _ _ k Hb), (week_buckets_keys _ _ k Hb').
    split; intros Hne Hnil; apply Hne.
    - apply Permutation_nil_r. by rewrite Hmp, Hnil.
    - apply Permutation_nil_r. by rewrite <-Hmp, Hnil. }
  exists (sorted_items ws'). split; [done|]. split; [done|].
  rewrite (week_buckets_shape _ _ Hb), (week_buckets_shape _ _ Hb'), Hkeys.
  apply Forall2_fmap, Forall_Forall2_diag, Forall_forall. intros k _. simpl.
  apply Hmp.
Qed.

(** *** The database monad *)

Lemma costs_ret {A} (x : A) : costs (mret x) 0.
Proof.
  intros c y c' H. injection H as <- <-. repeat split; [lia|]. intros k Hk; lia.
Qed.

Lemma costs_bind {A B} (m : DB A) (f : A -> DB B) n k :
  costs m n -> (forall x, costs (f x) k) -> costs (m ≫= f) (n + k).
Proof.
  intros Hm Hf c y c' H. unfold mbind, DB_bind in H.
  destruct (m c) as [[x c1]|] eqn:E; [|done].
  destruct (Hm _ _ _ E) as (F1 & O1 & K1).
  destruct (Hf x _ _ _ H) as (F2 & O2 & K2).
  repeat split; [congruence|lia|]. intros j Hj.
  destruct (decide (j < ops c + n)%nat); [apply K1; lia|].
  rewrite <-F1. apply K2. lia.
Qed.

Lemma costs_tick : costs tick 1.
Proof.
  intros c [] c' H. unfold tick in H.
  destruct (faults c (ops c)) eqn:E; [done|]. injection H as <-. simpl.
  repeat split; [lia|]. intros k Hk. by replace k with (ops c) by lia.
Qed.

Lemma costs_need {A} (o : option A) : costs (need o) 0.
Proof. destruct o; [apply costs_ret|]. intros c x c' H. done. Qed.

Lemma costs_read_tx : costs read_tx 0.
Proof.
  intros c x c' H. injection H as <- <-. repeat split; [lia|]. intros k Hk; lia.
Qed.

Lemma costs_write_tx d : costs (write_tx d) 0.
Proof.
  intros c x c' H. injection H as <- <-. simpl. repeat split; [lia|].
  intros k Hk; lia.
Qed.

Lemma costs_query {A} (f : database -> A) : costs (query f) 1.
Proof.
  unfold query. apply (costs_bind _ _ 1 0); [apply costs_tick|]. intros _.
  apply (costs_bind _ _ 0 0); [apply costs_read_tx|]. intros d. apply costs_ret.
Qed.

Lemma costs_exec f : costs (exec f) 1.
Proof.
  unfold exec. apply (costs_bind _ _ 1 0); [apply costs_tick|]. intros _.
  apply (costs_bind _ _ 0 0); [apply costs_read_tx|]. intros d. apply costs_write_tx.
Qed.

Lemma costs_exec_returning {A} (f : database -> database * A) :
  costs (exec_returning f) 1.
Proof.
  unfold exec_returning. apply (costs_bind _ _ 1 0); [apply costs_tick|]. intros _.
  apply (costs_bind _ _ 0 0); [apply costs_read_tx|]. intros d.
  apply (costs_bind _ _ 0 0); [apply costs_write_tx|]. intros _. apply costs_ret.
Qed.

Lemma costs_legs_loop today chat_id tps lots ttype rest : forall i a,
  costs (legs_loop today chat_id tps lots ttype i rest a) (length rest).
Proof.
  induction rest as [|ent rest IH]; intros i a; simpl; [apply costs_ret|].
  apply (costs_bind _ _ 0 (S (length rest))); [apply costs_need|]. intros tp.
  apply (costs_bind _ _ 1 (length rest)); [apply costs_query|]. intros brow.
  apply (costs_bind _ _ 0 (length rest)); [apply costs_need|]. intros row.
  apply IH.
Qed.

Lemma costs_need_bind {A B} (o : option A) (f : A -> DB B) n :
  (forall x, o = Some x -> costs (f x) n) -> costs (need o ≫= f) n.
Proof.
  intros H c y c' E. destruct o as [x|]; [|done]. exact (H x eq_refl c y c' E).
Qed.

Lemma costs_save_trade today chat_id data :
  costs (save_trade today chat_id data) (save_cost data).
Proof.
  unfold save_trade, save_cost.
  apply (costs_bind _ _ 1 (3 + _)); [apply costs_tick|]. intros _.
  apply costs_need_bind. intros entries ->. simpl.
  do 3 (apply costs_need_bind; intros ? _).
  replace (S (S (S (length entries)))) with (length entries + 3)%nat by lia.
  apply costs_bind; [apply costs_legs_loop|]. intros a.
  do 2 (apply costs_need_bind; intros ? _).
  apply (costs_bind _ _ 1 2); [apply costs_exec_returning|]. intros new_id.
  apply costs_need_bind; intros row _.
  apply (costs_bind _ _ 1 1); [apply costs_exec|]. intros _.
  apply (costs_bind _ _ 1 0); [apply costs_tick|]. intros _. apply costs_ret.
Qed.



Lemma bind_some {A B} (m : DB A) (f : A -> DB B) c x c' :
  m c = Some (x, c') -> (m ≫= f) c = f x c'.
Proof. intros H. unfold mbind, DB_bind. by rewrite H. Qed.

Lemma bind_need {A B} (o : option A) (f : A -> DB B) c x :
  o = Some x -> (need o ≫= f) c = f x c.
Proof. by intros ->. Qed.

Lemma tick_ok c :
  faults c (ops c) = false -> tick c = Some (tt, Conn (tx c) (faults c) (S (ops c))).
Proof. intros H. unfold tick. by rewrite H. Qed.

Lemma query_ok {A} (f : database -> A) c :
  faults c (ops c) = false ->
  query f c = Some (f (tx c), Conn (tx c) (faults c) (S (ops c))).
Proof. intros H. unfold query. by rewrite (bind_some _ _ _ _ _ (tick_ok c H)). Qed.

Lemma exec_ok f c :
  faults c (ops c) = false ->
  exec f c = Some (tt, Conn (f (tx c)) (faults c) (S (ops c))).
Proof. intros H. unfold exec. by rewrite (bind_some _ _ _ _ _ (tick_ok c H)). Qed.

Lemma exec_returning_ok {A} (f : database -> database * A) c :
  faults c (ops c) = false ->
  exec_returning f c = Some ((f (tx c)).2, Conn (f (tx c)).1 (faults c) (S (ops c))).
Proof.
  intros H. unfold exec_returning. by rewrite (bind_some _ _ _ _ _ (tick_ok c H)).
Qed.

Lemma target_for_some tps i : tps <> [] -> is_Some (target_for tps i).
Proof.
  intros H. unfold target_for. destruct (tps !! i); [by eexists|].
  destruct tps as [|x l] using rev_ind; [done|]. rewrite last_snoc. by eexists.
Qed.

Lemma legs_loop_ok today chat_id tps lots ttype row rest : forall i a c,
  tps <> [] ->
  select_balance_of_day (tx c) today chat_id = Some row ->
  (forall k, (ops c <= k < ops c + length rest)%nat -> faults c k = false) ->
  legs_loop today chat_id tps lots ttype i rest a c =
  Some (let vals :=
          imap (fun j ent =>
                  calculate_pnl_value ent (default PyFloat.zero (target_for tps (i + j)))
                                      lots ttype) rest in
        let pct := calculate_balance_percent (b_balance row) in
        LegAcc (raw_pnls a ++ vals)
               (fold_left PyFloat.add vals (total_pnl a))
               (profits a ++ map pct (filter is_gain vals))
               (losses a ++ map pct (filter (fun v => ~ is_gain v) vals))
               (match rest with [] => last_row a | _ => Some row end),
        Conn (tx c) (faults c) (ops c + length rest)).
Proof.
  induction rest as [|ent rest IH]; intros i a c Htps Hrow Hflt.
  - simpl. destruct a, c; simpl. by rewrite !app_nil_r, Nat.add_0_r.
  - simpl legs_loop.
    destruct (target_for_some tps i Htps) as [tp Htp].
    rewrite (bind_need _ _ _ _ Htp).
    rewrite (bind_some _ _ _ _ _ (query_ok _ c (Hflt (ops c) ltac:(simpl; lia)))).
    rewrite (bind_need _ _ _ _ Hrow).
    rewrite IH; [|done|done|simpl in *; intros k Hk; apply Hflt; lia].
    simpl. rewrite Nat.add_0_r, Htp. simpl.
    f_equal. f_equal; [|f_equal; lia].
    set (v := calculate_pnl_value ent tp lots ttype).
    assert (Hext : imap (fun j ent0 => calculate_pnl_value ent0
                     (default PyFloat.zero (target_for tps (S (i + j)))) lots ttype) rest
                 = imap ((fun j ent0 => calculate_pnl_value ent0
                     (default PyFloat.zero (target_for tps (i + j))) lots ttype) ∘ S) rest).
    { apply imap_ext. intros j x _. simpl. by replace (i + S j)%nat with (S (i + j)) by lia. }
    rewrite Hext. set (vals := imap _ rest).
    destruct (PyFloat.leb PyFloat.zero v) eqn:Hg.
    + assert (Hv : is_gain v) by exact Hg.
      rewrite (filter_cons_True is_gain) by done.
      rewrite (filter_cons_False (fun v => ~ is_gain v)) by tauto.
      destruct rest; simpl; by rewrite <-?app_assoc.
    + assert (Hv : ~ is_gain v) by (unfold is_gain; simpl; by rewrite Hg).
      rewrite (filter_cons_False is_gain) by done.
      rewrite (filter_cons_True (fun v => ~ is_gain v)) by done.
      destruct rest; simpl; by rewrite <-?app_assoc.
Qed.

Lemma save_trade_ok today chat_id data d flt row currency lots entries tps stop ttype :
  d_currency data = Some currency -> d_lots data = Some lots ->
  d_type data = Some ttype -> d_entry_targets data = Some entries ->
  d_tp_targets data = Some tps -> d_sl data = Some stop ->
  entries <> [] -> tps <> [] ->
  select_balance_of_day d today chat_id = Some row ->
  (forall k, (k < save_cost data)%nat -> flt k = false) ->
  run_tx (save_trade today chat_id data) d flt
  = Some (settle_read_once d row currency lots entries tps stop ttype).
Proof.
  intros Hc Hl Ht He Htp Hs Hne Htne Hrow Hflt.
  unfold save_cost in Hflt. rewrite He in Hflt. simpl in Hflt.
  assert (H0 : flt 0%nat = false) by (apply Hflt; lia).
  assert (Hlegs : forall k, (1 <= k < 1 + length entries)%nat -> flt k = false)
    by (intros k Hk; apply Hflt; lia).
  assert (H1 : flt (1 + length entries)%nat = false) by (apply Hflt; lia).
  assert (H2 : flt (S (1 + length entries))%nat = false) by (apply Hflt; lia).
  assert (H3 : flt (S (S (1 + length entries)))%nat = false) by (apply Hflt; lia).
  clear Hflt.
  unfold run_tx, save_trade, get_db_connection, commit.
  rewrite (bind_some _ _ _ _ _ (tick_ok (Conn d flt 0) H0)).
  rewrite (bind_need _ _ _ _ He), (bind_need _ _ _ _ Htp),
    (bind_need _ _ _ _ Hl), (bind_need _ _ _ _ Ht).
  rewrite (bind_some _ _ _ _ _
             (legs_loop_ok today chat_id tps lots ttype row entries 0 _
                (Conn d flt 1) Htne Hrow Hlegs)).
  rewrite (bind_need _ _ _ _ Hc), (bind_need _ _ _ _ Hs).
  rewrite (bind_some _ _ _ _ _ (exec_returning_ok _ (Conn d flt _) H1)).
  destruct entries as [|e0 entries']; [done|].
  rewrite (bind_need _ _ _ row) by reflexivity.
  rewrite (bind_some _ _ _ _ _ (exec_ok _ (Conn _ flt _) H2)).
  rewrite (bind_some _ _ _ _ _ (tick_ok (Conn _ flt _) H3)).
  reflexivity.
Qed.


Section Conversation.

Variable py_float : string -> option pyfloat.
Variable SUDOS : list Z.

Lemma numeric_step_none chat_id s w (o : option trade_data) next_step :
  o = None -> numeric_step chat_id s w o next_step = (w, [say chat_id "Enter a number."]).
Proof. by intros ->. Qed.

(** C3: at each numeric step (balance, lots, entry1, entry2, tp1, tp2,
    stoploss) a text that is not a number leaves the whole world, hence the
    step and the fields entered so far, as it was.  At the first six the one
    reply asks for a number again.  At the stop loss the parse sits inside
    the [try] of the terminal step, and the one reply is the "Error saving."
    that a failed save gets: the step is not asked again. *)
Theorem parse_failure_keeps_session today flt chat_id raw_text w s st :
  user_states w !! chat_id = Some s ->
  s_step s = Some st ->
  st ∈ numeric_steps ->
  py_float (inbound_text raw_text) = None ->
  let r := message_handler py_float SUDOS today flt chat_id raw_text w in
  r.1 = w
  /\ (st <> StSl -> r.2 = [say chat_id "Enter a number."])
  /\ (st = StSl -> r.2 = [say chat_id "Error saving."]).
Proof.
  intros Hlook Hstep Hnum Hparse r.
  assert (Hr : r = (w, [say chat_id (if decide (st = StSl) then "Error saving."
                                     else "Enter a number.")])).
  { unfold r, message_handler.
    rewrite Hlook, Hstep. unfold numeric_steps in Hnum.
    repeat (apply elem_of_cons in Hnum as [->|Hnum]);
      try (by apply elem_of_nil in Hnum);
      cbn beta iota; rewrite ?Hparse; try reflexivity;
      apply numeric_step_none; by destruct (_ (get_data s)). }
  rewrite Hr. split; [done|]. split; intros H; cbn [snd].
  - by rewrite decide_False.
  - by rewrite decide_True.
Qed.

Lemma select_after_update d today chat_id row f :
  (forall r, b_day (f r) = b_day r /\ b_userid (f r) = b_userid r) ->
  select_balance_of_day d today chat_id = Some row ->
  select_balance_of_day (map_balances f d) today chat_id = Some (f row).
Proof.
  intros Hf. unfold select_balance_of_day, map_balances. simpl.
  induction (balances d) as [|r l IH]; [done|]. simpl.
  destruct (Hf r) as [Hd Hu].
  destruct (decide (b_day r = today /\ b_userid r = chat_id)) as [Hr|Hr].
  - rewrite (filter_cons_True _ r) by done.
    rewrite filter_cons_True by (rewrite Hd, Hu; done).
    simpl. by intros [= ->].
  - rewrite (filter_cons_False _ r) by done.
    rewrite filter_cons_False by (rewrite Hd, Hu; done). done.
Qed.

Lemma start_db chat_id w : db (start SUDOS chat_id w).1 = db w.
Proof.
  unfold start. destruct (decide (chat_id ∈ SUDOS)); [|done].
  by destruct (user_states w !! chat_id).
Qed.

Lemma and_then_fst r k : (and_then r k).1 = (k r.1).1.
Proof. unfold and_then. by destruct (k r.1). Qed.

Lemma and_then_snd r k : (and_then r k).2 = r.2 ++ (k r.1).2.
Proof. unfold and_then. by destruct (k r.1). Qed.

Lemma start_out chat_id w : (start SUDOS chat_id w).2 = [menu_or_refusal SUDOS chat_id].
Proof. unfold start, menu_or_refusal. by destruct (decide (chat_id ∈ SUDOS)). Qed.

Lemma start_after_fst flt n on_raise chat_id r :
  (start_after SUDOS flt n on_raise chat_id r).1 = (start SUDOS chat_id r.1).1.
Proof.
  unfold start_after. rewrite <-and_then_fst. by destruct (_ && _).
Qed.

Lemma start_after_snd flt n on_raise chat_id r :
  (start_after SUDOS flt n on_raise chat_id r).2
  = r.2 ++ [menu_or_refusal SUDOS chat_id]
    ++ (if flt n && bool_decide (chat_id ∈ SUDOS) then [on_raise] else []).
Proof.
  unfold start_after. destruct (_ && _); cbn [snd];
    rewrite and_then_snd, start_out; [by rewrite <-app_assoc|by rewrite app_nil_r].
Qed.

Lemma start_after_quiet flt n on_raise chat_id r :
  flt n = false ->
  start_after SUDOS flt n on_raise chat_id r = and_then r (start SUDOS chat_id).
Proof. intros H. unfold start_after. by rewrite H. Qed.

Lemma ops_of_save_trade today chat_id data d flt r :
  run_tx (save_trade today chat_id data) d flt = Some r ->
  ops_of (save_trade today chat_id data) d flt = save_cost data.
Proof.
  unfold run_tx, ops_of.
  destruct (save_trade _ _ _ _) as [[x c']|] eqn:E; [|done]. intros _.
  by destruct (costs_save_trade _ _ _ _ _ _ E) as (_ & -> & _).
Qed.


(** C9: in the terminal step every percentage is taken against the balance
    the day's row had when the step began, and the balance written is that
    base plus the sum of the values of the legs (the tables hold each float
    as [PyFloat.stored] makes it, which changes a [-0.0] only). *)
Theorem terminal_step_single_base today flt chat_id raw_text w s stop row
    currency lots entries tps ttype :
  user_states w !! chat_id = Some s ->
  s_step s = Some StSl ->
  py_float (inbound_text raw_text) = Some stop ->
  d_currency (get_data s) = Some currency -> d_lots (get_data s) = Some lots ->
  d_type (get_data s) = Some ttype ->
  d_entry_targets (get_data s) = Some entries -> entries <> [] ->
  d_tp_targets (get_data s) = Some tps -> tps <> [] ->
  select_balance_of_day (db w) today chat_id = Some row ->
  (forall k, (k < save_cost (get_data s))%nat -> flt k = false) ->
  let base := b_balance row in
  let vals := paired_values entries tps lots ttype in
  let total := fold_left PyFloat.add vals (PyFloat.of_Z 0) in
  let r := message_handler py_float SUDOS today flt chat_id raw_text w in
  db r.1 = (settle_read_once (db w) row currency lots entries tps stop ttype).2
  /\ (exists trade,
        calcbalances (db r.1) = calcbalances (db w) ++ [trade]
        /\ t_totalbalance trade = map PyFloat.stored vals
        /\ t_gains trade
           = map PyFloat.stored
               (map (calculate_balance_percent base) (filter is_gain vals))
        /\ t_losses trade
           = map PyFloat.stored
               (map (calculate_balance_percent base)
                    (filter (fun x => ~ is_gain x) vals)))
  /\ (exists row',
        select_balance_of_day (db r.1) today chat_id = Some row'
        /\ b_id row' = b_id row
        /\ b_balance row' = PyFloat.stored (PyFloat.add base total)
        /\ b_forIds row' = Some (ids_of (b_forIds row) ++ [calc_seq (db w)]))
  /\ (forall x, x ∈ balances (db r.1) -> b_id x = b_id row ->
        b_balance x = PyFloat.stored (PyFloat.add base total))
  /\ head r.2 = Some (SendMessage chat_id (Saved total (PyFloat.add base total))
                                  ReplyKeyboardRemove).
Proof.
  intros Hlook Hstep Hparse Hc Hl Ht He Hne Htp Htne Hrow Hflt base vals total r.
  assert (Hr : exists n,
            r = start_after SUDOS flt n (say chat_id "Error saving.") chat_id
            (World (delete chat_id (user_states w))
                   (settle_read_once (db w) row currency lots entries tps stop ttype).2,
             [SendMessage chat_id (Saved total (PyFloat.add base total))
                          ReplyKeyboardRemove])).
  { eexists. unfold r, message_handler. rewrite Hlook, Hstep. cbn beta iota.
    rewrite Hparse.
    by rewrite (save_trade_ok today chat_id (set_sl stop (get_data s)) (db w) flt row
                  currency lots entries tps stop ttype). }
  destruct Hr as [n Hr].
  assert (Hdb : db r.1
                = (settle_read_once (db w) row currency lots entries tps stop ttype).2).
  { by rewrite Hr, start_after_fst, start_db. }
  split; [exact Hdb|]. rewrite Hdb. unfold settle_read_once.
  fold base. fold vals. fold total. cbn -[vals total].
  split; [|split; [|split]].
  - eexists. split; [reflexivity|]. done.
  - eexists. split.
    + apply (select_after_update (Database _ _ _ _));
        [intros x; by destruct (decide (b_id x = b_id row))|exact Hrow].
    + rewrite decide_True by done. done.
  - intros x Hx Hid.
    apply list_elem_of_fmap in Hx as (r0 & -> & _).
    destruct (decide (b_id r0 = b_id row)); done.
  - by rewrite Hr, start_after_snd.
Qed.


Lemma start_no_tokens chat_id w :
  no_tokens (user_states w) chat_id ->
  no_tokens (user_states (start SUDOS chat_id w).1) chat_id.
Proof.
  unfold start, no_tokens. intros H.
  destruct (decide (chat_id ∈ SUDOS)); [|done]. simpl.
  destruct (user_states w !! chat_id) eqn:E; simpl; [by rewrite E|].
  by rewrite lookup_insert_eq.
Qed.

Lemma deleted_no_tokens us chat_id : no_tokens (delete chat_id us) chat_id.
Proof. unfold no_tokens. by rewrite lookup_delete_eq. Qed.

Lemma no_tokens_resolve us chat_id key :
  no_tokens us chat_id -> resolve us chat_id key = None.
Proof. unfold no_tokens, resolve. by intros ->. Qed.

Lemma numeric_step_out chat_id s w o next_step a :
  a ∈ (numeric_step chat_id s w o next_step).2 ->
  a ∈ prompt_for chat_id next_step \/ a = say chat_id "Enter a number.".
Proof.
  destruct o; simpl; [by left|]. intros H. right.
  by apply list_elem_of_singleton in H.
Qed.

Lemma prompt_not_saved chat_id st total nb :
  SendMessage chat_id (Saved total nb) ReplyKeyboardRemove ∉ prompt_for chat_id st.
Proof.
  destruct st; simpl; intros H;
    repeat (apply elem_of_cons in H as [H|H]; [discriminate H|]);
    by apply elem_of_nil in H.
Qed.

Lemma prompt_not_updated chat_id st :
  say chat_id "Updated." ∉ prompt_for chat_id st.
Proof.
  destruct st; simpl; intros H;
    repeat (apply elem_of_cons in H as [H|H]; [discriminate H|]);
    by apply elem_of_nil in H.
Qed.

Ltac refute_member H :=
  repeat (apply elem_of_cons in H as [H|H]; [discriminate H|]);
  try (by apply elem_of_nil in H).

Lemma saved_resets today flt chat_id raw_text w total nb :
  SendMessage chat_id (Saved total nb) ReplyKeyboardRemove
    ∈ (message_handler py_float SUDOS today flt chat_id raw_text w).2 ->
  no_tokens (user_states (message_handler py_float SUDOS today flt chat_id raw_text w).1)
            chat_id.
Proof.
  unfold message_handler.
  destruct (user_states w !! chat_id) as [s|] eqn:Hlook; [|intros H; refute_member H].
  destruct (s_step s) as [st|]; [|intros H; refute_member H].
  destruct st; cbn beta iota;
    try (intros H; apply numeric_step_out in H as [H|H];
         [by apply prompt_not_saved in H|discriminate H]).
  - destruct (run_tx _ _ _) as [[[row|] d']|]; simpl; intros H;
      try (by apply prompt_not_saved in H); refute_member H.
  - destruct (py_float _); [|intros H; refute_member H].
    destruct (run_tx _ _ _) as [[u d']|]; simpl; intros H;
      try (by apply prompt_not_saved in H); refute_member H.
  - destruct (is_direction _); simpl; intros H;
      try (by apply prompt_not_saved in H); refute_member H.
  - simpl. intros H. by apply prompt_not_saved in H.
  - simpl. intros H. by apply prompt_not_saved in H.
  - destruct (py_float _); [|intros H; refute_member H].
    destruct (run_tx _ _ _) as [[[t n] d']|]; [|intros H; refute_member H].
    intros _. rewrite start_after_fst. apply start_no_tokens, deleted_no_tokens.
  - destruct (py_float _); [|intros H; refute_member H].
    destruct (s_day s); [|intros H; refute_member H].
    destruct (run_tx _ _ _) as [[u d']|]; [|intros H; refute_member H].
    intros _. rewrite start_after_fst. apply start_no_tokens, deleted_no_tokens.
Qed.

Lemma updated_resets today flt chat_id raw_text w :
  say chat_id "Updated."
    ∈ (message_handler py_float SUDOS today flt chat_id raw_text w).2 ->
  no_tokens (user_states (message_handler py_float SUDOS today flt chat_id raw_text w).1)
            chat_id.
Proof.
  unfold message_handler.
  destruct (user_states w !! chat_id) as [s|] eqn:Hlook; [|intros H; refute_member H].
  destruct (s_step s) as [st|]; [|intros H; refute_member H].
  destruct st; cbn beta iota;
    try (intros H; apply numeric_step_out in H as [H|H];
         [by apply prompt_not_updated in H|discriminate H]).
  - destruct (run_tx _ _ _) as [[[row|] d']|]; simpl; intros H;
      try (by apply prompt_not_updated in H); refute_member H.
  - destruct (py_float _); [|intros H; refute_member H].
    destruct (run_tx _ _ _) as [[u d']|]; simpl; intros H;
      try (by apply prompt_not_updated in H); refute_member H.
  - destruct (is_direction _); simpl; intros H;
      try (by apply prompt_not_updated in H); refute_member H.
  - simpl. intros H. by apply prompt_not_updated in H.
  - simpl. intros H. by apply prompt_not_updated in H.
  - destruct (py_float _); [|intros H; refute_member H].
    destruct (run_tx _ _ _) as [[[t n] d']|]; [|intros H; refute_member H].
    intros _. rewrite start_after_fst. apply start_no_tokens, deleted_no_tokens.
  - destruct (py_float _); [|intros H; refute_member H].
    destruct (s_day s); [|intros H; refute_member H].
    destruct (run_tx _ _ _) as [[u d']|]; [|intros H; refute_member H].
    intros _. rewrite start_after_fst. apply start_no_tokens, deleted_no_tokens.
Qed.

(** C6: once the session was reset or replaced, no token resolves: the
    week handler answers that the information expired, shows the menu again
    and reads nothing from the tables. *)
Theorem stale_token_not_found chat_id w w' unique_key :
  resets_session py_float SUDOS chat_id w w' ->
  resolve (user_states w') chat_id unique_key = None
  /\ (weekly_chosen SUDOS chat_id unique_key w').2
     = [say chat_id "Information expired. Please try again.";
        menu_or_refusal SUDOS chat_id]
  /\ db (weekly_chosen SUDOS chat_id unique_key w').1 = db w'.
Proof.
  intros Hreset.
  assert (Hnone : no_tokens (user_states w') chat_id).
  { destruct Hreset as [| |today flt raw total nb Hin|bid row Hrow|today flt raw Hin].
    - apply deleted_no_tokens.
    - unfold no_tokens. simpl. by rewrite lookup_insert_eq.
    - by apply (saved_resets _ _ _ _ _ total nb).
    - unfold edit_balance_chosen. rewrite Hrow. unfold no_tokens. simpl.
      by rewrite lookup_insert_eq.
    - by apply updated_resets. }
  apply (no_tokens_resolve _ _ unique_key) in Hnone.
  split; [exact Hnone|]. unfold weekly_chosen. rewrite Hnone.
  rewrite and_then_snd, and_then_fst, start_out, start_db. done.
Qed.

Lemma delete_trade_row d tid i r :
  balances d !! i = Some r ->
  exists r',
    balances (delete_trade d tid) !! i = Some r'
    /\ b_id r' = b_id r /\ b_balance r' = b_balance r
    /\ b_day r' = b_day r /\ b_userid r' = b_userid r
    /\ ids_of (b_forIds r') = filter (fun x => x <> tid) (ids_of (b_forIds r))
    /\ (tid ∉ ids_of (b_forIds r) -> r' = r).
Proof.
  intros Hr. unfold delete_trade. simpl. rewrite list_lookup_fmap, Hr. simpl.
  eexists. split; [reflexivity|].
  destruct r as [bid [ids|] bal day uid]; simpl.
  - destruct (decide (tid ∈ ids)) as [Hin|Hin]; simpl.
    + repeat split; done.
    + repeat split; try done. symmetry. apply filter_all, Forall_forall.
      intros x Hx ->. done.
  - repeat split; done.
Qed.

(** C8: deleting a trade removes the rows with its id from the trade table
    and its id from the link list of the balance rows that held it; every
    balance row keeps its place and its other fields, rows without the id are
    untouched, and no selection of trades returns the id afterwards. *)
Theorem delete_removes_trade_and_links chat_id tid w :
  let w' := (delete_exec SUDOS chat_id tid w).1 in
  (forall t, t ∈ calcbalances (db w') <-> t ∈ calcbalances (db w) /\ t_id t <> tid)
  /\ length (balances (db w')) = length (balances (db w))
  /\ (forall i r, balances (db w) !! i = Some r ->
        exists r',
          balances (db w') !! i = Some r'
          /\ b_id r' = b_id r /\ b_balance r' = b_balance r
          /\ b_day r' = b_day r /\ b_userid r' = b_userid r
          /\ ids_of (b_forIds r') = filter (fun x => x <> tid) (ids_of (b_forIds r))
          /\ (tid ∉ ids_of (b_forIds r) -> r' = r))
  /\ (forall ids t, t ∈ select_trades (db w') ids -> t_id t <> tid)
  /\ (forall r', r' ∈ balances (db w') -> tid ∉ ids_of (b_forIds r')).
Proof.
  intros w'.
  assert (Hdb : db w' = delete_trade (db w) tid).
  { unfold w', delete_exec. by rewrite and_then_fst, start_db. }
  rewrite Hdb. split; [|split; [|split; [|split]]].
  - intros t. unfold delete_trade. simpl. rewrite list_elem_of_filter. tauto.
  - unfold delete_trade. simpl. by rewrite length_map.
  - intros i r. apply delete_trade_row.
  - intros ids t Ht. unfold select_trades in Ht.
    apply list_elem_of_filter in Ht as [_ Ht].
    unfold delete_trade in Ht. simpl in Ht.
    by apply list_elem_of_filter in Ht as [Hne _].
  - intros r' Hr'. apply list_elem_of_lookup in Hr' as [i Hi].
    assert (Hlt : (i < length (balances (db w)))%nat).
    { apply lookup_lt_Some in Hi. unfold delete_trade in Hi. simpl in Hi.
      by rewrite length_map in Hi. }
    destruct (lookup_lt_is_Some_2 _ _ Hlt) as [r Hr].
    destruct (delete_trade_row (db w) tid i r Hr) as (r2 & Hr2 & _ & _ & _ & _ & Hids & _).
    rewrite Hi in Hr2. injection Hr2 as <-. rewrite Hids.
    intros Hin. by apply list_elem_of_filter in Hin as [Hne _].
Qed.

(** *** The steps of the trade entry on well-formed input *)

Section Steps.

Variables (today : date) (chat_id : Z) (us : gmap Z session) (dbv : database).
Variables (data : trade_data) (dy : option date) (wm : option (gmap string (list Z))).

Local Abbreviation at_ st d := (at_step chat_id us dbv dy wm st d).

Local Abbreviation handle raw_text w :=
  (message_handler py_float SUDOS today no_faults chat_id raw_text w).

Lemma advance_at st d d' next_step :
  advance chat_id (Session (Some st) (Some d) dy wm) d' next_step (at_ st d)
  = (at_ next_step d', prompt_for chat_id next_step).
Proof. unfold advance, at_step. simpl. by rewrite insert_insert_eq. Qed.

Lemma currency_step raw_text :
  let next_step :=
    if select_balance_of_day dbv today chat_id is Some _ then StLots else StBalance in
  handle raw_text (at_ StCurrency data)
  = (at_ next_step (set_currency (inbound_text raw_text) data),
     prompt_for chat_id next_step).
Proof.
  unfold message_handler, at_step. simpl. rewrite lookup_insert_eq. simpl.
  destruct (select_balance_of_day dbv today chat_id); apply advance_at.
Qed.

Lemma balance_step raw_text v :
  py_float (inbound_text raw_text) = Some v ->
  handle raw_text (at_ StBalance data)
  = (at_step chat_id us (insert_balance dbv v today chat_id) dy wm StLots
             (set_balance v data),
     prompt_for chat_id StLots).
Proof.
  intros Hp. unfold message_handler, at_step. simpl.
  rewrite lookup_insert_eq. simpl. rewrite Hp.
  unfold advance. simpl. by rewrite insert_insert_eq.
Qed.

Lemma lots_step raw_text v :
  py_float (inbound_text raw_text) = Some v ->
  handle raw_text (at_ StLots data)
  = (at_ StType (set_lots v data), prompt_for chat_id StType).
Proof.
  intros Hp. unfold message_handler, at_step. simpl.
  rewrite lookup_insert_eq. simpl. rewrite Hp. apply advance_at.
Qed.

Lemma type_step raw_text :
  is_direction (PyStr.lower (inbound_text raw_text)) = true ->
  handle raw_text (at_ StType data)
  = (at_ StEntry1 (set_type (PyStr.lower (inbound_text raw_text)) data),
     prompt_for chat_id StEntry1).
Proof.
  intros Hp. unfold message_handler, at_step. simpl.
  rewrite lookup_insert_eq. simpl. rewrite Hp. apply advance_at.
Qed.

Lemma entry1_step raw_text v :
  py_float (inbound_text raw_text) = Some v ->
  handle raw_text (at_ StEntry1 data)
  = (at_ StEntry2Q (set_entry_targets [v] data), prompt_for chat_id StEntry2Q).
Proof.
  intros Hp. unfold message_handler, at_step. simpl.
  rewrite lookup_insert_eq. simpl. rewrite Hp. apply advance_at.
Qed.

Lemma entry2_q_step raw_text :
  let next_step :=
    if is_yes (PyStr.lower (inbound_text raw_text)) then StEntry2 else StTp1 in
  handle raw_text (at_ StEntry2Q data)
  = (at_ next_step data, prompt_for chat_id next_step).
Proof.
  unfold message_handler, at_step. simpl.
  rewrite lookup_insert_eq. simpl. apply advance_at.
Qed.

Lemma entry2_step raw_text v l :
  py_float (inbound_text raw_text) = Some v ->
  d_entry_targets data = Some l ->
  handle raw_text (at_ StEntry2 data)
  = (at_ StTp1 (set_entry_targets (l ++ [v]) data), prompt_for chat_id StTp1).
Proof.
  intros Hp Hl. unfold message_handler, at_step. simpl.
  rewrite lookup_insert_eq. unfold get_data. simpl. rewrite Hl. simpl.
  rewrite Hp. apply advance_at.
Qed.

Lemma tp1_step raw_text v :
  py_float (inbound_text raw_text) = Some v ->
  handle raw_text (at_ StTp1 data)
  = (at_ StTp2Q (set_tp_targets [v] data), prompt_for chat_id StTp2Q).
Proof.
  intros Hp. unfold message_handler, at_step. simpl.
  rewrite lookup_insert_eq. simpl. rewrite Hp. apply advance_at.
Qed.

Lemma tp2_q_step raw_text :
  let next_step :=
    if is_yes (PyStr.lower (inbound_text raw_text)) then StTp2 else StSl in
  handle raw_text (at_ StTp2Q data)
  = (at_ next_step data, prompt_for chat_id next_step).
Proof.
  unfold message_handler, at_step. simpl.
  rewrite lookup_insert_eq. simpl. apply advance_at.
Qed.

Lemma tp2_step raw_text v l :
  py_float (inbound_text raw_text) = Some v ->
  d_tp_targets data = Some l ->
  handle raw_text (at_ StTp2 data)
  = (at_ StSl (set_tp_targets (l ++ [v]) data), prompt_for chat_id StSl).
Proof.
  intros Hp Hl. unfold message_handler, at_step. simpl.
  rewrite lookup_insert_eq. unfold get_data. simpl. rewrite Hl. simpl.
  rewrite Hp. apply advance_at.
Qed.

Lemma sl_step raw_text v row currency lots entries tps ttype :
  py_float (inbound_text raw_text) = Some v ->
  d_currency data = Some currency -> d_lots data = Some lots ->
  d_type data = Some ttype ->
  d_entry_targets data = Some entries -> entries <> [] ->
  d_tp_targets data = Some tps -> tps <> [] ->
  select_balance_of_day dbv today chat_id = Some row ->
  let settled := settle_read_once dbv row currency lots entries tps v ttype in
  handle raw_text (at_ StSl data)
  = and_then (World (delete chat_id us) settled.2,
              [SendMessage chat_id (Saved settled.1.1 settled.1.2) ReplyKeyboardRemove])
             (start SUDOS chat_id).
Proof.
  intros Hp Hc Hl Ht He Hne Htp Htne Hrow settled.
  unfold message_handler, at_step.
  cbn [user_states]. rewrite lookup_insert_eq.
  cbn [s_step]. cbn beta iota. rewrite Hp.
  change (get_data (Session (Some StSl) (Some data) dy wm)) with data.
  cbn [db].
  rewrite (save_trade_ok today chat_id (set_sl v data) dbv no_faults row
             currency lots entries tps v ttype) by done.
  fold settled. destruct settled as [[t n] d']. cbn [fst snd].
  by rewrite delete_insert_eq.
Qed.

End Steps.

Lemma remove_percent_clean s : PyStr.contains_byte "%" (PyStr.remove_percent s) = false.
Proof.
  induction s as [|c s IH]; [done|]. cbn [PyStr.remove_percent].
  destruct (Ascii.eqb c "%") eqn:E; [done|]. cbn [PyStr.contains_byte].
  by rewrite (Ascii.eqb_sym "%" c), E, IH.
Qed.

(** C10: the text of every message loses its surrounding white space and
    then all its '%' before the handler looks at the step.  What the steps
    see never holds a '%'; "50%", also with white space around it, is seen
    as "50", and a currency written with '%' and white space as the bare
    name.  The currency step stores the text so cleaned, whatever it is, and
    a text that is cleaned to "50" is taken as 50.0 at every numeric step. *)
Theorem percent_sign_is_dropped today chat_id us dbv data dy wm :
  py_float "50" = Some (PyFloat.of_Z 50) ->
  let handle raw_text st :=
    message_handler py_float SUDOS today no_faults chat_id raw_text
                    (at_step chat_id us dbv dy wm st data) in
  let fifty := PyFloat.of_Z 50 in
  (forall raw_text, PyStr.contains_byte "%" (inbound_text raw_text) = false)
  /\ (inbound_text "50%" = "50"%string
      /\ inbound_text "  50%  " = "50"%string
      /\ inbound_text " EUR%USD% " = "EURUSD"%string)
  /\ (forall raw_text,
        (handle raw_text StCurrency).1
        = at_step chat_id us dbv dy wm
            (if select_balance_of_day dbv today chat_id is Some _
             then StLots else StBalance)
            (TradeData (Some (inbound_text raw_text)) (d_balance data) (d_lots data)
                       (d_type data) (d_entry_targets data) (d_tp_targets data)
                       (d_sl data)))
  /\ (forall raw_text, inbound_text raw_text = "50"%string ->
        handle raw_text StBalance
        = (at_step chat_id us (insert_balance dbv fifty today chat_id) dy wm StLots
                   (TradeData (d_currency data) (Some fifty) (d_lots data)
                              (d_type data) (d_entry_targets data)
                              (d_tp_targets data) (d_sl data)),
           prompt_for chat_id StLots)
        /\ handle raw_text StLots
           = (at_step chat_id us dbv dy wm StType
                      (TradeData (d_currency data) (d_balance data) (Some fifty)
                                 (d_type data) (d_entry_targets data)
                                 (d_tp_targets data) (d_sl data)),
              prompt_for chat_id StType)
        /\ handle raw_text StEntry1
           = (at_step chat_id us dbv dy wm StEntry2Q
                      (TradeData (d_currency data) (d_balance data) (d_lots data)
                                 (d_type data) (Some [fifty])
                                 (d_tp_targets data) (d_sl data)),
              prompt_for chat_id StEntry2Q)
        /\ (forall l, d_entry_targets data = Some l ->
              handle raw_text StEntry2
              = (at_step chat_id us dbv dy wm StTp1
                         (TradeData (d_currency data) (d_balance data) (d_lots data)
                                    (d_type data) (Some (l ++ [fifty]))
                                    (d_tp_targets data) (d_sl data)),
                 prompt_for chat_id StTp1))
        /\ handle raw_text StTp1
           = (at_step chat_id us dbv dy wm StTp2Q
                      (TradeData (d_currency data) (d_balance data) (d_lots data)
                                 (d_type data) (d_entry_targets data)
                                 (Some [fifty]) (d_sl data)),
              prompt_for chat_id StTp2Q)
        /\ (forall l, d_tp_targets data = Some l ->
              handle raw_text StTp2
              = (at_step chat_id us dbv dy wm StSl
                         (TradeData (d_currency data) (d_balance data) (d_lots data)
                                    (d_type data) (d_entry_targets data)
                                    (Some (l ++ [fifty])) (d_sl data)),
                 prompt_for chat_id StSl))
        /\ (forall row currency lots entries tps ttype,
              d_currency data = Some currency -> d_lots data = Some lots ->
              d_type data = Some ttype ->
              d_entry_targets data = Some entries -> entries <> [] ->
              d_tp_targets data = Some tps -> tps <> [] ->
              select_balance_of_day dbv today chat_id = Some row ->
              let settled :=
                settle_read_once dbv row currency lots entries tps fifty ttype in
              handle raw_text StSl
              = and_then (World (delete chat_id us) settled.2,
                          [SendMessage chat_id (Saved settled.1.1 settled.1.2)
                                       ReplyKeyboardRemove])
                         (start SUDOS chat_id)
              /\ (exists trade, last (calcbalances settled.2) = Some trade
                                /\ t_stoploss trade = fifty))).
Proof.
  intros Hp handle fifty.
  split; [|split; [|split]].
  - intros raw_text. apply remove_percent_clean.
  - repeat split; vm_compute; reflexivity.
  - intros raw_text. unfold handle. by rewrite currency_step.
  - intros raw_text Hraw.
    assert (Hp' : py_float (inbound_text raw_text) = Some fifty) by (by rewrite Hraw).
    repeat split.
    + unfold handle. by rewrite (balance_step today chat_id us dbv data dy wm raw_text fifty Hp').
    + unfold handle. by rewrite (lots_step today chat_id us dbv data dy wm raw_text fifty Hp').
    + unfold handle. by rewrite (entry1_step today chat_id us dbv data dy wm raw_text fifty Hp').
    + intros l Hl. unfold handle. by rewrite (entry2_step today chat_id us dbv data dy wm raw_text fifty l Hp' Hl).
    + unfold handle. by rewrite (tp1_step today chat_id us dbv data dy wm raw_text fifty Hp').
    + intros l Hl. unfold handle. by rewrite (tp2_step today chat_id us dbv data dy wm raw_text fifty l Hp' Hl).
    + unfold handle. by apply sl_step.
    + eexists. unfold settle_read_once. cbn [snd fst]. unfold insert_trade.
      cbn [fst snd calcbalances update_balance_and_link map_balances].
      rewrite last_snoc. split; [reflexivity|]. reflexivity.
Qed.

Lemma converse_cons today chat_id t rest w w' out :
  message_handler py_float SUDOS today no_faults chat_id t w = (w', out) ->
  (converse py_float SUDOS today chat_id (t :: rest) w).1
  = (converse py_float SUDOS today chat_id rest w').1.
Proof. intros H. simpl. rewrite and_then_fst. by rewrite H. Qed.

End Conversation.

(** *** The worked conversation *)

Lemma select_inserted d v today chat_id :
  select_balance_of_day d today chat_id = None ->
  select_balance_of_day (insert_balance d v today chat_id) today chat_id
  = Some (BalanceRow (bal_seq d) None (PyFloat.stored v) today chat_id).
Proof.
  unfold select_balance_of_day, insert_balance. simpl. intros H.
  rewrite filter_app.
  destruct (filter _ (balances d)) as [|x l]; [|done]. simpl.
  by rewrite filter_cons_True.
Qed.

Lemma parse_1000 : PyParse.ascii_float (inbound_text "1000") = Some (PyFloat.of_Z 1000).
Proof. vm_compute. reflexivity. Qed.

Lemma parse_1 : PyParse.ascii_float (inbound_text "1") = Some (PyFloat.of_Z 1).
Proof. vm_compute. reflexivity. Qed.

Lemma parse_110 : PyParse.ascii_float (inbound_text "1.10") = Some (dec 110 (-2)).
Proof. vm_compute. reflexivity. Qed.

Lemma parse_112 : PyParse.ascii_float (inbound_text "1.12") = Some (dec 112 (-2)).
Proof. vm_compute. reflexivity. Qed.

Lemma parse_108 : PyParse.ascii_float (inbound_text "1.08") = Some (dec 108 (-2)).
Proof. vm_compute. reflexivity. Qed.

Lemma long_is_direction : is_direction (PyStr.lower (inbound_text "long")) = true.
Proof. vm_compute. reflexivity. Qed.

Lemma lower_long : PyStr.lower (inbound_text "long") = "long"%string.
Proof. vm_compute. reflexivity. Qed.

Lemma inbound_eurusd : inbound_text "EURUSD" = "EURUSD"%string.
Proof. vm_compute. reflexivity. Qed.

Lemma no_is_not_yes : is_yes (PyStr.lower (inbound_text "no")) = false.
Proof. vm_compute. reflexivity. Qed.

(** The figures of the worked trade: one leg from 1.10 to 1.12 with one lot
    on a balance of 1000. *)
Lemma demo_leg_value :
  calculate_pnl_value (dec 110 (-2)) (dec 112 (-2)) (PyFloat.of_Z 1) "long"
  = PyFloat.of_Z 2.
Proof. vm_compute. reflexivity. Qed.

Lemma demo_leg_percent :
  calculate_balance_percent (PyFloat.of_Z 1000) (PyFloat.of_Z 2) = dec 2 (-1).
Proof. vm_compute. reflexivity. Qed.

Lemma demo_new_balance :
  PyFloat.add (PyFloat.of_Z 1000) (PyFloat.add (PyFloat.of_Z 0) (PyFloat.of_Z 2))
  = PyFloat.of_Z 1002.
Proof. vm_compute. reflexivity. Qed.

Lemma two_is_gain : is_gain (PyFloat.of_Z 2).
Proof. vm_compute. reflexivity. Qed.

(** C5 (amended): a user without a balance row for today who enters
    "EURUSD", "1000", "1", "long", "1.10", "no", "1.12", "no", "1.08" leaves
    one new trade with entries [1.10], targets [1.12] and the PnL [2.00] per
    leg (0.2 percent of the balance), and the day's balance becomes
    1002.00. *)
Theorem end_to_end_trade (SUDOS : list Z) us0 db0 chat_id today :
  select_balance_of_day db0 today chat_id = None ->
  let w := (converse PyParse.ascii_float SUDOS today chat_id demo_texts
                     (new_report chat_id (World us0 db0)).1).1 in
  calcbalances (db w)
  = calcbalances db0
    ++ [TradeRow (calc_seq db0) "EURUSD" (PyFloat.of_Z 1) [] [dec 2 (-1)]
                 [dec 110 (-2)] [dec 112 (-2)] (dec 108 (-2)) "long" [PyFloat.of_Z 2]]
  /\ select_balance_of_day (db w) today chat_id
     = Some (BalanceRow (bal_seq db0) (Some [calc_seq db0]) (PyFloat.of_Z 1002)
                        today chat_id).
Proof.
  intros Hno w. unfold w, demo_texts, new_report, with_states. clear w.
  cbn [fst user_states db].
  erewrite converse_cons by apply currency_step. rewrite Hno, inbound_eurusd.
  erewrite converse_cons by apply balance_step, parse_1000.
  erewrite converse_cons by apply lots_step, parse_1.
  erewrite converse_cons by apply type_step, long_is_direction.
  rewrite lower_long.
  erewrite converse_cons by apply entry1_step, parse_110.
  erewrite converse_cons by apply entry2_q_step. rewrite no_is_not_yes.
  erewrite converse_cons by apply tp1_step, parse_112.
  erewrite converse_cons by apply tp2_q_step. rewrite no_is_not_yes.
  cbn [converse]. rewrite and_then_fst. cbn [converse fst].
  change (fun _ : nat => false) with no_faults.
  rewrite (sl_step PyParse.ascii_float SUDOS today chat_id us0 _ _ None None "1.08"
             (dec 108 (-2))
             (BalanceRow (bal_seq db0) None (PyFloat.of_Z 1000) today chat_id)
             "EURUSD" (PyFloat.of_Z 1) [dec 110 (-2)] [dec 112 (-2)] "long");
    [|apply parse_108|reflexivity..|done|reflexivity|done|by apply select_inserted].
  rewrite and_then_fst, start_db. cbn [db fst snd].
  unfold settle_read_once, paired_values, target_for.
  cbn [fst snd b_balance b_id imap lookup list_lookup default fold_left].
  unfold id. rewrite demo_leg_value, demo_new_balance.
  rewrite (filter_cons_True is_gain) by apply two_is_gain.
  rewrite (filter_cons_False (fun v => ~ is_gain v))
    by (intros H; apply H, two_is_gain).
  rewrite !filter_nil. cbn [map insert_trade fst snd]. rewrite demo_leg_percent.
  split; [reflexivity|].
  unfold update_balance_and_link.
  erewrite select_after_update; cycle 1.
  - intros x. by destruct (decide (b_id x = bal_seq db0)).
  - by apply (select_inserted (Database _ _ _ _)).
  - cbn [b_id b_forIds ids_of default b_day b_userid bal_seq].
    by rewrite decide_True.
Qed.

(** A leg of a report view whose index has no take-profit target is
    computed against the target 0. *)
Lemma view_leg_without_target t i ent :
  t_entrytarget t !! i = Some ent ->
  (length (t_takeprofittarget t) <= i)%nat ->
  view_leg_pnls t !! i
  = Some (calculate_pnl_value ent (PyFloat.of_Z 0) (t_lots t) (t_type t)).
Proof.
  intros He Hlen. unfold view_leg_pnls.
  rewrite list_lookup_imap, He. simpl.
  by rewrite (lookup_ge_None_2 _ _ Hlen).
Qed.

(** C2: a trade entered with the entries 1.10 and 1.11 and the single target
    1.12 is stored with the PnL 2.00 and 1.00 per leg (the second entry
    against the last target), but the week, month and day views recompute
    its second leg against the target 0 and report a profit of 2.00 and a
    loss of 111.00. *)
Theorem views_pair_uncovered_leg_with_zero :
  map t_entrytarget (calcbalances (db demo_two_entries))
  = [[dec 110 (-2); dec 111 (-2)]]
  /\ map t_takeprofittarget (calcbalances (db demo_two_entries)) = [[dec 112 (-2)]]
  /\ map t_totalbalance (calcbalances (db demo_two_entries))
     = [[PyFloat.of_Z 2; PyFloat.of_Z 1]]
  /\ map view_leg_pnls (calcbalances (db demo_two_entries))
     = [[PyFloat.of_Z 2; PyFloat.of_Z (-111)]]
  /\ (weekly_chosen [7] 7 demo_token demo_week_list).2
     = [SendMessage 7 (WeeklyText 1 (PyFloat.of_Z 2) (PyFloat.of_Z 111)) NoMarkup;
        menu_or_refusal [7] 7]
  /\ (monthly_chosen [7] demo_day 7 11 demo_two_entries).2
     = [SendMessage 7 (MonthlyText 11 (PyFloat.of_Z 2) (PyFloat.of_Z 111)) NoMarkup;
        menu_or_refusal [7] 7]
  /\ (daily_chosen [7] 7 1 demo_two_entries).2
     = [SendMessage 7
          (DailyText demo_day 1
             (map (fun t => TradeLines t [PyFloat.of_Z 2; PyFloat.of_Z (-111)])
                  (calcbalances (db demo_two_entries)))
             (PyFloat.of_Z 2) (PyFloat.of_Z 111)
             (py_sum [dec 2 (-1); dec 1 (-1)]) (py_sum [])
             (PyFloat.of_Z 1003)) NoMarkup;
        menu_or_refusal [7] 7].
Proof. repeat split; vm_compute; reflexivity. Qed.

(** ** Further properties of the handlers *)

(** *** More on the calculator *)

Lemma binary_round_aux_opp s m e l :
  SFopp (binary_round_aux PyFloat.prec PyFloat.emax s m e l)
  = binary_round_aux PyFloat.prec PyFloat.emax (negb s) m e l.
Proof.
  unfold binary_round_aux.
  destruct (shr_fexp _ _ _ _ _) as [mrs' e'].
  destruct (shr_fexp _ _ _ _ _) as [mrs'' e''].
  destruct (shr_m mrs''); [reflexivity| |reflexivity].
  destruct (Z.leb _ _); reflexivity.
Qed.

Lemma nearest_ratio_opp s n d :
  PyFloat.neg (PyFloat.nearest_ratio s n d) = PyFloat.nearest_ratio (negb s) n d.
Proof.
  unfold PyFloat.nearest_ratio, PyFloat.neg, SFdiv.
  destruct (SFdiv_core_binary _ _ _ _ _ _) as [[mz ez] lz].
  rewrite !xorb_false_r. apply binary_round_aux_opp.
Qed.

Lemma round2_neg x : PyFloat.round2 (PyFloat.neg x) = PyFloat.neg (PyFloat.round2 x).
Proof.
  destruct x as [s|s| |s m e]; try reflexivity.
  unfold PyFloat.round2, PyFloat.neg at 1, SFopp at 1.
  destruct (match e with Zneg k => _ | _ => _ end);
    [reflexivity|symmetry; apply nearest_ratio_opp|reflexivity].
Qed.

Lemma neg_involutive x : PyFloat.neg (PyFloat.neg x) = x.
Proof. destruct x as [[]|[]| |[] m e]; reflexivity. Qed.

(** X1: whatever the numbers (infinities and NaN included), the value for a
    short position is the negation of the value for any direction that is
    not "short". *)
Theorem pnl_short_negates_long (entry target lots : pyfloat) (short other : string) :
  PyStr.lower short = "short"%string ->
  PyStr.lower other <> "short"%string ->
  calculate_pnl_value entry target lots short
  = PyFloat.neg (calculate_pnl_value entry target lots other).
Proof.
  intros Hs Ho. unfold calculate_pnl_value. rewrite Hs.
  destruct (String.eqb_spec (PyStr.lower other) "short") as [E|_]; [done|].
  simpl. apply round2_neg.
Qed.

Lemma mul_neg_l x y : PyFloat.mul (PyFloat.neg x) y = PyFloat.neg (PyFloat.mul x y).
Proof.
  destruct x as [sx|sx| |sx mx ex], y as [sy|sy| |sy my ey]; simpl;
    rewrite <-?negb_xorb_l; try reflexivity.
  unfold PyFloat.neg. by rewrite binary_round_aux_opp.
Qed.

Lemma div_neg_l x y : PyFloat.div (PyFloat.neg x) y = PyFloat.neg (PyFloat.div x y).
Proof.
  destruct x as [sx|sx| |sx mx ex], y as [sy|sy| |sy my ey]; simpl;
    rewrite <-?negb_xorb_l; try reflexivity.
  unfold PyFloat.div, PyFloat.neg, SFdiv. simpl.
  destruct (SFdiv_core_binary _ _ _ _ _ _) as [[mz ez] lz].
  rewrite <-?negb_xorb_l. by rewrite binary_round_aux_opp.
Qed.

(** X2: for a base that is not zero the percentage is odd in the PnL: the
    percentage of the negated value is the negated percentage, for all
    floats; for a zero base both are +0.0. *)
Theorem balance_percent_odd (balance pnl : pyfloat) :
  calculate_balance_percent balance (PyFloat.neg pnl)
  = if PyFloat.is_zero balance then PyFloat.zero
    else PyFloat.neg (calculate_balance_percent balance pnl).
Proof.
  unfold calculate_balance_percent.
  replace (PyFloat.eqb balance (PyFloat.of_Z 0)) with (PyFloat.is_zero balance)
    by (destruct balance as [s|[]| |[] m e]; reflexivity).
  destruct (PyFloat.is_zero balance); [reflexivity|].
  by rewrite div_neg_l, mul_neg_l.
Qed.

(** *** Floats as the tables hold them *)

Lemma stored_idem x : PyFloat.stored (PyFloat.stored x) = PyFloat.stored x.
Proof. by destruct x as [[]|[]| |[] m e]. Qed.

Lemma same_stored_cases a b :
  same_stored a b -> a = b \/ (PyFloat.is_zero a = true /\ PyFloat.is_zero b = true).
Proof.
  unfold same_stored.
  destruct a as [[]|[]| |[] ma ea], b as [[]|[]| |[] mb eb]; simpl;
    intros H; try discriminate H; try (by left); try (by right);
    injection H as ??; subst; by left.
Qed.

Lemma mul_same_stored a a' b b' :
  same_stored a a' -> same_stored b b' ->
  same_stored (PyFloat.mul a b) (PyFloat.mul a' b').
Proof.
  intros Ha Hb.
  destruct (same_stored_cases _ _ Ha) as [->|[Za Za']],
           (same_stored_cases _ _ Hb) as [->|[Zb Zb']]; [done|..].
  - destruct b as [sb| | |]; try discriminate Zb.
    destruct b' as [sb'| | |]; try discriminate Zb'.
    by destruct a' as [[]|[]| |[] m e], sb, sb'.
  - destruct a as [sa| | |]; try discriminate Za.
    destruct a' as [sa'| | |]; try discriminate Za'.
    by destruct b' as [[]|[]| |[] m e], sa, sa'.
  - destruct a as [sa| | |]; try discriminate Za.
    destruct a' as [sa'| | |]; try discriminate Za'.
    destruct b as [sb| | |]; try discriminate Zb.
    destruct b' as [sb'| | |]; try discriminate Zb'.
    by destruct sa, sa', sb, sb'.
Qed.

Lemma sub_same_stored a a' b b' :
  same_stored a a' -> same_stored b b' ->
  same_stored (PyFloat.sub a b) (PyFloat.sub a' b').
Proof.
  intros Ha Hb.
  destruct (same_stored_cases _ _ Ha) as [->|[Za Za']],
           (same_stored_cases _ _ Hb) as [->|[Zb Zb']]; [done|..].
  - destruct b as [sb| | |]; try discriminate Zb.
    destruct b' as [sb'| | |]; try discriminate Zb'.
    by destruct a' as [[]|[]| |[] m e], sb, sb'.
  - destruct a as [sa| | |]; try discriminate Za.
    destruct a' as [sa'| | |]; try discriminate Za'.
    by destruct b' as [[]|[]| |[] m e], sa, sa'.
  - destruct a as [sa| | |]; try discriminate Za.
    destruct a' as [sa'| | |]; try discriminate Za'.
    destruct b as [sb| | |]; try discriminate Zb.
    destruct b' as [sb'| | |]; try discriminate Zb'.
    by destruct sa, sa', sb, sb'.
Qed.

Lemma neg_same_stored a a' :
  same_stored a a' -> same_stored (PyFloat.neg a) (PyFloat.neg a').
Proof.
  intros Ha. destruct (same_stored_cases _ _ Ha) as [->|[Za Za']]; [done|].
  destruct a as [sa| | |]; try discriminate Za.
  destruct a' as [sa'| | |]; try discriminate Za'. by destruct sa, sa'.
Qed.

Lemma round2_same_stored a a' :
  same_stored a a' -> same_stored (PyFloat.round2 a) (PyFloat.round2 a').
Proof.
  intros Ha. destruct (same_stored_cases _ _ Ha) as [->|[Za Za']]; [done|].
  destruct a as [sa| | |]; try discriminate Za.
  destruct a' as [sa'| | |]; try discriminate Za'. by destruct sa, sa'.
Qed.

Lemma same_stored_stored x : same_stored (PyFloat.stored x) x.
Proof. apply stored_idem. Qed.

Lemma pnl_same_stored e e' tp tp' l l' ty :
  same_stored e e' -> same_stored tp tp' -> same_stored l l' ->
  same_stored (calculate_pnl_value e tp l ty) (calculate_pnl_value e' tp' l' ty).
Proof.
  intros He Ht Hl. unfold calculate_pnl_value.
  apply round2_same_stored.
  assert (H : same_stored
                (PyFloat.mul (PyFloat.mul (PyFloat.sub tp e) l) (PyFloat.of_Z 100))
                (PyFloat.mul (PyFloat.mul (PyFloat.sub tp' e') l') (PyFloat.of_Z 100))).
  { apply mul_same_stored; [|done]. apply mul_same_stored; [|done].
    by apply sub_same_stored. }
  destruct (String.eqb _ _); [by apply neg_same_stored|done].
Qed.


(** *** What one call of the message handler can do *)

Section Frames.

Variable py_float : string -> option pyfloat.
Variable SUDOS : list Z.

Lemma start_other chat_id other w :
  other <> chat_id ->
  user_states (start SUDOS chat_id w).1 !! other = user_states w !! other.
Proof.
  intros Hne. unfold start. destruct (decide (chat_id ∈ SUDOS)); [|done].
  destruct (user_states w !! chat_id); [done|]. simpl. by rewrite lookup_insert_ne.
Qed.

Lemma advance_other chat_id other s data next_step w :
  other <> chat_id ->
  user_states (advance chat_id s data next_step w).1 !! other = user_states w !! other.
Proof. intros Hne. simpl. by rewrite lookup_insert_ne. Qed.

Lemma advance_db chat_id s data next_step w :
  db (advance chat_id s data next_step w).1 = db w.
Proof. reflexivity. Qed.

Lemma numeric_step_other chat_id other s w o next_step :
  other <> chat_id ->
  user_states (numeric_step chat_id s w o next_step).1 !! other = user_states w !! other.
Proof. intros Hne. destruct o; [by apply advance_other|done]. Qed.

Lemma numeric_step_db chat_id s w o next_step :
  db (numeric_step chat_id s w o next_step).1 = db w.
Proof. by destruct o. Qed.

Lemma message_handler_other today flt chat_id raw_text w other :
  other <> chat_id ->
  user_states (message_handler py_float SUDOS today flt chat_id raw_text w).1 !! other
  = user_states w !! other.
Proof.
  intros Hne. unfold message_handler.
  destruct (user_states w !! chat_id) as [s|]; [|done].
  destruct (s_step s) as [st|]; [|done].
  destruct st; cbn beta iota; try (by apply numeric_step_other);
    try (by apply advance_other).
  - destruct (run_tx _ _ _) as [[[row|] d']|];
      [by apply advance_other..|]. simpl. by rewrite lookup_insert_ne.
  - destruct (py_float _); [|done].
    destruct (run_tx _ _ _) as [[u d']|]; simpl; by rewrite lookup_insert_ne.
  - destruct (is_direction _); [by apply advance_other|done].
  - destruct (py_float _); [|done].
    destruct (run_tx _ _ _) as [[[t n] d']|].
    + rewrite start_after_fst, start_other by done. simpl. by rewrite lookup_delete_ne.
    + simpl. by rewrite lookup_insert_ne.
  - destruct (py_float _); [|done]. destruct (s_day s); [|done].
    destruct (run_tx _ _ _) as [[u d']|]; [|done].
    rewrite start_after_fst, start_other by done. simpl. by rewrite lookup_delete_ne.
Qed.

(** X3: a text message never touches the session of another chat. *)
Theorem message_handler_other_chats today flt chat_id raw_text w other :
  other <> chat_id ->
  user_states (message_handler py_float SUDOS today flt chat_id raw_text w).1 !! other
  = user_states w !! other.
Proof. apply message_handler_other. Qed.

(** X4: only the balance step, the stop-loss step and the edit of a balance
    write the tables; at every other step, and for a chat without a session,
    the tables are left as they are, whatever the text and the database
    do. *)
Theorem message_handler_writes_only_at today flt chat_id raw_text w :
  (forall s, user_states w !! chat_id = Some s ->
     s_step s <> Some StBalance /\ s_step s <> Some StSl
     /\ s_step s <> Some StEditVal) ->
  db (message_handler py_float SUDOS today flt chat_id raw_text w).1 = db w.
Proof.
  intros Hst. unfold message_handler.
  destruct (user_states w !! chat_id) as [s|]; [|done].
  destruct (Hst s eq_refl) as (Hb & Hs & He).
  destruct (s_step s) as [st|]; [|done].
  destruct st; cbn beta iota; try done; try (by apply numeric_step_db).
  - destruct (run_tx _ _ _) as [[[row|] d']|]; done.
  - destruct (is_direction _); done.
Qed.

End Frames.

Section Transitions.

Variable py_float : string -> option pyfloat.
Variable SUDOS : list Z.

Lemma is_direction_inv t : is_direction t = true -> t = "long"%string \/ t = "short"%string.
Proof.
  unfold is_direction. intros H. apply bool_decide_eq_true_1 in H.
  apply elem_of_cons in H as [->|H]; [by left|].
  apply elem_of_cons in H as [->|H]; [by right|]. by apply elem_of_nil in H.
Qed.

Lemma advance_lookup chat_id s data next_step w :
  user_states (advance chat_id s data next_step w).1 !! chat_id
  = Some (put_step next_step (put_data data s)).
Proof. simpl. by rewrite lookup_insert_eq. Qed.

Lemma start_lookup_deleted chat_id us d :
  user_states (start SUDOS chat_id (World (delete chat_id us) d)).1 !! chat_id
  = if decide (chat_id ∈ SUDOS) then Some empty_session else None.
Proof.
  unfold start. destruct (decide (chat_id ∈ SUDOS)); simpl.
  - rewrite lookup_delete_eq. simpl. by rewrite lookup_insert_eq.
  - by rewrite lookup_delete_eq.
Qed.

Lemma numeric_step_after chat_id s w st d (o : option trade_data) next_step :
  user_states w !! chat_id = Some s ->
  s_data s = Some d ->
  (forall d', o = Some d' -> entered st d d') -> follows st next_step ->
  session_after st d s
    (user_states (numeric_step chat_id s w o next_step).1 !! chat_id).
Proof.
  intros Hlook Hd Ho Hf. destruct o as [d'|]; unfold numeric_step.
  - rewrite advance_lookup. unfold put_data. rewrite Hd. unfold put_step. simpl.
    apply after_advanced; [by apply Ho|done].
  - simpl. rewrite Hlook. apply after_same.
Qed.

Lemma message_handler_session_after today flt chat_id raw_text w s st d :
  user_states w !! chat_id = Some s ->
  s_step s = Some st -> st <> StEditVal -> s_data s = Some d ->
  session_after st d s
    (user_states (message_handler py_float SUDOS today flt chat_id raw_text w).1
       !! chat_id).
Proof.
  intros Hlook Hstep Hne Hd. unfold message_handler. rewrite Hlook, Hstep.
  assert (Hg : get_data s = d) by (unfold get_data; by rewrite Hd).
  assert (Hput : forall d' st', put_step st' (put_data d' s)
                   = Session (Some st') (Some d') (s_day s) (s_weekly_map s)).
  { intros d' st'. unfold put_data. by rewrite Hd. }
  assert (Hkeep : forall d', put_data d' s
                   = Session (Some st) (Some d') (s_day s) (s_weekly_map s)).
  { intros d'. unfold put_data. rewrite Hd, <-Hstep. done. }
  destruct st; cbn beta iota; rewrite ?Hg; try done.
  - destruct (run_tx _ _ _) as [[[row|] d']|].
    + rewrite advance_lookup, Hput. apply after_advanced; constructor.
    + rewrite advance_lookup, Hput. apply after_advanced; constructor.
    + simpl. rewrite lookup_insert_eq, Hkeep.
      apply after_kept; [constructor|set_solver].
  - destruct (py_float _) as [v|]; [|cbn [fst]; rewrite Hlook; apply after_same].
    destruct (run_tx _ _ _) as [[u d']|].
    + rewrite advance_lookup, Hput. apply after_advanced; constructor.
    + simpl. rewrite lookup_insert_eq, Hkeep.
      apply after_kept; [constructor|set_solver].
  - apply numeric_step_after; [done|done| |constructor].
    intros d'. destruct (py_float _); [|done]. intros [= <-]. constructor.
  - destruct (is_direction _) eqn:E; [|cbn [fst]; rewrite Hlook; apply after_same].
    rewrite advance_lookup, Hput.
    apply after_advanced; [|constructor]. constructor. by apply is_direction_inv.
  - apply numeric_step_after; [done|done| |constructor].
    intros d'. destruct (py_float _); [|done]. intros [= <-]. constructor.
  - rewrite advance_lookup, Hput.
    destruct (is_yes _); apply after_advanced; constructor.
  - apply numeric_step_after; [done|done| |constructor].
    intros d'. destruct (d_entry_targets d) eqn:E; [|done]. simpl.
    destruct (py_float _); [|done]. intros [= <-]. by constructor.
  - apply numeric_step_after; [done|done| |constructor].
    intros d'. destruct (py_float _); [|done]. intros [= <-]. constructor.
  - rewrite advance_lookup, Hput.
    destruct (is_yes _); apply after_advanced; constructor.
  - apply numeric_step_after; [done|done| |constructor].
    intros d'. destruct (d_tp_targets d) eqn:E; [|done]. simpl.
    destruct (py_float _); [|done]. intros [= <-]. by constructor.
  - destruct (py_float _) as [v|]; [|cbn [fst]; rewrite Hlook; apply after_same].
    destruct (run_tx _ _ _) as [[[t n] d']|].
    + rewrite start_after_fst. cbn [fst]. rewrite start_lookup_deleted.
      destruct (decide (chat_id ∈ SUDOS)); by constructor.
    + simpl. rewrite lookup_insert_eq, Hkeep.
      apply after_kept; [constructor|set_solver].
Qed.

(** X5: a text message writes at most the field of the step the session
    waits at, and then the session stays at that step, moves to a step that
    follows it, or ends; it never goes back and never skips a question. *)
Theorem message_handler_transitions today flt chat_id raw_text w s st d :
  user_states w !! chat_id = Some s ->
  s_step s = Some st -> st <> StEditVal -> s_data s = Some d ->
  session_after st d s
    (user_states (message_handler py_float SUDOS today flt chat_id raw_text w).1
       !! chat_id).
Proof. apply message_handler_session_after. Qed.

End Transitions.

(** *** When the terminal step saves *)

Lemma bind_inv {A B} (m : DB A) (f : A -> DB B) c r :
  (m ≫= f) c = Some r -> exists x c', m c = Some (x, c') /\ f x c' = Some r.
Proof.
  unfold mbind, DB_bind. destruct (m c) as [[x c']|]; [|done]. eauto.
Qed.

Lemma need_inv {A} (o : option A) c x c' :
  need o c = Some (x, c') -> o = Some x /\ c' = c.
Proof. destruct o; [|done]. by intros [= <- <-]. Qed.

Lemma tick_inv c u c' :
  tick c = Some (u, c') -> c' = Conn (tx c) (faults c) (S (ops c)).
Proof. unfold tick. destruct (faults c (ops c)); [done|]. by intros [= _ <-]. Qed.

Lemma query_inv {A} (f : database -> A) c x c' :
  query f c = Some (x, c') -> x = f (tx c) /\ c' = Conn (tx c) (faults c) (S (ops c)).
Proof.
  unfold query. intros H.
  apply bind_inv in H as ([] & c1 & H1 & H). apply tick_inv in H1 as ->.
  by injection H as <- <-.
Qed.

Lemma legs_loop_tx today chat_id tps lots ttype rest : forall i a c a' c',
  legs_loop today chat_id tps lots ttype i rest a c = Some (a', c') -> tx c' = tx c.
Proof.
  induction rest as [|ent rest IH]; intros i a c a' c' H; simpl in H.
  - by injection H as _ <-.
  - apply bind_inv in H as (tp & c1 & H1 & H). apply need_inv in H1 as [_ ->].
    apply bind_inv in H as (brow & c2 & H2 & H). apply query_inv in H2 as [_ ->].
    apply bind_inv in H as (row & c3 & H3 & H). apply need_inv in H3 as [_ ->].
    by apply IH in H.
Qed.

(** The loop over the legs returns only when there is a target to pair
    with and the day's row is found. *)
Lemma legs_loop_inv today chat_id tps lots ttype ent rest i a c a' c' :
  legs_loop today chat_id tps lots ttype i (ent :: rest) a c = Some (a', c') ->
  tps <> [] /\ exists row, select_balance_of_day (tx c) today chat_id = Some row.
Proof.
  intros H. simpl in H.
  apply bind_inv in H as (tp & c1 & H1 & H). apply need_inv in H1 as [Htp ->].
  apply bind_inv in H as (brow & c2 & H2 & H). apply query_inv in H2 as [-> ->].
  apply bind_inv in H as (row & c3 & H3 & H). apply need_inv in H3 as [Hrow ->].
  split; [|eauto]. intros ->. unfold target_for in Htp. by rewrite lookup_nil in Htp.
Qed.

Lemma legs_loop_nil_row today chat_id tps lots ttype i a c a' c' :
  legs_loop today chat_id tps lots ttype i [] a c = Some (a', c') -> a' = a.
Proof. simpl. by intros [= <- _]. Qed.

Lemma save_trade_inv today chat_id data d flt r :
  run_tx (save_trade today chat_id data) d flt = Some r ->
  exists row currency lots entries tps stop ttype,
    d_currency data = Some currency /\ d_lots data = Some lots
    /\ d_type data = Some ttype /\ d_sl data = Some stop
    /\ d_entry_targets data = Some entries /\ entries <> []
    /\ d_tp_targets data = Some tps /\ tps <> []
    /\ select_balance_of_day d today chat_id = Some row
    /\ (forall k, (k < save_cost data)%nat -> flt k = false)
    /\ r = settle_read_once d row currency lots entries tps stop ttype.
Proof.
  intros Hrun.
  assert (Hflt : forall k, (k < save_cost data)%nat -> flt k = false).
  { unfold run_tx in Hrun.
    destruct (save_trade _ _ _ _) as [[x c']|] eqn:E; [|done].
    destruct (costs_save_trade _ _ _ _ _ _ E) as (_ & _ & H).
    intros k Hk. apply (H k). simpl. lia. }
  pose proof Hrun as Hrun'. unfold run_tx in Hrun'.
  destruct (save_trade _ _ _ _) as [[x c']|] eqn:E; [|done]. clear Hrun'.
  unfold save_trade in E.
  apply bind_inv in E as ([] & c1 & H1 & E). apply tick_inv in H1 as ->.
  apply bind_inv in E as (entries & c2 & H2 & E). apply need_inv in H2 as [He ->].
  apply bind_inv in E as (tps & c2 & H2 & E). apply need_inv in H2 as [Htp ->].
  apply bind_inv in E as (lots & c2 & H2 & E). apply need_inv in H2 as [Hl ->].
  apply bind_inv in E as (ttype & c2 & H2 & E). apply need_inv in H2 as [Ht ->].
  apply bind_inv in E as (a & c2 & Hloop & E).
  apply bind_inv in E as (currency & c3 & H2 & E). apply need_inv in H2 as [Hc ->].
  apply bind_inv in E as (stop & c3 & H2 & E). apply need_inv in H2 as [Hs ->].
  apply bind_inv in E as (new_id & c3 & _ & E).
  apply bind_inv in E as (row & c4 & H2 & E). apply need_inv in H2 as [Hrow _].
  clear E.
  destruct entries as [|ent entries].
  { apply legs_loop_nil_row in Hloop as ->. done. }
  apply legs_loop_inv in Hloop as [Htne [row0 Hsel]]. simpl in Hsel.
  exists row0, currency, lots, (ent :: entries), tps, stop, ttype.
  repeat split; try done.
  rewrite (save_trade_ok today chat_id data d flt row0 currency lots
             (ent :: entries) tps stop ttype) in Hrun by done.
  by injection Hrun.
Qed.

(** X6: the terminal step saves exactly when all the fields are there, there
    is at least one entry and one target, the day's row exists, and none of
    the operations it makes on the database fails; what it saves is then the
    result of the computation with the row read once. *)
Theorem save_trade_succeeds_iff today chat_id data d flt r :
  run_tx (save_trade today chat_id data) d flt = Some r
  <-> exists row currency lots entries tps stop ttype,
        d_currency data = Some currency /\ d_lots data = Some lots
        /\ d_type data = Some ttype /\ d_sl data = Some stop
        /\ d_entry_targets data = Some entries /\ entries <> []
        /\ d_tp_targets data = Some tps /\ tps <> []
        /\ select_balance_of_day d today chat_id = Some row
        /\ (forall k, (k < save_cost data)%nat -> flt k = false)
        /\ r = settle_read_once d row currency lots entries tps stop ttype.
Proof.
  split.
  - apply save_trade_inv.
  - intros (row & currency & lots & entries & tps & stop & ttype
            & Hc & Hl & Ht & Hs & He & Hne & Htp & Htne & Hrow & Hflt & ->).
    by apply save_trade_ok.
Qed.

(** *** The sessions stay well formed *)

Lemma has_targets_weaken n m o : (n <= m)%nat -> has_targets n o -> has_targets m o.
Proof. intros Hnm (l & -> & Hl). exists l. split; [done|lia]. Qed.

Lemma has_targets_snoc o l v :
  o = Some l -> has_targets 1 o -> has_targets 2 (Some (l ++ [v])).
Proof.
  intros -> (l' & [= <-] & Hl). exists (l ++ [v]). split; [done|].
  rewrite length_app. simpl. lia.
Qed.

Lemma has_targets_one v : has_targets 1 (Some [v]).
Proof. exists [v]. split; [done|simpl; lia]. Qed.

Lemma fields_entered_follows st st' d d' :
  fields_for st d -> entered st d d' -> follows st st' -> fields_for st' d'.
Proof.
  intros Hf He Hfo.
  destruct Hfo; inversion He; subst; simpl in *;
    unfold has_direction in *; simpl; try (by eauto); try tauto.
  - destruct Hf as (? & ?). repeat split; try done.
    match goal with H : _ \/ _ |- _ => destruct H as [->| ->]; eauto end.
  - destruct Hf as (? & ? & ?). repeat split; try done. apply has_targets_one.
  - destruct Hf as (? & ? & ? & ?). repeat split; try done.
    by apply (has_targets_weaken 1 2); [lia|].
  - destruct Hf as (? & ? & ? & ?). repeat split; try done.
    by eapply has_targets_snoc.
  - destruct Hf as (? & ? & ? & ?). repeat split; try done. apply has_targets_one.
  - destruct Hf as (? & ? & ? & ? & ?). repeat split; try done.
    by apply (has_targets_weaken 1 2); [lia|].
  - destruct Hf as (? & ? & ? & ? & ?). repeat split; try done.
    by eapply has_targets_snoc.
Qed.

Lemma fields_entered_kept st d d' :
  fields_for st d -> entered st d d' -> st ∈ [StCurrency; StBalance; StSl] ->
  fields_for st d'.
Proof.
  intros Hf He Hin.
  apply elem_of_cons in Hin as [->|Hin]; [done|].
  apply elem_of_cons in Hin as [->|Hin]; [by inversion He; subst|].
  apply elem_of_cons in Hin as [->|Hin]; [by inversion He; subst|].
  by apply elem_of_nil in Hin.
Qed.

Lemma follows_not_edit st st' : follows st st' -> st' <> StEditVal.
Proof. by destruct 1. Qed.

Lemma session_ok_data st d dy wm :
  st <> StEditVal -> fields_for st d -> session_ok (Session (Some st) (Some d) dy wm).
Proof. intros Hne Hf. unfold session_ok. simpl. destruct st; eauto. done. Qed.

Lemma session_ok_inv s st :
  session_ok s -> s_step s = Some st -> st <> StEditVal ->
  exists d, s_data s = Some d /\ fields_for st d.
Proof. unfold session_ok. intros H E. rewrite E in H. by destruct st. Qed.

Lemma session_after_ok st d s o s' :
  st <> StEditVal -> session_ok s -> fields_for st d ->
  session_after st d s o -> o = Some s' -> session_ok s'.
Proof.
  intros Hne Hs Hf Ha Ho. destruct Ha; simplify_eq; try done.
  - apply session_ok_data; [done|]. by eapply fields_entered_kept.
  - apply session_ok_data; [by eapply follows_not_edit|].
    by eapply fields_entered_follows.
Qed.

Lemma sessions_ok_insert us chat_id s :
  sessions_ok us -> session_ok s -> sessions_ok (<[chat_id := s]> us).
Proof.
  intros Hus Hs c s'. destruct (decide (c = chat_id)) as [->|Hne].
  - rewrite lookup_insert_eq. by intros [= <-].
  - rewrite lookup_insert_ne by done. apply Hus.
Qed.

Lemma sessions_ok_delete us chat_id :
  sessions_ok us -> sessions_ok (delete chat_id us).
Proof.
  intros Hus c s'. destruct (decide (c = chat_id)) as [->|Hne].
  - by rewrite lookup_delete_eq.
  - rewrite lookup_delete_ne by done. apply Hus.
Qed.

Lemma sessions_ok_register chat_id unique_key ids us :
  sessions_ok us -> sessions_ok (register_week chat_id unique_key ids us).
Proof.
  intros Hus. unfold register_week. apply sessions_ok_insert; [done|].
  destruct (us !! chat_id) as [s|] eqn:E; simpl; [|done].
  specialize (Hus _ _ E). unfold session_ok in *. simpl. done.
Qed.

Lemma sessions_ok_weekly_buttons uuid items chat_id : forall n us,
  sessions_ok us -> sessions_ok (weekly_buttons uuid n items chat_id us).1.
Proof.
  induction items as [|item rest IH]; intros n us Hus; simpl; [done|].
  specialize (IH (S n) _ (sessions_ok_register chat_id (uuid n) (wi_ids item) us Hus)).
  by destruct (weekly_buttons uuid (S n) rest chat_id _).
Qed.

Lemma sessions_ok_create_keyboard uuid items page chat_id us :
  sessions_ok us ->
  sessions_ok (create_keyboard_weekly uuid items page chat_id us).1.
Proof.
  intros Hus. unfold create_keyboard_weekly.
  pose proof (sessions_ok_weekly_buttons uuid
                (take PER_PAGE (drop ((page - 1) * PER_PAGE) items)) chat_id 0 us Hus).
  by destruct (weekly_buttons _ _ _ _ _).
Qed.

Lemma sessions_ok_touch chat_id us : sessions_ok us -> sessions_ok (touch chat_id us).
Proof.
  intros Hus. unfold touch. destruct (us !! chat_id); [done|].
  by apply sessions_ok_insert.
Qed.

Section Invariants.

Variable py_float : string -> option pyfloat.
Variable SUDOS : list Z.

Lemma sessions_ok_start chat_id w :
  sessions_ok (user_states w) -> sessions_ok (user_states (start SUDOS chat_id w).1).
Proof.
  intros Hus. unfold start. destruct (decide _); [|done].
  destruct (user_states w !! chat_id); [done|]. simpl. by apply sessions_ok_insert.
Qed.

Lemma sessions_ok_then_start chat_id w out :
  sessions_ok (user_states w) ->
  sessions_ok (user_states (and_then (w, out) (start SUDOS chat_id)).1).
Proof. intros Hus. rewrite and_then_fst. by apply sessions_ok_start. Qed.

Lemma sessions_ok_message today flt chat_id raw_text w :
  sessions_ok (user_states w) ->
  sessions_ok (user_states (message_handler py_float SUDOS today flt chat_id raw_text w).1).
Proof.
  intros Hus c s' Hc. destruct (decide (c = chat_id)) as [->|Hne]; cycle 1.
  { rewrite message_handler_other in Hc by done. by eapply Hus. }
  destruct (user_states w !! chat_id) as [s|] eqn:Hlook; cycle 1.
  { unfold message_handler in Hc. rewrite Hlook in Hc. simpl in Hc. congruence. }
  pose proof (Hus _ _ Hlook) as Hs.
  destruct (s_step s) as [st|] eqn:Hstep; cycle 1.
  { unfold message_handler in Hc. rewrite Hlook, Hstep in Hc. simpl in Hc.
    rewrite Hlook in Hc. by injection Hc as <-. }
  destruct (decide (st = StEditVal)) as [->|Hst].
  - unfold message_handler in Hc. rewrite Hlook, Hstep in Hc.
    destruct (py_float _); [|simpl in Hc; rewrite Hlook in Hc; by injection Hc as <-].
    destruct (s_day s); [|simpl in Hc; rewrite Hlook in Hc; by injection Hc as <-].
    destruct (run_tx _ _ _) as [[u d']|];
      [|simpl in Hc; rewrite Hlook in Hc; by injection Hc as <-].
    rewrite start_after_fst in Hc. cbn [fst] in Hc.
    rewrite start_lookup_deleted in Hc.
    destruct (decide _); [by injection Hc as <-|done].
  - destruct (session_ok_inv s st Hs Hstep Hst) as (d & Hd & Hf).
    eapply (session_after_ok st d s); [done|done|done| |exact Hc].
    by apply message_handler_session_after.
Qed.

(** X7: every handler keeps the sessions well formed: a session that waits
    at a step of the trade entry holds the fields of all the earlier steps,
    with the direction long or short, one or two entries and one or two
    targets; a session that waits for a new balance knows its day. *)
Theorem sessions_stay_well_formed w w' :
  sessions_ok (user_states w) -> bot_step py_float SUDOS w w' ->
  sessions_ok (user_states w').
Proof.
  intros Hus Hstep. destruct Hstep.
  - by apply sessions_ok_start.
  - simpl. by apply sessions_ok_delete.
  - simpl. apply sessions_ok_insert; [done|].
    unfold session_ok. simpl. eauto.
  - unfold daily_chosen. by apply sessions_ok_then_start.
  - unfold weekly_report. destruct (map _ _); [done|].
    destruct (week_items _); [|done].
    pose proof (sessions_ok_create_keyboard uuid l0 1 chat_id (user_states w) Hus).
    by destruct (create_keyboard_weekly _ _ _ _ _).
  - unfold weekly_chosen.
    destruct (resolve _ _ _) as [[|i ids']|];
      apply sessions_ok_then_start; simpl; by apply sessions_ok_touch.
  - unfold monthly_chosen. by apply sessions_ok_then_start.
  - unfold delete_exec. by apply sessions_ok_then_start.
  - unfold edit_balance_chosen. destruct (head _) as [row|].
    + simpl. apply sessions_ok_insert; [done|]. unfold session_ok. simpl. eauto.
    + by apply sessions_ok_then_start.
  - unfold delete_cancel. by apply sessions_ok_then_start.
  - unfold handle_pagination_weekly. destruct (week_items _) as [items|]; [|done].
    pose proof (sessions_ok_create_keyboard uuid items page chat_id (user_states w) Hus).
    by destruct (create_keyboard_weekly _ _ _ _ _).
  - by apply sessions_ok_message.
Qed.

End Invariants.

(** *** The tables stay consistent *)

Lemma run_exec_inv f d flt u d' :
  run_tx (_ ← get_db_connection; _ ← exec f; commit) d flt = Some (u, d') -> d' = f d.
Proof.
  unfold run_tx. destruct ((_ ← get_db_connection; _ ← exec f; commit) _)
    as [[x c']|] eqn:E; [|done].
  intros [= _ <-].
  apply bind_inv in E as ([] & c1 & H1 & E). apply tick_inv in H1 as ->.
  apply bind_inv in E as ([] & c2 & H2 & E).
  unfold exec in H2.
  apply bind_inv in H2 as ([] & c3 & H3 & H2). apply tick_inv in H3 as ->.
  injection H2 as <-.
  apply tick_inv in E as ->. done.
Qed.

Lemma map_ext_in_id {A} (f : A -> A) (l : list A) :
  (forall x, x ∈ l -> f x = x) -> map f l = l.
Proof.
  induction l as [|x l IH]; intros H; simpl; [done|].
  rewrite H by apply list_elem_of_here.
  rewrite IH; [done|]. intros y Hy. apply H. by apply list_elem_of_further.
Qed.

Lemma map_map_id {A B} (g : A -> B) (f : A -> A) (l : list A) :
  (forall x, g (f x) = g x) -> map g (map f l) = map g l.
Proof. intros H. induction l as [|x l IH]; simpl; [done|]. by rewrite H, IH. Qed.

Lemma links_after_link (rows : list balance_row) (row : balance_row) nb x :
  NoDup (map b_id rows) -> row ∈ rows ->
  concat (map (fun r => ids_of (b_forIds r))
            (map (fun r => if decide (b_id r = b_id row)
                           then BalanceRow (b_id r) (Some (ids_of (b_forIds r) ++ [x]))
                                           nb (b_day r) (b_userid r)
                           else r) rows))
  ≡ₚ x :: concat (map (fun r => ids_of (b_forIds r)) rows).
Proof.
  induction rows as [|r rows IH]; intros Hnd Hin; [by apply elem_of_nil in Hin|].
  simpl in Hnd. apply NoDup_cons in Hnd as [Hr Hnd].
  simpl. destruct (decide (b_id r = b_id row)) as [E|E].
  - rewrite map_ext_in_id.
    + simpl. rewrite <-app_assoc. simpl. symmetry. apply Permutation_middle.
    + intros y Hy. destruct (decide (b_id y = b_id row)) as [E'|]; [|done].
      exfalso. apply Hr. rewrite E, <-E'.
      apply list_elem_of_fmap. by exists y.
  - apply elem_of_cons in Hin as [->|Hin]; [done|].
    rewrite (IH Hnd Hin). symmetry. apply Permutation_middle.
Qed.

Lemma select_balance_of_day_in d today chat_id row :
  select_balance_of_day d today chat_id = Some row ->
  row ∈ balances d /\ b_day row = today /\ b_userid row = chat_id.
Proof.
  unfold select_balance_of_day. intros H.
  apply head_Some_elem_of in H. apply list_elem_of_filter in H. tauto.
Qed.

Lemma db_ok_insert_balance d bal today chat_id :
  db_ok d -> db_ok (insert_balance d bal today chat_id).
Proof.
  intros [H1 H2 H3 H4 H5]. split; simpl; try done.
  - rewrite map_app. simpl. apply NoDup_app. split; [done|]. split.
    + intros x Hx Hx'. apply list_elem_of_singleton in Hx' as ->.
      apply list_elem_of_fmap in Hx as (r & E & Hr).
      rewrite Forall_forall in H4. specialize (H4 _ Hr). lia.
    + apply NoDup_singleton.
  - apply Forall_app. split.
    + eapply Forall_impl; [exact H4|]. simpl. intros; lia.
    + apply Forall_singleton. simpl. lia.
  - unfold linked_ids. simpl. rewrite map_app, concat_app. simpl.
    by rewrite app_nil_r.
Qed.

Lemma db_ok_update_balance_of_day d val chat_id day :
  db_ok d -> db_ok (update_balance_of_day d val chat_id day).
Proof.
  intros [H1 H2 H3 H4 H5]. split; simpl; try done.
  - rewrite map_map_id; [done|]. intros r. by destruct (decide _).
  - apply Forall_map. eapply Forall_impl; [exact H4|].
    intros r Hr. by destruct (decide _).
  - unfold linked_ids. simpl. rewrite map_map_id; [done|].
    intros r. by destruct (decide _).
Qed.

Lemma filter_map_id (l : list trade_row) tid :
  map t_id (filter (fun t => t_id t <> tid) l) = filter (fun x => x <> tid) (map t_id l).
Proof.
  induction l as [|t l IH]; [done|]. simpl.
  destruct (decide (t_id t = tid)) as [E|E].
  - rewrite filter_cons_False by (intros H; by apply H).
    rewrite (filter_cons_False _ (t_id t)) by (intros H; by apply H). done.
  - rewrite filter_cons_True by done.
    rewrite (filter_cons_True _ (t_id t)) by done. simpl. by rewrite IH.
Qed.

Lemma filter_concat (ls : list (list Z)) tid :
  filter (fun x => x <> tid) (concat ls) = concat (map (filter (fun x => x <> tid)) ls).
Proof.
  induction ls as [|l ls IH]; [done|]. simpl. by rewrite filter_app, IH.
Qed.

Lemma links_after_delete d tid :
  linked_ids (delete_trade d tid) = filter (fun x => x <> tid) (linked_ids d).
Proof.
  unfold linked_ids. simpl. rewrite filter_concat, !map_map. f_equal.
  apply map_ext. intros r. destruct (b_forIds r) as [ids|] eqn:E; [|by rewrite E].
  destruct (decide (tid ∈ ids)) as [Hin|Hin]; [done|]. rewrite E. simpl.
  symmetry. apply filter_all. apply Forall_forall. intros x Hx ->. done.
Qed.

Lemma db_ok_delete_trade d tid : db_ok d -> db_ok (delete_trade d tid).
Proof.
  intros [H1 H2 H3 H4 H5]. split.
  - simpl. rewrite filter_map_id. by apply NoDup_filter.
  - simpl. apply Forall_forall. intros t Ht. apply list_elem_of_filter in Ht as [_ Ht].
    rewrite Forall_forall in H2. by apply H2.
  - simpl. rewrite map_map_id; [done|]. intros r.
    destruct (b_forIds r); [|done]. by destruct (decide _).
  - simpl. apply Forall_map. eapply Forall_impl; [exact H4|].
    intros r Hr. destruct (b_forIds r); [|done]. by destruct (decide _).
  - rewrite links_after_delete. simpl. rewrite filter_map_id. by rewrite H5.
Qed.

Lemma db_ok_settle d row currency lots entries tps stop ttype :
  db_ok d -> row ∈ balances d ->
  db_ok (settle_read_once d row currency lots entries tps stop ttype).2.
Proof.
  intros [H1 H2 H3 H4 H5] Hin. split; simpl.
  - rewrite map_app. simpl. apply NoDup_app. split; [done|]. split.
    + intros x Hx Hx'. apply list_elem_of_singleton in Hx' as ->.
      apply list_elem_of_fmap in Hx as (r & E & Hr).
      rewrite Forall_forall in H2. specialize (H2 _ Hr). lia.
    + apply NoDup_singleton.
  - apply Forall_app. split.
    + eapply Forall_impl; [exact H2|]. simpl. intros; lia.
    + apply Forall_singleton. simpl. lia.
  - rewrite map_map_id; [done|]. intros r. by destruct (decide _).
  - apply Forall_map. eapply Forall_impl; [exact H4|].
    intros r Hr. by destruct (decide _).
  - unfold linked_ids. simpl. rewrite links_after_link by done.
    rewrite map_app. simpl. fold (linked_ids d). rewrite H5.
    apply Permutation_cons_append.
Qed.

Section Tables.

Variable py_float : string -> option pyfloat.
Variable SUDOS : list Z.

Lemma then_start_db chat_id w out :
  db (and_then (w, out) (start SUDOS chat_id)).1 = db w.
Proof. by rewrite and_then_fst, start_db. Qed.

Lemma tables_unchanged today flt chat_id w d :
  d = db w -> tables_after py_float today flt chat_id w d.
Proof. intros ->. apply tables_same. Qed.

Lemma message_handler_tables today flt chat_id raw_text w :
  tables_after py_float today flt chat_id w
    (db (message_handler py_float SUDOS today flt chat_id raw_text w).1).
Proof.
  unfold message_handler.
  destruct (user_states w !! chat_id) as [s|] eqn:Hlook; [|by apply tables_unchanged].
  destruct (s_step s) as [st|] eqn:Hstep; [|by apply tables_unchanged].
  destruct st; cbn beta iota; try (by apply tables_unchanged);
    try (apply tables_unchanged; by apply numeric_step_db).
  - destruct (run_tx _ _ _) as [[[row|] d']|]; by apply tables_unchanged.
  - destruct (py_float _) as [bal|]; [|by apply tables_unchanged].
    destruct (run_tx _ _ _) as [[u d']|] eqn:E; [|by apply tables_unchanged].
    apply run_exec_inv in E as ->. simpl. by eapply tables_balance.
  - destruct (is_direction _); by apply tables_unchanged.
  - destruct (py_float _) as [v|]; [|by apply tables_unchanged].
    destruct (run_tx _ _ _) as [[[t n] d']|] eqn:E; [|by apply tables_unchanged].
    rewrite start_after_fst, start_db. simpl. by eapply tables_trade.
  - destruct (py_float _) as [v|]; [|by apply tables_unchanged].
    destruct (s_day s) as [day|] eqn:Hday; [|by apply tables_unchanged].
    destruct (run_tx _ _ _) as [[u d']|] eqn:E; [|by apply tables_unchanged].
    apply run_exec_inv in E as ->.
    rewrite start_after_fst, start_db. simpl. by eapply tables_edit.
Qed.

Lemma weekly_report_db uuid chat_id w : db (weekly_report uuid chat_id w).1 = db w.
Proof.
  unfold weekly_report. destruct (map _ _); [done|].
  destruct (week_items _); [|done]. by destruct (create_keyboard_weekly _ _ _ _ _).
Qed.

Lemma weekly_chosen_db chat_id unique_key w :
  db (weekly_chosen SUDOS chat_id unique_key w).1 = db w.
Proof.
  unfold weekly_chosen.
  destruct (resolve _ _ _) as [[|i ids']|]; by rewrite then_start_db.
Qed.

Lemma edit_balance_chosen_db chat_id bid w :
  db (edit_balance_chosen SUDOS chat_id bid w).1 = db w.
Proof.
  unfold edit_balance_chosen. destruct (head _); [done|]. by rewrite then_start_db.
Qed.

Lemma delete_exec_db chat_id tid w :
  db (delete_exec SUDOS chat_id tid w).1 = delete_trade (db w) tid.
Proof. unfold delete_exec. by rewrite then_start_db. Qed.

Lemma bot_step_tables w w' :
  bot_step py_float SUDOS w w' ->
  db w' = db w
  \/ (exists tid, db w' = delete_trade (db w) tid)
  \/ exists today flt chat_id, tables_after py_float today flt chat_id w (db w').
Proof.
  destruct 1.
  - left. apply start_db.
  - by left.
  - by left.
  - left. unfold daily_chosen. by rewrite then_start_db.
  - left. apply weekly_report_db.
  - left. apply weekly_chosen_db.
  - left. unfold monthly_chosen. by rewrite then_start_db.
  - right. left. exists tid. apply delete_exec_db.
  - left. apply edit_balance_chosen_db.
  - left. unfold delete_cancel. by rewrite then_start_db.
  - left. unfold handle_pagination_weekly. destruct (week_items _); [|done].
    by destruct (create_keyboard_weekly _ _ _ _ _).
  - right. right. exists today, flt, chat_id. apply message_handler_tables.
Qed.

Lemma db_ok_tables today flt chat_id w d' :
  db_ok (db w) -> tables_after py_float today flt chat_id w d' -> db_ok d'.
Proof.
  intros Hok Ht. destruct Ht as [|s bal ? ?|s v r d' ? ? Hrun|s val day ? ? ?].
  - done.
  - by apply db_ok_insert_balance.
  - apply save_trade_inv in Hrun
      as (row & currency & lots & entries & tps & stop & ttype
          & _ & _ & _ & _ & _ & _ & _ & _ & Hrow & _ & Hr).
    apply select_balance_of_day_in in Hrow as [Hin _].
    injection Hr as _ ->. by apply db_ok_settle.
  - by apply db_ok_update_balance_of_day.
Qed.

(** X8: every handler keeps the tables consistent: the ids of the trades
    and of the balance rows are unique and below the counters, and every
    trade is linked from exactly one place of the balance rows, which link
    nothing else. *)
Theorem tables_stay_consistent w w' :
  db_ok (db w) -> bot_step py_float SUDOS w w' -> db_ok (db w').
Proof.
  intros Hok Hstep.
  destruct (bot_step_tables w w' Hstep) as [->|[[tid ->]|(today & flt & chat_id & Ht)]].
  - done.
  - by apply db_ok_delete_trade.
  - by eapply db_ok_tables.
Qed.

End Tables.

(** *** The stored trades are well formed *)

Lemma filter_split_length {A} (P : A -> Prop) `{!forall x, Decision (P x)} (l : list A) :
  (length (filter P l) + length (filter (fun x => ~ P x) l))%nat = length l.
Proof.
  induction l as [|x l IH]; [done|]. destruct (decide (P x)) as [Hx|Hx].
  - rewrite filter_cons_True by done.
    rewrite (filter_cons_False (fun x => ~ P x)) by tauto. simpl. lia.
  - rewrite filter_cons_False by done.
    rewrite (filter_cons_True (fun x => ~ P x)) by done. simpl. lia.
Qed.

Lemma target_for_stored tps i :
  target_for (map PyFloat.stored tps) i = PyFloat.stored <$> target_for tps i.
Proof.
  unfold target_for. change (map PyFloat.stored tps) with (PyFloat.stored <$> tps).
  rewrite list_lookup_fmap, fmap_last. by destruct (tps !! i).
Qed.

Lemma paired_values_stored entries tps lots ttype :
  Forall2 same_stored
    (map PyFloat.stored (paired_values entries tps lots ttype))
    (paired_values (map PyFloat.stored entries) (map PyFloat.stored tps)
                   (PyFloat.stored lots) ttype).
Proof.
  apply Forall2_same_length_lookup_2.
  { unfold paired_values. by rewrite length_map, !length_imap, length_map. }
  intros i x y Hx Hy. unfold paired_values in *.
  change (map PyFloat.stored ?l) with (PyFloat.stored <$> l) in *.
  rewrite list_lookup_fmap, list_lookup_imap in Hx.
  rewrite list_lookup_imap, list_lookup_fmap in Hy.
  destruct (entries !! i) as [ent|]; [|done]. simpl in Hx, Hy.
  injection Hx as <-. injection Hy as <-.
  unfold same_stored. rewrite stored_idem. symmetry.
  apply pnl_same_stored; [apply same_stored_stored| |apply same_stored_stored].
  change (PyFloat.stored <$> tps) with (map PyFloat.stored tps).
  rewrite target_for_stored. destruct (target_for tps i); simpl;
    [apply same_stored_stored|done].
Qed.

Lemma settled_trade_ok d row currency lots entries tps stop ttype :
  (1 <= length entries <= 2)%nat -> (1 <= length tps <= 2)%nat ->
  ttype = "long"%string \/ ttype = "short"%string ->
  Forall trade_ok (calcbalances d) ->
  Forall trade_ok
    (calcbalances (settle_read_once d row currency lots entries tps stop ttype).2).
Proof.
  intros He Ht Hty Hall. simpl. apply Forall_app. split; [done|].
  apply Forall_singleton. unfold trade_ok. simpl.
  assert (Hlen : length (paired_values entries tps lots ttype) = length entries).
  { unfold paired_values. apply length_imap. }
  rewrite !length_map.
  split; [lia|]. split; [lia|]. split; [done|]. split; [done|]. split.
  - rewrite Nat.add_comm. rewrite <-Hlen. rewrite Nat.add_comm.
    apply (filter_split_length is_gain).
  - apply paired_values_stored.
Qed.

Section Trades.

Variable py_float : string -> option pyfloat.
Variable SUDOS : list Z.

(** X9: every handler keeps the stored trades well formed, provided the
    sessions are: what the terminal step stores has one or two entries, one
    or two targets, the direction long or short, one value per entry, which
    is the value of that stored entry against its stored target up to the
    sign of a zero, and one percentage per entry, filed under the gains or
    under the losses. *)
Theorem trades_stay_well_formed w w' :
  sessions_ok (user_states w) -> Forall trade_ok (calcbalances (db w)) ->
  bot_step py_float SUDOS w w' -> Forall trade_ok (calcbalances (db w')).
Proof.
  intros Hus Hall Hstep.
  destruct (bot_step_tables py_float SUDOS w w' Hstep)
    as [->|[[tid ->]|(today & flt & chat_id & Ht)]]; [done| |].
  - simpl. apply Forall_forall. intros t Hin.
    apply list_elem_of_filter in Hin as [_ Hin].
    rewrite Forall_forall in Hall. by apply Hall.
  - destruct Ht as [|s bal ? ?|s v r d' Hlook Hst Hrun|s val day ? ? ?]; try done.
    apply save_trade_inv in Hrun
      as (row & currency & lots & entries & tps & stop & ttype
          & _ & _ & Hty & _ & Hent & _ & Htps & _ & _ & _ & Hr).
    injection Hr as _ ->.
    destruct (session_ok_inv s StSl (Hus _ _ Hlook) Hst) as (d & Hd & Hf); [done|].
    unfold get_data in *. rewrite Hd in *. simpl in *.
    destruct Hf as (_ & _ & Hdir & (le & Hle & Hlen) & (lt & Hlt & Hlent)).
    simplify_eq.
    apply settled_trade_ok; [done|done| |done].
    destruct Hdir as [H|H]; rewrite Hty in H; injection H as ->; eauto.
Qed.

End Trades.

(** *** The steps that write the tables *)

Section Writes.

Variable py_float : string -> option pyfloat.
Variable SUDOS : list Z.

(** X11: a well-formed session that waits for the stop loss can always be
    completed: a number, a row of the day and a database that answers (the
    connection, at most two reads, the two writes, the commit, and the
    connection that the menu opens afterwards) give the reply [Saved]
    followed by the menu, the session ended, and the tables of the
    computation with the row read once, on the fields of the session. *)
Theorem terminal_step_saves today flt chat_id raw_text w s v row :
  user_states w !! chat_id = Some s -> session_ok s -> s_step s = Some StSl ->
  py_float (inbound_text raw_text) = Some v ->
  select_balance_of_day (db w) today chat_id = Some row ->
  (forall k, (k < 7)%nat -> flt k = false) ->
  exists d currency lots entries tps ttype,
    s_data s = Some d
    /\ d_currency d = Some currency /\ d_lots d = Some lots
    /\ d_type d = Some ttype /\ d_entry_targets d = Some entries
    /\ d_tp_targets d = Some tps
    /\ let r := settle_read_once (db w) row currency lots entries tps v ttype in
       message_handler py_float SUDOS today flt chat_id raw_text w
       = and_then (World (delete chat_id (user_states w)) r.2,
                   [SendMessage chat_id (Saved r.1.1 r.1.2) ReplyKeyboardRemove])
                  (start SUDOS chat_id).
Proof.
  intros Hlook Hok Hstep Hparse Hrow Hflt.
  destruct (session_ok_inv s StSl Hok Hstep) as (d & Hd & Hf); [done|].
  destruct Hf as ([currency Hc] & [lots Hl] & Hdir
                  & (entries & He & Hlen) & (tps & Ht & Hlent)).
  assert (exists ttype, d_type d = Some ttype) as [ttype Hty].
  { destruct Hdir; eauto. }
  exists d, currency, lots, entries, tps, ttype. repeat (split; [done|]).
  intros r.
  assert (Hcost : save_cost (set_sl v d) = (4 + length entries)%nat).
  { unfold save_cost. simpl. by rewrite He. }
  assert (Hrun : run_tx (save_trade today chat_id (set_sl v d)) (db w) flt = Some r).
  { apply save_trade_ok; try done.
    - intros ->. simpl in Hlen. lia.
    - intros ->. simpl in Hlent. lia.
    - intros k Hk. apply Hflt. lia. }
  unfold message_handler. rewrite Hlook, Hstep. cbn beta iota.
  rewrite Hparse. unfold get_data. rewrite Hd. simpl default.
  rewrite (ops_of_save_trade _ _ _ _ _ _ Hrun), Hrun.
  destruct r as [[t n] d']. cbn [fst snd]. apply start_after_quiet.
  apply Hflt. lia.
Qed.

(** X12: without a row of the day the terminal step stores nothing, even
    with a database that never fails: the reply is [Error saving.], the
    tables are as they were, and the session keeps its step with the stop
    loss recorded. *)
Theorem terminal_step_without_row today flt chat_id raw_text w s v :
  user_states w !! chat_id = Some s -> s_step s = Some StSl ->
  py_float (inbound_text raw_text) = Some v ->
  select_balance_of_day (db w) today chat_id = None ->
  message_handler py_float SUDOS today flt chat_id raw_text w
  = (keep_step chat_id s (set_sl v (get_data s)) w, [say chat_id "Error saving."]).
Proof.
  intros Hlook Hstep Hparse Hrow. unfold message_handler.
  rewrite Hlook, Hstep. cbn beta iota. rewrite Hparse.
  destruct (run_tx _ _ _) as [[[t n] d']|] eqn:E; [|done].
  apply save_trade_inv in E
    as (row & currency & lots & entries & tps & stop & ttype
        & _ & _ & _ & _ & _ & _ & _ & _ & Hsel & _). congruence.
Qed.

End Writes.

(** *** A trade entry from the first question to the last *)

Section Flow.

Variable py_float : string -> option pyfloat.
Variable SUDOS : list Z.

(** X15: for a chat without a row of the day, the nine answers of a trade
    entry with one entry and one target (any currency text, numbers for the
    balance, the lots, the entry, the target and the stop loss, a direction,
    and two answers that are not a yes) end in one new trade that holds the
    answers, the value of the leg and its percentage of the balance entered,
    filed under the gains or the losses by its sign; the row of the day is
    created with the balance entered, changed by the value of the leg and
    linked to the trade; and the session is over.  Every float is stated as
    the tables hold it ([PyFloat.stored]). *)
Theorem trade_entry_flow us0 db0 chat_id today
    (tc tb tl td te1 tq1 ttp1 tq2 tsl : string) (bal lots e1 tp1 stop : pyfloat) :
  select_balance_of_day db0 today chat_id = None ->
  py_float (inbound_text tb) = Some bal ->
  py_float (inbound_text tl) = Some lots ->
  is_direction (PyStr.lower (inbound_text td)) = true ->
  py_float (inbound_text te1) = Some e1 ->
  is_yes (PyStr.lower (inbound_text tq1)) = false ->
  py_float (inbound_text ttp1) = Some tp1 ->
  is_yes (PyStr.lower (inbound_text tq2)) = false ->
  py_float (inbound_text tsl) = Some stop ->
  let w := (converse py_float SUDOS today chat_id
                     [tc; tb; tl; td; te1; tq1; ttp1; tq2; tsl]
                     (new_report chat_id (World us0 db0)).1).1 in
  let dir := PyStr.lower (inbound_text td) in
  let base := PyFloat.stored bal in
  let val := calculate_pnl_value e1 tp1 lots dir in
  let pct := PyFloat.stored (calculate_balance_percent base val) in
  let gain := PyFloat.leb (PyFloat.of_Z 0) val in
  calcbalances (db w)
  = calcbalances db0
    ++ [TradeRow (calc_seq db0) (inbound_text tc) (PyFloat.stored lots)
                 (if gain then [] else [pct]) (if gain then [pct] else [])
                 [PyFloat.stored e1] [PyFloat.stored tp1] (PyFloat.stored stop) dir
                 [PyFloat.stored val]]
  /\ select_balance_of_day (db w) today chat_id
     = Some (BalanceRow (bal_seq db0) (Some [calc_seq db0])
                        (PyFloat.stored
                           (PyFloat.add base (PyFloat.add (PyFloat.of_Z 0) val)))
                        today chat_id)
  /\ user_states w !! chat_id
     = if decide (chat_id ∈ SUDOS) then Some empty_session else None.
Proof.
  intros Hno Hb Hl Hd He Hq1 Ht Hq2 Hs w dir base val pct gain.
  unfold w, new_report, with_states. clear w. cbn [fst user_states db].
  erewrite (converse_cons py_float SUDOS) by apply currency_step. rewrite Hno.
  erewrite (converse_cons py_float SUDOS) by apply balance_step, Hb.
  erewrite (converse_cons py_float SUDOS) by apply lots_step, Hl.
  erewrite (converse_cons py_float SUDOS) by apply type_step, Hd.
  erewrite (converse_cons py_float SUDOS) by apply entry1_step, He.
  erewrite (converse_cons py_float SUDOS) by apply entry2_q_step. rewrite Hq1.
  erewrite (converse_cons py_float SUDOS) by apply tp1_step, Ht.
  erewrite (converse_cons py_float SUDOS) by apply tp2_q_step. rewrite Hq2.
  cbn [converse]. rewrite and_then_fst. cbn [converse fst].
  change (fun _ : nat => false) with no_faults.
  rewrite (sl_step py_float SUDOS today chat_id us0 _ _ None None tsl stop
             (BalanceRow (bal_seq db0) None base today chat_id)
             (inbound_text tc) lots [e1] [tp1] dir);
    [|apply Hs|reflexivity..|done|reflexivity|done|by apply select_inserted].
  rewrite and_then_fst. split; [|split].
  - rewrite start_db. cbn [db fst snd].
    unfold settle_read_once, paired_values, target_for.
    cbn [fst snd b_balance b_id imap lookup list_lookup default fold_left].
    unfold id. fold dir. fold val. unfold pct.
    unfold gain. destruct (PyFloat.leb (PyFloat.of_Z 0) val) eqn:Eg.
    + rewrite (filter_cons_True is_gain) by exact Eg.
      rewrite (filter_cons_False (fun v => ~ is_gain v))
        by (intros H; apply H; exact Eg).
      rewrite !filter_nil. reflexivity.
    + rewrite (filter_cons_False is_gain)
        by (unfold is_gain; rewrite Eg; discriminate).
      rewrite (filter_cons_True (fun v => ~ is_gain v))
        by (unfold is_gain; rewrite Eg; discriminate).
      rewrite !filter_nil. reflexivity.
  - rewrite start_db. cbn [db fst snd].
    unfold settle_read_once, paired_values, target_for.
    cbn [fst snd b_balance b_id imap lookup list_lookup default fold_left].
    unfold id. fold dir. fold val.
    unfold update_balance_and_link.
    erewrite select_after_update; cycle 1.
    + intros x. by destruct (decide (b_id x = bal_seq db0)).
    + cbn [insert_trade fst]. by apply (select_inserted (Database _ _ _ _)).
    + cbn [b_id b_forIds ids_of default b_day b_userid bal_seq insert_trade fst snd].
      by rewrite decide_True.
  - cbn [fst]. apply start_lookup_deleted.
Qed.

End Flow.

(** *** Rows of other users, deletions, and the views *)

Lemma row_of_id (l : list balance_row) (r row : balance_row) :
  NoDup (map b_id l) -> r ∈ l -> row ∈ l -> b_id r = b_id row -> r = row.
Proof.
  induction l as [|x l IH]; intros Hnd Hr Hrow E; [by apply elem_of_nil in Hr|].
  simpl in Hnd. apply NoDup_cons in Hnd as [Hx Hnd].
  apply elem_of_cons in Hr as [->|Hr]; apply elem_of_cons in Hrow as [->|Hrow].
  - done.
  - exfalso. apply Hx. rewrite E. apply list_elem_of_fmap. by exists row.
  - exfalso. apply Hx. rewrite <-E. apply list_elem_of_fmap. by exists r.
  - by apply IH.
Qed.

Lemma filter_map_frame {A} (P : A -> Prop) `{!forall x, Decision (P x)}
    (f : A -> A) (l : list A) :
  (forall x, x ∈ l -> P x -> f x = x) ->
  (forall x, x ∈ l -> ~ P x -> ~ P (f x)) ->
  filter P (map f l) = filter P l.
Proof.
  induction l as [|x l IH]; intros H1 H2; [done|]. simpl.
  assert (Hx : x ∈ x :: l) by apply list_elem_of_here.
  assert (IH' : filter P (map f l) = filter P l).
  { apply IH; intros y Hy; [apply H1|apply H2]; by apply list_elem_of_further. }
  destruct (decide (P x)) as [Px|Px].
  - rewrite (H1 x Hx Px). rewrite !filter_cons_True by done. by rewrite IH'.
  - rewrite filter_cons_False by (by apply H2).
    rewrite (filter_cons_False P x) by done. done.
Qed.

Section Owners.

Variable py_float : string -> option pyfloat.
Variable SUDOS : list Z.

(** X16: on consistent tables a text message of one chat neither changes,
    adds nor removes a balance row of another user, whatever the step, the
    text and the database do. *)
Theorem message_handler_other_users_rows today flt chat_id raw_text w :
  db_ok (db w) ->
  filter (fun r => b_userid r <> chat_id)
         (balances (db (message_handler py_float SUDOS today flt chat_id raw_text w).1))
  = filter (fun r => b_userid r <> chat_id) (balances (db w)).
Proof.
  intros Hok.
  destruct (message_handler_tables py_float SUDOS today flt chat_id raw_text w)
    as [|s bal ? ?|s v r d' Hlook Hst Hrun|s val day ? ? ?].
  - done.
  - simpl. rewrite filter_app. rewrite filter_cons_False by (simpl; tauto).
    rewrite filter_nil. apply app_nil_r.
  - apply save_trade_inv in Hrun
      as (row & currency & lots & entries & tps & stop & ttype
          & _ & _ & _ & _ & _ & _ & _ & _ & Hrow & _ & Hr).
    apply select_balance_of_day_in in Hrow as (Hin & _ & Hu).
    injection Hr as _ ->. simpl. apply filter_map_frame.
    + intros x Hx Px. destruct (decide (b_id x = b_id row)) as [E|]; [|done].
      exfalso. apply Px.
      rewrite (row_of_id _ x row (ok_balance_ids _ Hok) Hx Hin E). done.
    + intros x Hx Px. by destruct (decide (b_id x = b_id row)).
  - simpl. apply filter_map_frame.
    + intros x Hx Px. destruct (decide _) as [[E _]|]; [done|done].
    + intros x Hx Px. by destruct (decide _).
Qed.

End Owners.

(** X17: deleting is idempotent: a second deletion of the same id changes
    nothing. *)
Theorem delete_trade_idempotent d tid :
  delete_trade (delete_trade d tid) tid = delete_trade d tid.
Proof.
  unfold delete_trade. simpl. f_equal.
  - apply filter_all. apply Forall_forall. intros t Ht.
    by apply list_elem_of_filter in Ht as [Ht _].
  - rewrite map_map. apply map_ext. intros r.
    destruct (b_forIds r) as [ids|] eqn:E.
    + destruct (decide (tid ∈ ids)) as [Hin|Hin].
      * simpl. rewrite decide_False; [done|].
        intros H. by apply list_elem_of_filter in H as [H _].
      * rewrite E. by rewrite decide_False.
    + by rewrite E.
Qed.

Lemma balance_row_eta r :
  BalanceRow (b_id r) (b_forIds r) (b_balance r) (b_day r) (b_userid r) = r.
Proof. by destruct r. Qed.

Lemma elem_of_linked (rows : list balance_row) r ids x :
  r ∈ rows -> b_forIds r = Some ids -> x ∈ ids ->
  x ∈ concat (map (fun r => ids_of (b_forIds r)) rows).
Proof.
  induction rows as [|y rows IH]; intros Hr E Hx; [by apply elem_of_nil in Hr|].
  simpl. apply elem_of_app. apply elem_of_cons in Hr as [<-|Hr].
  - left. by rewrite E.
  - right. by apply IH.
Qed.

(** X18: on consistent tables, deleting an id that is not the id of a stored
    trade changes nothing. *)
Theorem delete_trade_unknown d tid :
  db_ok d -> Forall (fun t => t_id t <> tid) (calcbalances d) ->
  delete_trade d tid = d.
Proof.
  intros Hok Hno.
  assert (Hlinks : tid ∉ linked_ids d).
  { rewrite (ok_links _ Hok). intros H. apply list_elem_of_fmap in H as (t & E & Ht).
    rewrite Forall_forall in Hno. by apply (Hno t Ht). }
  destruct d as [trades rows cs bs]. unfold delete_trade. simpl in *. f_equal.
  - by apply filter_all.
  - apply map_ext_in_id. intros r Hr.
    destruct (b_forIds r) as [ids|] eqn:E; [|done].
    rewrite decide_False; [done|]. intros Hin. apply Hlinks.
    unfold linked_ids. simpl. by eapply elem_of_linked.
Qed.

(** X19: for a trade with at least as many targets as entries, the values
    the report views recompute are the values the terminal step computes
    from the same fields. *)
Theorem views_agree_when_targets_cover (t : trade_row) :
  (length (t_entrytarget t) <= length (t_takeprofittarget t))%nat ->
  view_leg_pnls t
  = paired_values (t_entrytarget t) (t_takeprofittarget t) (t_lots t) (t_type t).
Proof.
  intros Hlen. unfold view_leg_pnls, paired_values. apply imap_ext.
  intros i ent Hi. simpl.
  apply lookup_lt_Some in Hi.
  destruct (lookup_lt_is_Some_2 (t_takeprofittarget t) i) as [tp Htp]; [lia|].
  unfold target_for. by rewrite Htp.
Qed.

(** *** The tokens of the week list *)

Lemma resolve_register chat_id key ids us key' :
  resolve (register_week chat_id key ids us) chat_id key'
  = if decide (key' = key) then Some ids else resolve us chat_id key'.
Proof.
  unfold resolve, register_week. rewrite lookup_insert_eq. simpl.
  destruct (decide (key' = key)) as [->|Hne].
  - by rewrite lookup_insert_eq.
  - by rewrite lookup_insert_ne.
Qed.

Lemma register_other chat_id key ids us other :
  other <> chat_id -> register_week chat_id key ids us !! other = us !! other.
Proof. intros Hne. unfold register_week. by rewrite lookup_insert_ne. Qed.

Lemma register_entry chat_id key ids us :
  let s := default empty_session (us !! chat_id) in
  let s' := default empty_session (register_week chat_id key ids us !! chat_id) in
  s_step s' = s_step s /\ s_data s' = s_data s /\ s_day s' = s_day s.
Proof. unfold register_week. rewrite lookup_insert_eq. done. Qed.

Lemma weekly_buttons_kept uuid chat_id key items : forall n us,
  (forall i, (i < length items)%nat -> uuid (n + i)%nat <> key) ->
  resolve (weekly_buttons uuid n items chat_id us).1 chat_id key
  = resolve us chat_id key.
Proof.
  induction items as [|item rest IH]; intros n us Hkey; simpl; [done|].
  specialize (IH (S n) (register_week chat_id (uuid n) (wi_ids item) us)).
  destruct (weekly_buttons uuid (S n) rest chat_id _) as [us2 buttons].
  cbn [fst snd] in *.
  rewrite IH.
  - rewrite resolve_register. rewrite decide_False; [done|].
    intros ->. apply (Hkey 0%nat); [simpl; lia|]. by rewrite Nat.add_0_r.
  - intros i Hi. replace (S n + i)%nat with (n + S i)%nat by lia. apply Hkey.
    simpl. lia.
Qed.

Lemma weekly_buttons_hit uuid chat_id items : forall n us i it,
  NoDup (map uuid (seq n (length items))) -> items !! i = Some it ->
  resolve (weekly_buttons uuid n items chat_id us).1 chat_id (uuid (n + i)%nat)
  = Some (wi_ids it).
Proof.
  induction items as [|item rest IH]; intros n us i it Hnd Hi; [done|].
  simpl in Hnd. apply NoDup_cons in Hnd as [Hn Hnd]. simpl.
  pose proof (weekly_buttons_kept uuid chat_id (uuid n) rest (S n)
                (register_week chat_id (uuid n) (wi_ids item) us)) as Hkept.
  specialize (IH (S n) (register_week chat_id (uuid n) (wi_ids item) us)).
  destruct (weekly_buttons uuid (S n) rest chat_id _) as [us2 buttons].
  cbn [fst snd] in *.
  destruct i as [|i]; simpl in Hi.
  - injection Hi as ->. rewrite Nat.add_0_r, Hkept.
    + rewrite resolve_register. by rewrite decide_True.
    + intros j Hj E. apply Hn. rewrite <-E. apply list_elem_of_fmap.
      exists (S n + j)%nat. split; [done|]. apply elem_of_seq. lia.
  - replace (n + S i)%nat with (S n + i)%nat by lia. by apply IH.
Qed.


Lemma weekly_buttons_other uuid chat_id other items : forall n us,
  other <> chat_id ->
  (weekly_buttons uuid n items chat_id us).1 !! other = us !! other.
Proof.
  induction items as [|item rest IH]; intros n us Hne; simpl; [done|].
  specialize (IH (S n) (register_week chat_id (uuid n) (wi_ids item) us) Hne).
  destruct (weekly_buttons uuid (S n) rest chat_id _) as [us2 buttons].
  cbn [fst snd] in *.
  rewrite IH. by apply register_other.
Qed.

Lemma weekly_buttons_entry uuid chat_id items : forall n us,
  let s := default empty_session (us !! chat_id) in
  let s' := default empty_session
              ((weekly_buttons uuid n items chat_id us).1 !! chat_id) in
  s_step s' = s_step s /\ s_data s' = s_data s /\ s_day s' = s_day s.
Proof.
  induction items as [|item rest IH]; intros n us; simpl; [done|].
  specialize (IH (S n) (register_week chat_id (uuid n) (wi_ids item) us)).
  destruct (weekly_buttons uuid (S n) rest chat_id _) as [us2 buttons].
  cbn [fst snd] in *.
  destruct IH as (-> & -> & ->). apply register_entry.
Qed.

Lemma keyboard_tokens_resolve uuid items page chat_id us :
  let page_items := take PER_PAGE (drop ((page - 1) * PER_PAGE) items) in
  NoDup (map uuid (seq 0 (length page_items))) ->
  exists us' buttons nav,
    create_keyboard_weekly uuid items page chat_id us = (us', InlineKeyboard buttons nav)
    /\ forall i it, page_items !! i = Some it ->
         resolve us' chat_id (uuid i) = Some (wi_ids it).
Proof.
  intros page_items Hnd. unfold create_keyboard_weekly. fold page_items.
  pose proof (weekly_buttons_hit uuid chat_id page_items 0 us) as Hhit.
  destruct (weekly_buttons uuid 0 page_items chat_id us) as [us' buttons].
  simpl in *. eexists us', buttons, _. split; [reflexivity|].
  intros i it Hi. by apply Hhit.
Qed.


(** X21: building the keyboard of a page of the week list leaves the
    sessions of the other chats as they are, and keeps the step, the fields
    and the day of the chat's own session: a trade entry in progress is not
    disturbed by listing the weeks. *)
Theorem keyboard_keeps_entry uuid items page chat_id us :
  let us' := (create_keyboard_weekly uuid items page chat_id us).1 in
  let s := default empty_session (us !! chat_id) in
  let s' := default empty_session (us' !! chat_id) in
  (forall other, other <> chat_id -> us' !! other = us !! other)
  /\ s_step s' = s_step s /\ s_data s' = s_data s /\ s_day s' = s_day s.
Proof.
  unfold create_keyboard_weekly.
  set (page_items := take PER_PAGE (drop ((page - 1) * PER_PAGE) items)).
  pose proof (fun other => weekly_buttons_other uuid chat_id other page_items 0 us) as Ho.
  pose proof (weekly_buttons_entry uuid chat_id page_items 0 us) as He.
  destruct (weekly_buttons uuid 0 page_items chat_id us) as [us' buttons].
  simpl in *. split; [|done].
  apply Ho.
Qed.

(** *** From the week list to the week view *)

Lemma filter_ext_in {A} (P Q : A -> Prop) `{!forall x, Decision (P x)}
    `{!forall x, Decision (Q x)} (l : list A) :
  (forall x, x ∈ l -> P x <-> Q x) -> filter P l = filter Q l.
Proof.
  induction l as [|x l IH]; intros Hall; [done|].
  assert (IH' : filter P l = filter Q l).
  { apply IH. intros y Hy. apply Hall. by apply list_elem_of_further. }
  destruct (decide (P x)) as [Px|Px].
  - rewrite !filter_cons_True; [by rewrite IH'| |done].
    apply Hall; [apply list_elem_of_here|done].
  - rewrite !filter_cons_False; [done| |done].
    intros Qx. apply Px. apply Hall; [apply list_elem_of_here|done].
Qed.

Lemma week_items_ids raw items i it :
  week_items raw = Some items -> items !! i = Some it ->
  exists k, wi_ids it = (members k raw).*1 /\ members k raw <> [].
Proof.
  unfold week_items. intros H Hi.
  destruct (week_buckets raw) as [buckets|] eqn:Hb; [|done]. simpl in H.
  apply mapM_Some in H.
  destruct (Forall2_lookup_r _ _ _ _ _ H Hi) as (b & Hbi & Hit).
  apply list_elem_of_lookup_2 in Hbi.
  destruct (week_buckets_members _ _ _ Hb Hbi) as [Hne Hm].
  exists b.1. rewrite <-Hm. split; [|done].
  unfold item_of_bucket in Hit.
  destruct (date_min _); [|done]. destruct (date_max _); [|done].
  simpl in Hit. by injection Hit as <-.
Qed.

Lemma rows_of_week (rows all : list balance_row) chat_id k :
  NoDup (map b_id all) ->
  rows ≡ₚ filter (fun r => b_userid r = chat_id) all ->
  filter (fun r => b_id r ∈ (members k (map (fun r => (b_id r, b_day r)) rows)).*1
                   ∧ b_userid r = chat_id) all
  = filter (fun r => b_userid r = chat_id ∧ week_key (b_day r) = k) all.
Proof.
  intros Hnd Hrows. apply filter_ext_in. intros r Hr. split.
  - intros [Hid Hu]. split; [done|].
    apply list_elem_of_fmap in Hid as ([bid dy] & E & Hp). simpl in E. subst bid.
    apply list_elem_of_filter in Hp as [Hk Hp]. simpl in Hk.
    apply list_elem_of_fmap in Hp as (r' & E' & Hr'). injection E' as E1 E2.
    rewrite Hrows in Hr'. apply list_elem_of_filter in Hr' as [_ Hr'].
    rewrite (row_of_id all r r' Hnd Hr Hr' E1). by rewrite <-E2.
  - intros [Hu Hk]. split; [|done].
    apply list_elem_of_fmap. exists (b_id r, b_day r). split; [done|].
    apply list_elem_of_filter. split; [done|].
    apply list_elem_of_fmap. exists r. split; [done|].
    rewrite Hrows. by apply list_elem_of_filter.
Qed.

Section WeekView.

Variable SUDOS : list Z.

(** X22: on tables with unique row ids, pressing the [i]-th button of the
    first page of the week list opens the view of one week [k]: the days it
    counts are exactly the chat's rows whose day falls in the week that
    begins on [k], of which there is at least one, and the menu follows,
    provided the tokens drawn for the page differ from each other.  (The
    totals are sums of floats over the rows in the order the database
    returns them, which no ORDER BY fixes; they are not stated.) *)
Theorem weekly_view_shows_its_week uuid chat_id w items i it :
  let raw :=
    map (fun r => (b_id r, b_day r))
        (merge_sort id_le (filter (fun r => b_userid r = chat_id) (balances (db w)))) in
  NoDup (map b_id (balances (db w))) ->
  week_items raw = Some items -> items !! i = Some it -> (i < PER_PAGE)%nat ->
  NoDup (map uuid (seq 0 (length (take PER_PAGE items)))) ->
  exists k,
    let bals :=
      filter (fun r => b_userid r = chat_id ∧ week_key (b_day r) = k)
             (balances (db w)) in
    bals <> []
    /\ exists total_profit total_loss,
         (weekly_chosen SUDOS chat_id (uuid i) (weekly_report uuid chat_id w).1).2
         = [SendMessage chat_id (WeeklyText (length bals) total_profit total_loss)
                        NoMarkup;
            menu_or_refusal SUDOS chat_id].
Proof.
  intros raw Hnd Hitems Hi Hlt Htok.
  destruct (week_items_ids raw items i it Hitems Hi) as (k & Hids & Hne).
  exists k. intros bals.
  assert (Hbals : filter (fun r => b_id r ∈ wi_ids it ∧ b_userid r = chat_id)
                         (balances (db w)) = bals).
  { rewrite Hids. apply rows_of_week; [done|]. apply merge_sort_Permutation. }
  assert (Hnb : bals <> []).
  { destruct (members k raw) as [|[bid dy] m] eqn:Hm; [done|].
    assert (Hin : bid ∈ wi_ids it) by (rewrite Hids; apply list_elem_of_here).
    assert (Hp : (bid, dy) ∈ raw).
    { assert (H : (bid, dy) ∈ members k raw) by (rewrite Hm; apply list_elem_of_here).
      by apply list_elem_of_filter in H as [_ H]. }
    apply list_elem_of_fmap in Hp as (r & E & Hr). injection E as -> ->.
    rewrite merge_sort_Permutation in Hr.
    apply list_elem_of_filter in Hr as [Hu Hr].
    rewrite <-Hbals. intros Hnil.
    assert (Hr' : r ∈ filter (fun r => b_id r ∈ wi_ids it ∧ b_userid r = chat_id)
                             (balances (db w))) by (by apply list_elem_of_filter).
    rewrite Hnil in Hr'. by apply elem_of_nil in Hr'. }
  split; [done|].
  assert (Hraw : raw <> []).
  { intros E. rewrite E in Hne. done. }
  unfold weekly_report. fold raw. destruct raw as [|p raw'] eqn:Eraw; [done|].
  rewrite Hitems.
  assert (Hpage : take PER_PAGE (drop ((1 - 1) * PER_PAGE) items) !! i = Some it).
  { simpl. by rewrite lookup_take_lt. }
  destruct (keyboard_tokens_resolve uuid items 1 chat_id (user_states w) Htok)
    as (us' & buttons & nav & Hkb & Hres).
  rewrite Hkb. unfold weekly_chosen. cbn [fst user_states with_states db].
  rewrite (Hres i it Hpage).
  destruct (wi_ids it) as [|i0 ids'] eqn:Eids.
  { destruct (members k (p :: raw')); [done|discriminate]. }
  rewrite and_then_snd, start_out. cbn [snd app].
  rewrite Hbals. destruct bals; [done|]. eauto.
Qed.

End WeekView.

(** *** The report views *)

Lemma tally_days_tables d1 d2 rows :
  calcbalances d1 = calcbalances d2 -> tally_days d1 rows = tally_days d2 rows.
Proof. intros E. unfold tally_days, select_trades. by rewrite E. Qed.

Lemma filter_own {P : balance_row -> Prop} `{!forall r, Decision (P r)} chat_id
    (l : list balance_row) :
  filter (fun r => P r ∧ b_userid r = chat_id) l
  = filter P (filter (fun r => b_userid r = chat_id) l).
Proof. by rewrite list_filter_filter. Qed.

Section Views.

Variable SUDOS : list Z.

Lemma start_keeps chat_id w c s :
  user_states w !! c = Some s -> user_states (start SUDOS chat_id w).1 !! c = Some s.
Proof.
  intros Hc. unfold start. destruct (decide _); [|done].
  destruct (user_states w !! chat_id) eqn:E; [done|]. simpl.
  rewrite lookup_insert_ne; [done|]. intros ->. congruence.
Qed.

Lemma then_start_keeps chat_id w out c s :
  user_states w !! c = Some s ->
  user_states (and_then (w, out) (start SUDOS chat_id)).1 !! c = Some s.
Proof. intros Hc. rewrite and_then_fst. by apply start_keeps. Qed.

Lemma touch_keeps chat_id us c (s : session) :
  us !! c = Some s -> touch chat_id us !! c = Some s.
Proof.
  intros Hc. unfold touch. destruct (us !! chat_id) eqn:E; [done|].
  rewrite lookup_insert_ne; [done|]. intros ->. congruence.
Qed.

(** X23: opening the menu, a day, a week or a month, or answering the
    confirmation of a deletion, loses nothing of what the sessions hold: a
    session that exists, of any chat and at any step of a trade entry, is
    afterwards exactly what it was, tokens included. *)
Theorem reports_keep_sessions today chat_id bid unique_key m_num tid w c s :
  user_states w !! c = Some s ->
  user_states (start SUDOS chat_id w).1 !! c = Some s
  /\ user_states (daily_chosen SUDOS chat_id bid w).1 !! c = Some s
  /\ user_states (weekly_chosen SUDOS chat_id unique_key w).1 !! c = Some s
  /\ user_states (monthly_chosen SUDOS today chat_id m_num w).1 !! c = Some s
  /\ user_states (delete_exec SUDOS chat_id tid w).1 !! c = Some s
  /\ user_states (delete_cancel SUDOS chat_id w).1 !! c = Some s.
Proof.
  intros Hc. repeat split.
  - by apply start_keeps.
  - unfold daily_chosen. by apply then_start_keeps.
  - unfold weekly_chosen.
    destruct (resolve _ _ _) as [[|i ids']|];
      apply then_start_keeps; simpl; by apply touch_keeps.
  - unfold monthly_chosen. by apply then_start_keeps.
  - unfold delete_exec. by apply then_start_keeps.
  - unfold delete_cancel. by apply then_start_keeps.
Qed.

(** X24: what the views of a day, a week and a month send depends on the
    balance rows of the chat that asks and on the table of the trades only:
    on two databases that agree on these they send the same, so no row of
    another user is ever shown or counted. *)
Theorem views_show_own_rows_only today chat_id bid unique_key m_num us d1 d2 :
  filter (fun r => b_userid r = chat_id) (balances d1)
  = filter (fun r => b_userid r = chat_id) (balances d2) ->
  calcbalances d1 = calcbalances d2 ->
  (daily_chosen SUDOS chat_id bid (World us d1)).2
  = (daily_chosen SUDOS chat_id bid (World us d2)).2
  /\ (weekly_chosen SUDOS chat_id unique_key (World us d1)).2
     = (weekly_chosen SUDOS chat_id unique_key (World us d2)).2
  /\ (monthly_chosen SUDOS today chat_id m_num (World us d1)).2
     = (monthly_chosen SUDOS today chat_id m_num (World us d2)).2.
Proof.
  intros Hrows Htrades. repeat split.
  - unfold daily_chosen. rewrite !and_then_snd, !start_out. cbn [fst snd db].
    rewrite !(filter_own (P := fun r => b_id r = bid)), Hrows.
    unfold select_trades. by rewrite Htrades.
  - unfold weekly_chosen. cbn [user_states db with_states].
    destruct (resolve us chat_id unique_key) as [[|i ids']|];
      rewrite !and_then_snd, !start_out; cbn [fst snd]; [done| |done].
    rewrite !(filter_own (P := fun r => b_id r ∈ i :: ids')), Hrows.
    by rewrite (tally_days_tables d1 d2).
  - unfold monthly_chosen. rewrite !and_then_snd, !start_out. cbn [fst snd db].
    assert (E : forall d,
      filter (fun r => d_year (b_day r) = d_year today ∧ d_month (b_day r) = m_num
                       ∧ b_userid r = chat_id) (balances d)
      = filter (fun r => d_year (b_day r) = d_year today ∧ d_month (b_day r) = m_num)
               (filter (fun r => b_userid r = chat_id) (balances d))).
    { intros d. rewrite list_filter_filter. apply list_filter_iff. tauto. }
    rewrite !E, Hrows. by rewrite (tally_days_tables d1 d2).
Qed.

End Views.

(** *** Inputs on which the statements of the specification fail *)

(** C5: the PnL recorded for the single leg of the worked trade is 2.00,
    not 200.00. *)
Lemma end_to_end_pnl_is_not_200 :
  let w := (converse PyParse.ascii_float [7] demo_day 7 demo_texts
                     (new_report 7 demo_empty).1).1 in
  ~ (map t_entrytarget (calcbalances (db w)) = [[dec 110 (-2)]]
     /\ map t_takeprofittarget (calcbalances (db w)) = [[dec 112 (-2)]]
     /\ map t_totalbalance (calcbalances (db w)) = [[PyFloat.of_Z 200]]
     /\ map b_balance (balances (db w)) = [PyFloat.of_Z 1002]).
Proof. intros w (_ & _ & H & _). vm_compute in H. discriminate H. Qed.


(** *** The theorems at concrete inputs *)

Lemma pnl_value_formula_witness :
  calculate_pnl_value (dec 110 (-2)) (dec 112 (-2)) (PyFloat.of_Z 1) "Long"
  = PyFloat.of_Z 2
  /\ calculate_pnl_value (dec 110 (-2)) (dec 112 (-2)) (PyFloat.of_Z 1) "SHORT"
     = PyFloat.of_Z (-2)
  /\ PyFloat.is_zero
       (calculate_pnl_value (dec 110 (-2)) (dec 110 (-2)) (PyFloat.of_Z 3) "short")
     = true.
Proof.
  split; [|split].
  - destruct (pnl_value_formula (dec 110 (-2)) (dec 112 (-2)) (PyFloat.of_Z 1) "Long")
      as (H & _ & _);
      [vm_compute; apply list_elem_of_here|reflexivity..|].
    rewrite H by (vm_compute; reflexivity). vm_compute. reflexivity.
  - destruct (pnl_value_formula (dec 110 (-2)) (dec 112 (-2)) (PyFloat.of_Z 1) "SHORT")
      as (_ & H & _);
      [vm_compute; apply list_elem_of_further, list_elem_of_here|reflexivity..|].
    rewrite H by (vm_compute; reflexivity). vm_compute. reflexivity.
  - destruct (pnl_value_formula (dec 110 (-2)) (dec 110 (-2)) (PyFloat.of_Z 3) "short")
      as (_ & _ & H);
      [vm_compute; apply list_elem_of_further, list_elem_of_here|reflexivity..|].
    apply H. vm_compute. reflexivity.
Defined.

Lemma parse_failure_keeps_session_witness :
  message_handler PyParse.ascii_float [7] demo_day no_faults 7 "abc" demo_before_stop
  = (demo_before_stop, [say 7 "Error saving."])
  /\ message_handler PyParse.ascii_float [7] demo_day no_faults 7 "abc"
       (at_step 7 ∅ (db demo_empty) None None StLots empty_data)
     = (at_step 7 ∅ (db demo_empty) None None StLots empty_data,
        [say 7 "Enter a number."]).
Proof.
  split.
  - destruct (parse_failure_keeps_session PyParse.ascii_float [7] demo_day no_faults 7
                "abc" demo_before_stop
                (Session (Some StSl) (Some demo_stop_data) None None) StSl)
      as (Hw & _ & Hout);
      [vm_compute; reflexivity|reflexivity| |vm_compute; reflexivity|].
    + unfold numeric_steps. do 6 apply list_elem_of_further. apply list_elem_of_here.
    + specialize (Hout eq_refl).
      destruct (message_handler _ _ _ _ _ _ _) as [w' out]. simpl in *. by subst.
  - destruct (parse_failure_keeps_session PyParse.ascii_float [7] demo_day no_faults 7
                "abc" (at_step 7 ∅ (db demo_empty) None None StLots empty_data)
                (Session (Some StLots) (Some empty_data) None None) StLots)
      as (Hw & Hout & _);
      [vm_compute; reflexivity|reflexivity| |vm_compute; reflexivity|].
    + unfold numeric_steps. apply list_elem_of_further, list_elem_of_here.
    + specialize (Hout ltac:(discriminate)).
      destruct (message_handler _ _ _ _ _ _ _) as [w' out]. simpl in *. by subst.
Defined.

Lemma demo_days_in_range : Forall (fun p => 7 <= toordinal p.2) demo_days.
Proof. unfold demo_days. repeat constructor; vm_compute; discriminate. Defined.

Lemma week_bucketing_witness :
  Forall (fun p => 7 <= toordinal p.2) demo_days
  /\ exists buckets items,
       week_buckets demo_days = Some buckets /\ week_items demo_days = Some items
       /\ StronglySorted Z.lt buckets.*1
       /\ concat buckets.*2 ≡ₚ demo_days
       /\ Forall2 exposes buckets items.
Proof.
  split; [exact demo_days_in_range|].
  destruct (week_bucketing demo_days demo_days_in_range)
    as (buckets & items & Hb & Hi & Hs & _ & _ & Hc & He & _).
  exists buckets, items. auto.
Defined.

Lemma end_to_end_trade_witness :
  select_balance_of_day (db demo_empty) demo_day 7 = None
  /\ let w := (converse PyParse.ascii_float [7] demo_day 7 demo_texts
                        (new_report 7 demo_empty).1).1 in
     calcbalances (db w)
     = [TradeRow 1 "EURUSD" (PyFloat.of_Z 1) [] [dec 2 (-1)]
                 [dec 110 (-2)] [dec 112 (-2)] (dec 108 (-2)) "long" [PyFloat.of_Z 2]]
     /\ select_balance_of_day (db w) demo_day 7
        = Some (BalanceRow 1 (Some [1]) (PyFloat.of_Z 1002) demo_day 7).
Proof.
  split; [reflexivity|].
  exact (end_to_end_trade [7] ∅ (db demo_empty) 7 demo_day eq_refl).
Defined.

Lemma stale_token_not_found_witness :
  resolve (user_states demo_week_list) 7 demo_token = Some [1]
  /\ resets_session PyParse.ascii_float [7] 7 demo_week_list
                    (close_handler 7 demo_week_list).1
  /\ resolve (user_states (close_handler 7 demo_week_list).1) 7 demo_token = None.
Proof.
  split; [vm_compute; reflexivity|]. split; [apply reset_close|].
  exact (proj1 (stale_token_not_found PyParse.ascii_float [7] 7 demo_week_list _
                  demo_token (reset_close _ _ 7 demo_week_list))).
Defined.



Lemma demo_two_legs_values :
  paired_values [dec 110 (-2); dec 111 (-2)] [dec 112 (-2)] (PyFloat.of_Z 1) "long"
  = [PyFloat.of_Z 2; PyFloat.of_Z 1].
Proof. vm_compute. reflexivity. Qed.

Lemma demo_flat_short_values :
  paired_values [dec 110 (-2)] [dec 110 (-2)] (PyFloat.of_Z 1) "short"
  = [S754_zero true].
Proof. vm_compute. reflexivity. Qed.

Lemma terminal_step_single_base_witness :
  let r := message_handler PyParse.ascii_float [7] demo_day no_faults 7 "1.08"
                           demo_two_legs in
  let r' := message_handler PyParse.ascii_float [7] demo_day no_faults 7 "1.08"
                            demo_flat_short in
  let base := PyFloat.of_Z 1000 in
  let vals := [PyFloat.of_Z 2; PyFloat.of_Z 1] in
  select_balance_of_day (db demo_two_legs) demo_day 7
  = Some (BalanceRow 1 None base demo_day 7)
  /\ (exists trade,
        calcbalances (db r.1) = [trade]
        /\ t_totalbalance trade = map PyFloat.stored vals
        /\ t_gains trade
           = map PyFloat.stored (map (calculate_balance_percent base) vals)
        /\ t_losses trade = [])
  /\ (exists row',
        select_balance_of_day (db r.1) demo_day 7 = Some row'
        /\ b_id row' = 1
        /\ b_balance row'
           = PyFloat.stored
               (PyFloat.add base (fold_left PyFloat.add vals (PyFloat.of_Z 0)))
        /\ b_balance row' = PyFloat.of_Z 1003
        /\ b_forIds row' = Some [1])
  /\ (exists trade,
        calcbalances (db r'.1) = [trade]
        /\ t_totalbalance trade = [S754_zero false]).
Proof.
  intros r r' base vals. split; [vm_compute; reflexivity|].
  destruct (terminal_step_single_base PyParse.ascii_float [7] demo_day no_faults 7
              "1.08" demo_two_legs
              (Session (Some StSl) (Some demo_two_legs_data) None None)
              (dec 108 (-2)) (BalanceRow 1 None (PyFloat.of_Z 1000) demo_day 7)
              "EURUSD" (PyFloat.of_Z 1) [dec 110 (-2); dec 111 (-2)] [dec 112 (-2)]
              "long")
    as (_ & Htrade & Hrow & _);
    [vm_compute; reflexivity|reflexivity|vm_compute; reflexivity
    |reflexivity|reflexivity|reflexivity|reflexivity|discriminate
    |reflexivity|discriminate|vm_compute; reflexivity|reflexivity|].
  destruct (terminal_step_single_base PyParse.ascii_float [7] demo_day no_faults 7
              "1.08" demo_flat_short
              (Session (Some StSl) (Some demo_flat_short_data) None None)
              (dec 108 (-2)) (BalanceRow 1 None (PyFloat.of_Z 1000) demo_day 7)
              "EURUSD" (PyFloat.of_Z 1) [dec 110 (-2)] [dec 110 (-2)] "short")
    as (_ & Hflat & _);
    [vm_compute; reflexivity|reflexivity|vm_compute; reflexivity
    |reflexivity|reflexivity|reflexivity|reflexivity|discriminate
    |reflexivity|discriminate|vm_compute; reflexivity|reflexivity|].
  cbv zeta in Htrade, Hrow, Hflat.
  rewrite demo_two_legs_values in Htrade, Hrow.
  rewrite demo_flat_short_values in Hflat.
  split; [|split].
  - destruct Htrade as (trade & Hc & Ht & Hg & Hl). exists trade.
    split; [exact Hc|]. split; [exact Ht|]. split; [exact Hg|exact Hl].
  - destruct Hrow as (row' & Hs & Hi & Hb & Hf). exists row'.
    split; [exact Hs|]. split; [exact Hi|]. split; [exact Hb|].
    split; [rewrite Hb; vm_compute; reflexivity|exact Hf].
  - destruct Hflat as (trade & Hc & Ht & _). exists trade.
    split; [exact Hc|exact Ht].
Defined.

Lemma percent_sign_is_dropped_witness :
  PyParse.ascii_float "50" = Some (PyFloat.of_Z 50)
  /\ message_handler PyParse.ascii_float [7] demo_day no_faults 7 "  50%  "
       (at_step 7 ∅ (db demo_empty) None None StLots empty_data)
     = (at_step 7 ∅ (db demo_empty) None None StType
                (TradeData None None (Some (PyFloat.of_Z 50)) None None None None),
        prompt_for 7 StType)
  /\ (message_handler PyParse.ascii_float [7] demo_day no_faults 7 " EUR%USD% "
        (at_step 7 ∅ (db demo_empty) None None StCurrency empty_data)).1
     = at_step 7 ∅ (db demo_empty) None None StBalance
               (TradeData (Some "EURUSD") None None None None None None)
  /\ balances
       (db (message_handler PyParse.ascii_float [7] demo_day no_faults 7 "50%"
              (at_step 7 ∅ (db demo_empty) None None StBalance empty_data)).1)
     = [BalanceRow 1 None (PyFloat.of_Z 50) demo_day 7].
Proof.
  assert (H : PyParse.ascii_float "50" = Some (PyFloat.of_Z 50))
    by (vm_compute; reflexivity).
  split; [exact H|].
  pose proof (percent_sign_is_dropped PyParse.ascii_float [7] demo_day 7 ∅
                (db demo_empty) empty_data None None H) as P.
  cbv zeta in P. destruct P as (_ & (H50 & Hsp & Heur) & Hcur & Hnum).
  split; [|split].
  - exact (proj1 (proj2 (Hnum _ Hsp))).
  - rewrite (Hcur " EUR%USD% "), Heur. reflexivity.
  - rewrite (proj1 (Hnum _ H50)). reflexivity.
Defined.

(** *** The further theorems at concrete inputs *)

Lemma demo_before_stop_session :
  user_states demo_before_stop !! 7
  = Some (Session (Some StSl) (Some demo_stop_data) None None).
Proof. apply lookup_insert_eq. Qed.

Lemma demo_before_stop_sessions_ok : sessions_ok (user_states demo_before_stop).
Proof.
  intros c s. unfold demo_before_stop, at_step. simpl.
  destruct (decide (c = 7)) as [->|Hne].
  - rewrite lookup_insert_eq. intros [= <-]. exists demo_stop_data. split; [done|].
    simpl. unfold has_direction, has_targets. simpl.
    repeat split; eauto; eexists; (split; [reflexivity|simpl; lia]).
  - rewrite lookup_insert_ne, lookup_empty by done. done.
Qed.

Lemma demo_before_stop_db_ok : db_ok (db demo_before_stop).
Proof.
  split; simpl.
  - apply NoDup_nil_2.
  - apply Forall_nil_2.
  - apply NoDup_singleton.
  - apply Forall_singleton. simpl. lia.
  - done.
Qed.

Lemma pnl_short_negates_long_witness :
  calculate_pnl_value (dec 110 (-2)) (dec 112 (-2)) (PyFloat.of_Z 1) "Short"
  = PyFloat.neg (calculate_pnl_value (dec 110 (-2)) (dec 112 (-2)) (PyFloat.of_Z 1) "Long").
Proof.
  apply (pnl_short_negates_long (dec 110 (-2)) (dec 112 (-2)) (PyFloat.of_Z 1)
           "Short" "Long"); [reflexivity|vm_compute; discriminate].
Defined.

Lemma message_handler_other_chats_witness :
  user_states (message_handler PyParse.ascii_float [7] demo_day no_faults 7 "1.08"
                               demo_before_stop).1 !! 8
  = user_states demo_before_stop !! 8.
Proof.
  apply (message_handler_other_chats PyParse.ascii_float [7] demo_day no_faults 7
           "1.08" demo_before_stop 8). lia.
Defined.

Lemma message_handler_writes_only_at_witness :
  db (message_handler PyParse.ascii_float [7] demo_day no_faults 7 "EURUSD"
                      (new_report 7 demo_before_stop).1).1
  = db (new_report 7 demo_before_stop).1.
Proof.
  apply (message_handler_writes_only_at PyParse.ascii_float [7] demo_day no_faults 7
           "EURUSD" (new_report 7 demo_before_stop).1).
  intros s. simpl. rewrite lookup_insert_eq. intros [= <-]. simpl.
  repeat split; discriminate.
Defined.

Lemma message_handler_transitions_witness :
  session_after StSl demo_stop_data
    (Session (Some StSl) (Some demo_stop_data) None None)
    (user_states (message_handler PyParse.ascii_float [7] demo_day no_faults 7 "1.08"
                                  demo_before_stop).1 !! 7).
Proof.
  apply (message_handler_transitions PyParse.ascii_float [7] demo_day no_faults 7
           "1.08" demo_before_stop);
    [exact demo_before_stop_session|reflexivity|discriminate|reflexivity].
Defined.

Lemma sessions_stay_well_formed_witness :
  session_ok (Session (Some StCurrency) (Some empty_data) None None).
Proof.
  apply (sessions_stay_well_formed PyParse.ascii_float [7] demo_before_stop
           (new_report 7 demo_before_stop).1 demo_before_stop_sessions_ok
           (step_new_report _ _ 7 demo_before_stop) 7).
  apply lookup_insert_eq.
Defined.

Lemma tables_stay_consistent_witness :
  db_ok (db (message_handler PyParse.ascii_float [7] demo_day no_faults 7 "1.08"
                             demo_before_stop).1).
Proof.
  apply (tables_stay_consistent PyParse.ascii_float [7] demo_before_stop _
           demo_before_stop_db_ok).
  apply step_message.
Defined.

Lemma trades_stay_well_formed_witness :
  Forall trade_ok
    (calcbalances
       (db (message_handler PyParse.ascii_float [7] demo_day no_faults 7 "1.08"
                            demo_before_stop).1)).
Proof.
  apply (trades_stay_well_formed PyParse.ascii_float [7] demo_before_stop _
           demo_before_stop_sessions_ok (Forall_nil_2 _)).
  apply step_message.
Defined.

Lemma terminal_step_saves_witness :
  exists total new_balance,
    (message_handler PyParse.ascii_float [7] demo_day no_faults 7 "1.08"
                     demo_before_stop).2
    = [SendMessage 7 (Saved total new_balance) ReplyKeyboardRemove;
       menu_or_refusal [7] 7].
Proof.
  destruct (terminal_step_saves PyParse.ascii_float [7] demo_day no_faults 7 "1.08"
              demo_before_stop _ (dec 108 (-2))
              (BalanceRow 1 None (PyFloat.of_Z 1000) demo_day 7)
              demo_before_stop_session)
    as (d & currency & lots & entries & tps & ttype & _ & _ & _ & _ & _ & _ & H);
    [exists demo_stop_data; split; [reflexivity|];
     simpl; unfold has_direction, has_targets; simpl;
     repeat split; eauto; eexists; (split; [reflexivity|simpl; lia])
    |reflexivity|exact parse_108|reflexivity|reflexivity|].
  cbv zeta in H. rewrite H, and_then_snd, start_out. simpl. eauto.
Defined.

Lemma terminal_step_without_row_witness :
  message_handler PyParse.ascii_float [7] demo_day no_faults 7 "1.08"
                  (at_step 7 ∅ (db demo_empty) None None StSl demo_stop_data)
  = (keep_step 7 (Session (Some StSl) (Some demo_stop_data) None None)
       (set_sl (dec 108 (-2)) demo_stop_data)
       (at_step 7 ∅ (db demo_empty) None None StSl demo_stop_data),
     [say 7 "Error saving."]).
Proof.
  exact (terminal_step_without_row PyParse.ascii_float [7] demo_day no_faults 7 "1.08"
           (at_step 7 ∅ (db demo_empty) None None StSl demo_stop_data)
           (Session (Some StSl) (Some demo_stop_data) None None) (dec 108 (-2))
           (lookup_insert_eq _ _ _) eq_refl parse_108 eq_refl).
Defined.

Lemma message_handler_other_users_rows_witness :
  filter (fun r => b_userid r <> 8)
         (balances (db (message_handler PyParse.ascii_float [7] demo_day no_faults 8
                                        "1000" demo_before_stop).1))
  = filter (fun r => b_userid r <> 8) (balances (db demo_before_stop)).
Proof.
  apply (message_handler_other_users_rows PyParse.ascii_float [7] demo_day no_faults 8
           "1000" demo_before_stop demo_before_stop_db_ok).
Defined.

Lemma delete_trade_unknown_witness :
  delete_trade (db demo_before_stop) 5 = db demo_before_stop.
Proof.
  apply (delete_trade_unknown (db demo_before_stop) 5 demo_before_stop_db_ok).
  apply Forall_nil_2.
Defined.

Lemma views_agree_when_targets_cover_witness :
  view_leg_pnls (TradeRow 1 "EURUSD" (PyFloat.of_Z 1) [] [] [dec 110 (-2)]
                          [dec 112 (-2)] (dec 108 (-2)) "long" [])
  = paired_values [dec 110 (-2)] [dec 112 (-2)] (PyFloat.of_Z 1) "long".
Proof.
  apply (views_agree_when_targets_cover
           (TradeRow 1 "EURUSD" (PyFloat.of_Z 1) [] [] [dec 110 (-2)]
                     [dec 112 (-2)] (dec 108 (-2)) "long" [])).
  simpl. lia.
Defined.

Lemma demo_week_items :
  week_items
    (map (fun r => (b_id r, b_day r))
         (merge_sort id_le
            (filter (fun r => b_userid r = 7) (balances (db demo_before_stop)))))
  = Some [demo_week].
Proof. vm_compute. reflexivity. Qed.


Lemma weekly_view_shows_its_week_witness :
  exists days total_profit total_loss,
    (weekly_chosen [7] 7 demo_token
       (weekly_report (fun _ => demo_token) 7 demo_before_stop).1).2
    = [SendMessage 7 (WeeklyText days total_profit total_loss) NoMarkup;
       menu_or_refusal [7] 7].
Proof.
  destruct (weekly_view_shows_its_week [7] (fun _ => demo_token) 7 demo_before_stop
              [demo_week] 0 demo_week)
    as (k & H);
    [apply NoDup_singleton|exact demo_week_items|reflexivity|unfold PER_PAGE; lia
    |apply NoDup_singleton|].
  cbv zeta in H. destruct H as (_ & p & l & H). rewrite H. eauto.
Defined.

Lemma trade_entry_flow_witness :
  user_states (converse PyParse.ascii_float [7] demo_day 7 demo_texts
                        (new_report 7 demo_empty).1).1 !! 7
  = Some empty_session.
Proof.
  destruct (trade_entry_flow PyParse.ascii_float [7] ∅ (db demo_empty) 7 demo_day
              "EURUSD" "1000" "1" "long" "1.10" "no" "1.12" "no" "1.08"
              (PyFloat.of_Z 1000) (PyFloat.of_Z 1) (dec 110 (-2)) (dec 112 (-2))
              (dec 108 (-2)) eq_refl parse_1000 parse_1 long_is_direction parse_110
              no_is_not_yes parse_112 no_is_not_yes parse_108)
    as (_ & _ & H).
  rewrite decide_True in H by apply list_elem_of_here. exact H.
Defined.

Lemma reports_keep_sessions_witness :
  let s := Session (Some StSl) (Some demo_stop_data) None None in
  user_states (start [7] 7 demo_before_stop).1 !! 7 = Some s
  /\ user_states (daily_chosen [7] 7 1 demo_before_stop).1 !! 7 = Some s
  /\ user_states (weekly_chosen [7] 7 demo_token demo_before_stop).1 !! 7 = Some s
  /\ user_states (monthly_chosen [7] demo_day 7 11 demo_before_stop).1 !! 7 = Some s
  /\ user_states (delete_exec [7] 7 1 demo_before_stop).1 !! 7 = Some s
  /\ user_states (delete_cancel [7] 7 demo_before_stop).1 !! 7 = Some s.
Proof.
  exact (reports_keep_sessions [7] demo_day 7 1 demo_token 11 1 demo_before_stop 7 _
           demo_before_stop_session).
Defined.

Lemma views_show_own_rows_only_witness :
  (daily_chosen [7] 7 1 (World ∅ (db demo_before_stop))).2
  = (daily_chosen [7] 7 1 (World ∅ demo_two_users)).2
  /\ (weekly_chosen [7] 7 demo_token (World ∅ (db demo_before_stop))).2
     = (weekly_chosen [7] 7 demo_token (World ∅ demo_two_users)).2
  /\ (monthly_chosen [7] demo_day 7 11 (World ∅ (db demo_before_stop))).2
     = (monthly_chosen [7] demo_day 7 11 (World ∅ demo_two_users)).2.
Proof.
  apply (views_show_own_rows_only [7] demo_day 7 1 demo_token 11 ∅
           (db demo_before_stop) demo_two_users); reflexivity.
Defined.
